(** * Hyperspectral cube accessor: a verification development

    Shallow embedding of [core/data_handler.py] (class [DataHandler]), of
    the band-selection, wavelength, file-pair and configuration helpers of
    [core/utils.py] and of the dataset registry of [core/data_manager.py],
    with the properties of the accessor's specification proved, or refuted,
    over the embedding, and further properties of the code proved.

    Conventions.
    - Python integers are [Z]; tuples and lists are [list]; [None] is
      [option]'s [None].
    - Python [str] values are [string]s of ASCII characters; [str.lower]
      and [str.strip] act on the ASCII letters and ASCII white space.
    - [print] is an effect: functions whose messages matter return the list
      of messages they emitted next to their result.
    - A [try ... except Exception] block is a match on a fallible result. *)

From Stdlib Require Import ZArith List Bool Lia String Ascii.
From Stdlib Require Import QArith Qround Qabs DecimalString.
Import ListNotations.

Open Scope string_scope.
Open Scope list_scope.
Open Scope Z_scope.

(* ================================================================== *)
(** * Python string primitives *)
(* ================================================================== *)

Module PyStr.

(** [c.lower()] on an ASCII character. *)
Definition lower_ascii (c : ascii) : ascii :=
  let n := nat_of_ascii c in
  if (Nat.leb 65 n && Nat.leb n 90)%bool then ascii_of_nat (n + 32) else c.

(** [s.lower()] *)
Fixpoint lower (s : string) : string :=
  match s with
  | EmptyString => EmptyString
  | String c r => String (lower_ascii c) (lower r)
  end.

(** [s.startswith(p)] *)
Fixpoint startswith (p s : string) : bool :=
  match p, s with
  | EmptyString, _ => true
  | String a p', String b s' => (Ascii.eqb a b && startswith p' s')%bool
  | String _ _, EmptyString => false
  end.

(** [p in s] for strings: [p] occurs as a contiguous substring of [s]. *)
Fixpoint contains (p s : string) : bool :=
  (startswith p s ||
   match s with
   | EmptyString => false
   | String _ s' => contains p s'
   end)%bool.

(** [any(p in s for p in ps)] *)
Definition any_in (ps : list string) (s : string) : bool :=
  existsb (fun p => contains p s) ps.

(** [any(s.startswith(p) for p in ps)], i.e. [s.startswith(tuple(ps))] *)
Definition startswith_any (ps : list string) (s : string) : bool :=
  existsb (fun p => startswith p s) ps.

Definition newline : ascii := ascii_of_nat 10.

(** The characters [str.strip()] removes: tab, line feed, vertical tab,
    form feed, carriage return, the four separators 28..31 and space. *)
Definition is_space (c : ascii) : bool :=
  let n := nat_of_ascii c in
  ((Nat.leb 9 n && Nat.leb n 13) || (Nat.leb 28 n && Nat.leb n 32))%bool.

Fixpoint lstrip_with (f : ascii -> bool) (s : string) : string :=
  match s with
  | EmptyString => EmptyString
  | String c r => if f c then lstrip_with f r else s
  end.

Fixpoint rstrip_with (f : ascii -> bool) (s : string) : string :=
  match s with
  | EmptyString => EmptyString
  | String c r =>
      match rstrip_with f r with
      | EmptyString => if f c then EmptyString else String c EmptyString
      | r' => String c r'
      end
  end.

Definition strip_with (f : ascii -> bool) (s : string) : string :=
  rstrip_with f (lstrip_with f s).

(** [s.strip()] *)
Definition strip (s : string) : string := strip_with is_space s.

Fixpoint mem_char (c : ascii) (cs : string) : bool :=
  match cs with
  | EmptyString => false
  | String d r => (Ascii.eqb c d || mem_char c r)%bool
  end.

(** [s.strip(chars)] *)
Definition strip_chars (chars : string) (s : string) : string :=
  strip_with (fun c => mem_char c chars) s.

(** [s.split(sep)] for a one-character separator: never empty. *)
Fixpoint split_char (sep : ascii) (s : string) : list string :=
  match s with
  | EmptyString => [EmptyString]
  | String c r =>
      let l := split_char sep r in
      if Ascii.eqb c sep then EmptyString :: l
      else match l with
           | h :: t => String c h :: t
           | [] => [String c EmptyString]
           end
  end.

(** [s.partition(sep)] for a one-character separator; the boolean tells
    whether the separator was found. *)
Fixpoint partition_char (sep : ascii) (s : string) : string * bool * string :=
  match s with
  | EmptyString => (EmptyString, false, EmptyString)
  | String c r =>
      if Ascii.eqb c sep then (EmptyString, true, r)
      else let '(a, found, b) := partition_char sep r in (String c a, found, b)
  end.

(** [sep.join(parts)] *)
Fixpoint join (sep : string) (parts : list string) : string :=
  match parts with
  | [] => EmptyString
  | [x] => x
  | x :: rest => (x ++ sep ++ join sep rest)%string
  end.

(** [f.readlines()]: the lines of a text, each with its line feed; only
    the last line may lack one. *)
Fixpoint readlines (s : string) : list string :=
  match s with
  | EmptyString => []
  | String c r =>
      if Ascii.eqb c newline then String c EmptyString :: readlines r
      else match readlines r with
           | [] => [String c EmptyString]
           | h :: t => String c h :: t
           end
  end.

(** [f.writelines(lines)]: the lines, concatenated as they are. *)
Definition writelines (lines : list string) : string :=
  fold_right String.append EmptyString lines.

(** [s[-1]], when [s] is not empty. *)
Fixpoint last_char (s : string) : option ascii :=
  match s with
  | EmptyString => None
  | String c EmptyString => Some c
  | String _ r => last_char r
  end.

(** [s[1:-1]] *)
Fixpoint drop_last (s : string) : string :=
  match s with
  | EmptyString => EmptyString
  | String c EmptyString => EmptyString
  | String c r => String c (drop_last r)
  end.

Definition strip_ends (s : string) : string :=
  match s with
  | EmptyString => EmptyString
  | String _ r => drop_last r
  end.

(** [s.endswith(p)] *)
Fixpoint endswith (p s : string) : bool :=
  (String.eqb p s ||
   match s with
   | EmptyString => false
   | String _ r => endswith p r
   end)%bool.

Fixpoint forallb_str (f : ascii -> bool) (s : string) : bool :=
  match s with
  | EmptyString => true
  | String c r => (f c && forallb_str f r)%bool
  end.

(** [str(n)] for an integer. *)
Definition str_of_int (n : Z) : string := NilZero.string_of_int (Z.to_int n).

Definition is_digit (c : ascii) : bool :=
  let n := nat_of_ascii c in (Nat.leb 48 n && Nat.leb n 57)%bool.

Definition digit_value (c : ascii) : Z := Z.of_nat (nat_of_ascii c) - 48.

Fixpoint digits_value (acc : Z) (s : string) : Z :=
  match s with
  | EmptyString => acc
  | String c r => digits_value (10 * acc + digit_value c) r
  end.

Definition unsigned_int (s : string) : option Z :=
  match s with
  | EmptyString => None
  | _ => if forallb_str is_digit s then Some (digits_value 0 s) else None
  end.

(** [int(s)] on decimal literals: surrounding white space, an optional
    sign, then digits; [None] stands for [ValueError].  (Digit-group
    underscores, which Python also accepts, are not recognised.) *)
Definition int_of_str (s : string) : option Z :=
  match strip s with
  | String "-" r => option_map Z.opp (unsigned_int r)
  | String "+" r => unsigned_int r
  | t => unsigned_int t
  end.

End PyStr.

(* ================================================================== *)
(** * float64 values *)
(* ================================================================== *)

(** NumPy's float64 elements.  Finite values and their arithmetic are
    idealised as rationals (no rounding, no signed zero); the three special
    values and the way comparisons treat them are IEEE 754's. *)
Module Num.

Inductive f64 :=
| Fin (q : Q)
| PInf
| NInf
| NaN.

Definition isnan (x : f64) : bool :=
  match x with NaN => true | _ => false end.

Definition isfinite (x : f64) : bool :=
  match x with Fin _ => true | _ => false end.

Definition Qlt_bool (a b : Q) : bool := negb (Qle_bool b a).

(** [x == y] *)
Definition feq (x y : f64) : bool :=
  match x, y with
  | Fin a, Fin b => Qeq_bool a b
  | PInf, PInf | NInf, NInf => true
  | _, _ => false
  end.

(** [x < y] *)
Definition flt (x y : f64) : bool :=
  match x, y with
  | NaN, _ | _, NaN => false
  | Fin a, Fin b => Qlt_bool a b
  | NInf, NInf => false
  | NInf, _ => true
  | _, PInf => match x with PInf => false | _ => true end
  | _, _ => false
  end.

(** [x <= y] *)
Definition fle (x y : f64) : bool := (flt x y || feq x y)%bool.

(** [x > y], [x >= y] *)
Definition fgt (x y : f64) : bool := flt y x.
Definition fge (x y : f64) : bool := fle y x.

Definition fneg (x : f64) : f64 :=
  match x with
  | Fin a => Fin (- a)
  | PInf => NInf
  | NInf => PInf
  | NaN => NaN
  end.

(** [x + y] *)
Definition fadd (x y : f64) : f64 :=
  match x, y with
  | NaN, _ | _, NaN => NaN
  | Fin a, Fin b => Fin (a + b)
  | PInf, NInf | NInf, PInf => NaN
  | PInf, _ | _, PInf => PInf
  | NInf, _ | _, NInf => NInf
  end.

(** [x - y] *)
Definition fsub (x y : f64) : f64 := fadd x (fneg y).

(** [abs(x)] *)
Definition fabs (x : f64) : f64 :=
  match x with
  | Fin a => Fin (Qabs a)
  | PInf | NInf => PInf
  | NaN => NaN
  end.

Definition sign_of (a : Q) : comparison := (a ?= 0)%Q.

(** [x * y] *)
Definition fmul (x y : f64) : f64 :=
  match x, y with
  | NaN, _ | _, NaN => NaN
  | Fin a, Fin b => Fin (a * b)
  | Fin a, PInf | PInf, Fin a =>
      match sign_of a with Gt => PInf | Lt => NInf | Eq => NaN end
  | Fin a, NInf | NInf, Fin a =>
      match sign_of a with Gt => NInf | Lt => PInf | Eq => NaN end
  | PInf, PInf | NInf, NInf => PInf
  | PInf, NInf | NInf, PInf => NInf
  end.

(** [x / y] *)
Definition fdiv (x y : f64) : f64 :=
  match x, y with
  | NaN, _ | _, NaN => NaN
  | Fin a, Fin b =>
      match sign_of b with
      | Eq => match sign_of a with Gt => PInf | Lt => NInf | Eq => NaN end
      | _ => Fin (a / b)
      end
  | Fin _, _ => Fin 0
  | PInf, Fin b => match sign_of b with Lt => NInf | _ => PInf end
  | NInf, Fin b => match sign_of b with Lt => PInf | _ => NInf end
  | _, _ => NaN
  end.

(** [max(x, y)] and [min(x, y)] of Python, on finite values. *)
Definition Qmax (a b : Q) : Q := if Qle_bool a b then b else a.
Definition Qmin (a b : Q) : Q := if Qle_bool a b then a else b.

(** [np.clip(x, lo, hi)]: NaN stays NaN. *)
Definition clip (lo hi : Q) (x : f64) : f64 :=
  match x with
  | NaN => NaN
  | PInf => Fin hi
  | NInf => Fin lo
  | Fin a => Fin (Qmin (Qmax a lo) hi)
  end.

(** Truncation toward zero. *)
Definition Qtrunc (a : Q) : Z :=
  if Qle_bool 0 a then Qfloor a else Qceiling a.

(** [x.astype(np.uint8)].  In range, the value is truncated.  NumPy leaves
    the conversion of NaN, of the infinities and of out-of-range values to
    the platform: [undef] is what the platform produces. *)
Definition astype_uint8 (undef : Z) (x : f64) : Z :=
  match x with
  | Fin a => if (Qle_bool 0 a && Qlt_bool a 256)%bool then Qtrunc a
             else undef mod 256
  | _ => undef mod 256
  end.

End Num.

(* ================================================================== *)
(** * NetCDF axis introspection ([_determine_emit_transpose]) *)
(* ================================================================== *)

Module Introspector.

Inductive axis_kind := Spectral | Spatial | Unknown.

Definition axis_kind_eqb (a b : axis_kind) : bool :=
  match a, b with
  | Spectral, Spectral | Spatial, Spatial | Unknown, Unknown => true
  | _, _ => false
  end.

(** One entry of [dim_types]: [(kind, i, dim_name, dim_size)]. *)
Record dim_type := DimType {
  dt_kind : axis_kind;
  dt_index : Z;
  dt_name : string;
  dt_size : Z
}.

(** What the function prints. *)
Inductive message :=
| MsgClassification (dts : list dim_type)
| WarnNoSpectral            (* "Warning: No spectral dimension identified, ..." *)
| WarnUnusualPosition (i : Z). (* "Warning: Unusual spectral dimension position" *)

Definition spectral_names : list string := ["bands"; "wavelength"; "spectral"].
Definition spatial_names : list string :=
  ["downtrack"; "crosstrack"; "x"; "y"; "lat"; "lon"].

(** The body of the classification loop, for one axis. *)
Definition classify_axis (dim_name : string) (dim_size : Z) : axis_kind :=
  let dim_name_lower := PyStr.lower dim_name in
  if (PyStr.any_in spectral_names dim_name_lower
      || ((200 <=? dim_size) && (dim_size <=? 400)))%bool then Spectral
  else if (PyStr.any_in spatial_names dim_name_lower
           || (50 <=? dim_size))%bool then Spatial
  else Unknown.

(** [for i, (dim_name, dim_size) in enumerate(zip(dimensions, shape))] *)
Fixpoint classify_from (i : Z) (dimensions : list string) (shape : list Z)
  : list dim_type :=
  match dimensions, shape with
  | n :: ds, s :: ss =>
      DimType (classify_axis n s) i n s :: classify_from (i + 1) ds ss
  | _, _ => []
  end.

Definition classify (dimensions : list string) (shape : list Z) : list dim_type :=
  classify_from 0 dimensions shape.

(** [[dt for dt in dim_types if dt[0] == 'spectral']] *)
Definition spectral_dims (dts : list dim_type) : list dim_type :=
  filter (fun dt => axis_kind_eqb (dt_kind dt) Spectral) dts.

(** The spectral index the function settles on, with the message of the
    branch taken. *)
Definition choose_spectral_index (dts : list dim_type) : Z * list message :=
  match spectral_dims dts with
  | [] => (0, [WarnNoSpectral])
  | dt :: _ => (dt_index dt, [])
  end.

(** [[i for i in range(3) if i != spectral_index]] *)
Definition other_indices (spectral_index : Z) : list Z :=
  filter (fun i => negb (i =? spectral_index)) [0; 1; 2].

(** [DataHandler._determine_emit_transpose]: the transpose order, or [None]
    when no transpose is needed, together with the printed messages. *)
Definition _determine_emit_transpose (dimensions : list string) (shape : list Z)
  : option (list Z) * list message :=
  let dim_types := classify dimensions shape in
  let '(spectral_index, warn) := choose_spectral_index dim_types in
  let log := MsgClassification dim_types :: warn in
  if spectral_index =? 0 then (Some [1; 2; 0], log)
  else if spectral_index =? 2 then (None, log)
  else
    let log' := log ++ [WarnUnusualPosition spectral_index] in
    if Nat.eqb (List.length shape) 3
    then (Some (other_indices spectral_index ++ [spectral_index]), log')
    else (None, log').

(** [np.transpose(a, axes)] seen on the axes of [a]: axis [i] of the result
    is axis [axes[i]] of [a].  [l] lists one datum per axis (its name, or
    its length). *)
Definition permute_axes {A} (d : A) (axes : list Z) (l : list A) : list A :=
  map (fun a => nth (Z.to_nat a) l d) axes.

(** [if transpose_order is not None: data_array = np.transpose(...)] *)
Definition apply_transpose {A} (d : A) (order : option (list Z)) (l : list A)
  : list A :=
  match order with
  | Some axes => permute_axes d axes l
  | None => l
  end.

(** A 3-D array as a function of its index triple, and [np.transpose] on
    it: element [(i0,i1,i2)] of the result is the element of [a] whose
    index along axis [axes[m]] is [i_m]. *)
Definition cube (V : Type) := Z -> Z -> Z -> V.

Definition source_index (axes : list Z) (i0 i1 i2 : Z) (ax : Z) : Z :=
  if ax =? nth 0 axes 0 then i0
  else if ax =? nth 1 axes 1 then i1
  else i2.

Definition np_transpose {V} (a : cube V) (axes : list Z) : cube V :=
  fun i0 i1 i2 =>
    a (source_index axes i0 i1 i2 0)
      (source_index axes i0 i1 i2 1)
      (source_index axes i0 i1 i2 2).

Definition transpose_cube {V} (order : option (list Z)) (a : cube V) : cube V :=
  match order with
  | Some axes => np_transpose a axes
  | None => a
  end.

(** The axes that are classified spectral. *)
Definition spectral_axes (dimensions : list string) (shape : list Z) : list Z :=
  map dt_index (spectral_dims (classify dimensions shape)).

Definition warnings (log : list message) : list message :=
  filter (fun m => match m with MsgClassification _ => false | _ => true end) log.

End Introspector.

(* ================================================================== *)
(** * Arrays *)
(* ================================================================== *)

Module NdArray.
Import Num.

(** [range(n)] *)
Definition range (n : Z) : list Z := map Z.of_nat (seq 0 (Z.to_nat n)).

(** [np.arange(1, n + 1)] as float64 wavelengths. *)
Definition arange1 (n : Z) : list f64 :=
  map (fun i => Fin (inject_Z (i + 1))) (range n).

(** An element of a (possibly masked) array: its value and its mask bit.
    A plain [ndarray] has every mask bit clear. *)
Record cell := Cell { cv : f64; cmask : bool }.

Definition plain (v : f64) : cell := Cell v false.

(** A 3-D array: its shape and its elements by index triple. *)
Record ndarray := NdArr {
  nd_shape : list Z;
  nd_at : Z -> Z -> Z -> cell
}.

Definition dim (a : ndarray) (k : nat) : Z := nth k (nd_shape a) 0.

(** A 2-D plane and a 1-D vector of elements. *)
Definition plane (V : Type) := list (list V).

(** Index [i] along an axis of length [n], as NumPy resolves it: negative
    indices count from the end, anything else out of [0, n) is an
    [IndexError] ([None]). *)
Definition resolve_index (n i : Z) : option Z :=
  if (0 <=? i) && (i <? n) then Some i
  else if (- n <=? i) && (i <? 0) then Some (i + n)
  else None.

(** [a[:, :, b]] *)
Definition band_plane (a : ndarray) (b : Z) : option (plane cell) :=
  match resolve_index (dim a 2) b with
  | Some b' =>
      Some (map (fun r => map (fun c => nd_at a r c b') (range (dim a 1)))
                (range (dim a 0)))
  | None => None
  end.

(** [a[line, :, :]] *)
Definition line_plane (a : ndarray) (line : Z) : option (plane cell) :=
  match resolve_index (dim a 0) line with
  | Some r =>
      Some (map (fun c => map (fun b => nd_at a r c b) (range (dim a 2)))
                (range (dim a 1)))
  | None => None
  end.

(** [np.ma.is_masked(p)] *)
Definition is_masked (p : plane cell) : bool :=
  existsb (existsb cmask) p.

(** [p.filled(v)] *)
Definition filled (v : f64) (p : plane cell) : plane f64 :=
  map (map (fun c => if cmask c then v else cv c)) p.

(** The values of a plane, mask ignored. *)
Definition values (p : plane cell) : plane f64 := map (map cv) p.

(** [if np.ma.is_masked(p): p = p.filled(v)] and then the values of [p]. *)
Definition filled_if_masked (v : f64) (p : plane cell) : plane f64 :=
  if is_masked p then filled v p else values p.

(** [np.transpose(a, axes)] *)
Definition transpose (a : ndarray) (axes : list Z) : ndarray :=
  NdArr (Introspector.permute_axes 0 axes (nd_shape a))
        (Introspector.np_transpose (nd_at a) axes).

Definition transpose_opt (order : option (list Z)) (a : ndarray) : ndarray :=
  match order with
  | Some axes => transpose a axes
  | None => a
  end.

(** [np.ma.masked_where(cond, a)]: mask the elements where [cond] holds
    (on top of the mask [a] already has). *)
Definition masked_where (cond : f64 -> bool) (a : ndarray) : ndarray :=
  NdArr (nd_shape a)
        (fun i j k => let c := nd_at a i j k in
                      Cell (cv c) (cond (cv c) || cmask c)).

(** [np.argmin(l)]: the index of the first smallest element; a NaN counts
    as smallest.  The list is not empty. *)
Fixpoint argmin_from (l : list f64) (i best_i : Z) (best : f64) : Z :=
  match l with
  | [] => best_i
  | x :: r =>
      if isnan best then best_i
      else if (isnan x || flt x best)%bool then argmin_from r (i + 1) i x
      else argmin_from r (i + 1) best_i best
  end.

Definition argmin (l : list f64) : Z :=
  match l with
  | [] => 0
  | x :: r => argmin_from r 1 0 x
  end.

(** [np.min(l)] and [np.max(l)] of a non-empty list: NaN if any element
    is NaN. *)
Definition np_min (l : list f64) : f64 :=
  match l with
  | [] => NaN
  | x :: r =>
      fold_left (fun m y => if (isnan m || isnan y)%bool then NaN
                            else if flt y m then y else m) r x
  end.

Definition np_max (l : list f64) : f64 :=
  match l with
  | [] => NaN
  | x :: r =>
      fold_left (fun m y => if (isnan m || isnan y)%bool then NaN
                            else if flt m y then y else m) r x
  end.

(** [np.abs(wavelengths - target)] *)
Definition abs_diff (wavelengths : list f64) (target : Q) : list f64 :=
  map (fun w => fabs (fsub w (Fin target))) wavelengths.

End NdArray.

(* ================================================================== *)
(** * The environment: files on disk *)
(* ================================================================== *)

Module Env.
Import Num NdArray.

(** A text file (an ENVI header). *)
Record text_file := TextFile {
  tf_content : string;
  tf_readable : bool;
  tf_writable : bool
}.

(** An ENVI raw data file, through the views the [spectral] package gives
    of it once the header is known: the whole cube in [(rows, cols, bands)]
    order, and the per-pixel and per-band readers, each of which may raise
    ([None]). *)
Record data_file := DataFile {
  df_array : ndarray;
  df_read_pixel : Z -> Z -> option (list f64);
  df_read_band : Z -> option (plane f64);
  df_centers : option (list f64)  (* [spy_file.bands.centers] *)
}.

(** A NetCDF variable with its dimension names, shape and values. *)
Record nc_variable := NcVar {
  nv_name : string;
  nv_dimensions : list string;
  nv_shape : list Z;
  nv_values : Z -> Z -> Z -> f64
}.

(** A NetCDF group: its 3-D variables and its 1-D vectors by name. *)
Record nc_group := NcGroup {
  grp_variables : list nc_variable;
  grp_vectors : list (string * list f64)
}.

Record nc_file := NcFile {
  nc_variables : list nc_variable;
  nc_groups : list (string * nc_group)
}.

Inductive entry :=
| EText (t : text_file)
| EData (d : data_file)
| ENetCDF (n : nc_file).

(** The file system: what is stored under each path. *)
Definition filesystem := string -> option entry.

(** [os.path.exists(path)] *)
Definition exists_ (fs : filesystem) (path : string) : bool :=
  match fs path with Some _ => true | None => false end.

(** [os.access(path, os.W_OK)] *)
Definition writable (fs : filesystem) (path : string) : bool :=
  match fs path with
  | Some (EText t) => tf_writable t
  | _ => false
  end.

(** [open(path, 'r')] followed by [f.read()]; [None] is an [OSError]. *)
Definition read_text (fs : filesystem) (path : string) : option string :=
  match fs path with
  | Some (EText t) => if tf_readable t then Some (tf_content t) else None
  | _ => None
  end.

(** [open(path, 'w')] followed by writing [content]; [None] is an
    [OSError], and the file system is then unchanged. *)
Definition write_text (fs : filesystem) (path : string) (content : string)
  : option filesystem :=
  match fs path with
  | Some (EText t) =>
      if tf_writable t
      then Some (fun p => if String.eqb p path
                          then Some (EText (TextFile content (tf_readable t) true))
                          else fs p)
      else None
  | _ => None
  end.

(** [assoc.get(key)] on a list of pairs in insertion order. *)
Fixpoint lookup {V} (key : string) (l : list (string * V)) : option V :=
  match l with
  | [] => None
  | (k, v) :: r => if String.eqb k key then Some v else lookup key r
  end.

End Env.

(* ================================================================== *)
(** * Paths ([os.path], [pathlib]) *)
(* ================================================================== *)

Module PyPath.
Import PyStr.

(** [s.rfind(c)]: the index of the last [c] in [s], or [-1]. *)
Fixpoint rfind_from (c : ascii) (i : Z) (s : string) (found : Z) : Z :=
  match s with
  | EmptyString => found
  | String d r => rfind_from c (i + 1) r (if Ascii.eqb c d then i else found)
  end.

Definition rfind (c : ascii) (s : string) : Z := rfind_from c 0 s (-1).

Definition strlen (s : string) : Z := Z.of_nat (String.length s).

(** [s[a:b]] for [0 <= a <= b]. *)
Definition slice (a b : Z) (s : string) : string :=
  String.substring (Z.to_nat a) (Z.to_nat (b - a)) s.

Definition is_dot (c : ascii) : bool := Ascii.eqb c ".".

(** [os.path.splitext(p)]: the extension starts at the last dot of the
    last path component, leading dots of that component excepted. *)
Definition splitext (p : string) : string * string :=
  let sepIndex := rfind "/" p in
  let dotIndex := rfind "." p in
  if (sepIndex <? dotIndex)
     && negb (forallb_str is_dot (slice (sepIndex + 1) dotIndex p))
  then (slice 0 dotIndex p, slice dotIndex (strlen p) p)
  else (p, EmptyString).

(** [s.replace(old, new)], for a non-empty [old]. *)
Fixpoint replace_aux (old new : string) (skip : nat) (s : string) : string :=
  match s with
  | EmptyString => EmptyString
  | String c r =>
      match skip with
      | S k => replace_aux old new k r
      | O =>
          if startswith old s
          then (new ++ replace_aux old new (String.length old - 1) r)%string
          else String c (replace_aux old new 0 r)
      end
  end.

Definition replace (old new s : string) : string := replace_aux old new 0 s.

Definition upper_ascii (c : ascii) : ascii :=
  let n := nat_of_ascii c in
  if (Nat.leb 97 n && Nat.leb n 122)%bool then ascii_of_nat (n - 32) else c.

(** [s.upper()] *)
Fixpoint upper (s : string) : string :=
  match s with
  | EmptyString => EmptyString
  | String c r => String (upper_ascii c) (upper r)
  end.

(** [Path(p).name]: the last component of the path. *)
Definition name (p : string) : string :=
  let p' := rstrip_with (fun c => Ascii.eqb c "/") p in
  slice (rfind "/" p' + 1) (strlen p') p'.

(** [Path(p).suffix]: from the last dot of the name, unless that dot opens
    or closes the name. *)
Definition suffix (p : string) : string :=
  let n := name p in
  let i := rfind "." n in
  if (0 <? i) && (i <? strlen n - 1) then slice i (strlen n) n
  else EmptyString.

End PyPath.

(* ================================================================== *)
(** * The ENVI header reader of the [spectral] package *)
(* ================================================================== *)

(** [DataHandler] opens ENVI files with [spectral.io.envi.open], a package
    the repository imports and does not contain.  This module models what
    [DataHandler] relies on: the header reader (the parsing half of the
    specification's HeaderCodec) and the metadata and shape of the opened
    file.  [DataHandler] itself takes [envi.open] as a parameter. *)
Module Envi.
Import Num NdArray Env PyStr.

(** A header value: the text after [=], or the items of a brace list; the
    bad-band list as integers once [open] has converted it; a number
    stored by [DataHandler] itself. *)
Inductive hval :=
| HStr (s : string)
| HList (l : list string)
| HInts (l : list Z)
| HInt (n : Z)
| HNum (x : f64).

(** A Python [dict] with string keys, in insertion order. *)
Definition header := list (string * hval).

(** [d[key] = v] *)
Fixpoint dict_set (key : string) (v : hval) (d : header) : header :=
  match d with
  | [] => [(key, v)]
  | (k, w) :: r =>
      if String.eqb k key then (k, v) :: r else (k, w) :: dict_set key v r
  end.

(** [del d[key]] *)
Fixpoint dict_del (key : string) (d : header) : header :=
  match d with
  | [] => []
  | (k, w) :: r => if String.eqb k key then r else (k, w) :: dict_del key r
  end.

(** [key in d] *)
Definition dict_mem (key : string) (d : header) : bool :=
  match lookup key d with Some _ => true | None => false end.

Definition is_semicolon_line (line : string) : bool :=
  match line with String ";" _ => true | _ => false end.

Definition ends_with_brace (s : string) : bool :=
  match last_char s with Some "}"%char => true | _ => false end.

(** The value stored for a complete brace block [str] under [key]. *)
Definition block_value (key str : string) : hval :=
  if String.eqb key "description"
  then HStr (strip (strip_chars "{}" str))
  else HList (map strip (split_char "," (strip_ends str))).

(** The reader's state between two lines: the dictionary so far and, while
    a brace block is still open, its key and the text gathered for it. *)
Record reader := Reader {
  rd_dict : header;
  rd_open : option (string * string)
}.

(** Modelled from the spec: the header reader of [spectral.io.envi], absent
    from the sources; the specification gives the syntax ([key = value] and
    [key = {v1, v2, ...}], keys case-insensitive), the package the line by
    line reading.
    One line of the header.  Outside a block: lines without [=] and
    comment lines are skipped, the key is stripped and lower-cased, and a
    value that starts with a brace opens a block.  Inside a block: comment
    lines are skipped, other lines are stripped and appended after a line
    feed, until the text ends with the closing brace. *)
Definition read_line (st : reader) (line : string) : reader :=
  match rd_open st with
  | Some (key, str) =>
      if is_semicolon_line line then st
      else
        let str' := (str ++ String newline (strip line))%string in
        if ends_with_brace str'
        then Reader (dict_set key (block_value key str') (rd_dict st)) None
        else Reader (rd_dict st) (Some (key, str'))
  | None =>
      let '(k, found, v) := partition_char "=" line in
      if negb found then st
      else if is_semicolon_line line then st
      else
        let key := lower (strip k) in
        let val := strip v in
        match val with
        | String "{" _ =>
            if ends_with_brace val
            then Reader (dict_set key (block_value key val) (rd_dict st)) None
            else Reader (rd_dict st) (Some (key, val))
        | _ => Reader (dict_set key (HStr val) (rd_dict st)) None
        end
  end.

Definition read_lines (st : reader) (lines : list string) : reader :=
  fold_left read_line lines st.

(** Modelled from the spec: [read_envi_header] of [spectral.io.envi], absent
    from the sources.  The first line must start with [ENVI]; a block left
    open at the end of the file is a parsing error.  [None] stands for the
    exception raised. *)
Definition read_envi_header (text : string) : option header :=
  match readlines text with
  | [] => None
  | first :: rest =>
      if startswith "ENVI" (strip first) then
        let st := read_lines (Reader [] None) rest in
        match rd_open st with
        | None => Some (rd_dict st)
        | Some _ => None
        end
      else None
  end.

Fixpoint all_some {A} (l : list (option A)) : option (list A) :=
  match l with
  | [] => Some []
  | Some x :: r => option_map (cons x) (all_some r)
  | None :: _ => None
  end.

Definition chars_of (s : string) : list string :=
  map (fun c => String c EmptyString) (list_ascii_of_string s).

Section Open.
(** Python's [float(s)]; [None] is [ValueError]. *)
Variable float_of_str : string -> option f64.

(** [int(float(b))] *)
Definition int_of_float_str (b : string) : option Z :=
  match float_of_str b with
  | Some (Fin q) => Some (Qtrunc q)
  | _ => None
  end.

(** Modelled from the spec: the conversion of the bad-band list by
    [envi.open], absent from the sources:
    [h['bbl'] = [int(float(b)) for b in h['bbl']]], left as it is when an
    item does not convert. *)
Definition convert_bbl (h : header) : header :=
  match lookup "bbl" h with
  | Some (HList l) =>
      match all_some (map int_of_float_str l) with
      | Some ints => dict_set "bbl" (HInts ints) h
      | None => h
      end
  | Some (HStr s) =>
      match all_some (map int_of_float_str (chars_of s)) with
      | Some ints => dict_set "bbl" (HInts ints) h
      | None => h
      end
  | _ => h
  end.

Definition header_int (h : header) (key : string) : option Z :=
  match lookup key h with
  | Some (HStr s) => int_of_str s
  | _ => None
  end.

(** The file object [envi.open] returns. *)
Record SpyFile := MkSpyFile {
  metadata : header;
  spy_shape : list Z;
  spy_data : data_file
}.

(** The keys required besides the three dimensions. *)
Definition required_keys : list string := ["data type"; "interleave"].

Definition has_required (h : header) : bool :=
  forallb (fun key => dict_mem key h) required_keys.

(** Modelled from the spec: [envi.open(header_file, data_file)] of
    [spectral.io.envi], absent from the sources.  The header is read; the
    required keys [lines], [samples], [bands], [data type] and [interleave]
    must be there, the first three as integers, which give the shape; the
    bad-band list is converted.  [None] stands for any exception. *)
Definition open (fs : filesystem) (header_file data_file : string)
  : option SpyFile :=
  match read_text fs header_file, fs data_file with
  | Some text, Some (EData d) =>
      match read_envi_header text with
      | Some h =>
          if has_required h then
            match header_int h "lines", header_int h "samples",
                  header_int h "bands" with
            | Some r, Some c, Some b =>
                Some (MkSpyFile (convert_bbl h) [r; c; b] d)
            | _, _, _ => None
            end
          else None
      | None => None
      end
  | _, _ => None
  end.
End Open.

(** Modelled from the spec: [SpyFile.load] and [SpyFile.open_memmap] of
    [spectral.io], absent from the sources.  The specification has the
    resident copy and the memory map give the same cube, in rows, columns,
    bands order whatever the interleave: both are the cube of the data
    file.  The outer [None] stands for an exception; [open_memmap] can
    also return [None]. *)
Definition load (spy : SpyFile) : option ndarray :=
  Some (df_array (spy_data spy)).

Definition open_memmap (spy : SpyFile) : option (option ndarray) :=
  Some (Some (df_array (spy_data spy))).

End Envi.

(* ================================================================== *)
(** * [DataHandler] *)
(* ================================================================== *)

Module Handler.
Import Num NdArray Env PyStr Envi.

Inductive file_kind := FEnvi | FEmit | FAviris3.

Definition file_kind_eqb (a b : file_kind) : bool :=
  match a, b with
  | FEnvi, FEnvi | FEmit, FEmit | FAviris3, FAviris3 => true
  | _, _ => false
  end.

(** [self.wavelengths]: a 1-D array, or the unsized array that
    [np.array(None)] builds when the ENVI file gives no band centres. *)
Inductive warray :=
| WArr (l : list f64)
| WUnsized.

(** The attributes of a [DataHandler] object.  [nc_dataset] is the
    NetCDF dataset a memory-mapped load leaves open.  The attributes
    [interleave] and [data_type], which only [get_info] and the printed
    messages read, are not kept. *)
Record DataHandler := MkHandler {
  spy_file : option SpyFile;
  data : option ndarray;
  header : Envi.header;
  wavelengths : option warray;
  shape : list Z;
  filename : option string;
  header_filename : option string;
  is_loaded : bool;
  use_memmap : bool;
  file_type : option file_kind;
  fill_value : f64;
  bad_band_list : option (list Z);
  data_ignore_value : option f64;
  nc_dataset : option nc_file
}.

(** [DataHandler.__init__] *)
Definition init : DataHandler :=
  MkHandler None None [] None [] None None false true None
            (Fin (-9999)) None None None.

Definition with_bad_band_list (v : option (list Z)) (h : DataHandler) :=
  MkHandler (spy_file h) (data h) (header h) (wavelengths h) (shape h)
            (filename h) (header_filename h) (is_loaded h) (use_memmap h)
            (file_type h) (fill_value h) v (data_ignore_value h)
            (nc_dataset h).

Definition with_data_ignore_value (v : option f64) (h : DataHandler) :=
  MkHandler (spy_file h) (data h) (header h) (wavelengths h) (shape h)
            (filename h) (header_filename h) (is_loaded h) (use_memmap h)
            (file_type h) (fill_value h) (bad_band_list h) v
            (nc_dataset h).

Definition with_header (v : Envi.header) (h : DataHandler) :=
  MkHandler (spy_file h) (data h) v (wavelengths h) (shape h)
            (filename h) (header_filename h) (is_loaded h) (use_memmap h)
            (file_type h) (fill_value h) (bad_band_list h)
            (data_ignore_value h) (nc_dataset h).

(** [self.shape[0]], [self.shape[1]], [self.shape[2]] *)
Definition rows (h : DataHandler) : Z := nth 0 (shape h) 0.
Definition cols (h : DataHandler) : Z := nth 1 (shape h) 0.
Definition bands (h : DataHandler) : Z := nth 2 (shape h) 0.

(** [self.file_type == k] *)
Definition file_type_is (h : DataHandler) (k : file_kind) : bool :=
  match file_type h with Some k' => file_kind_eqb k' k | None => false end.

(* ---------------------------------------------------------------- *)
(** ** Fill values *)

(** [_handle_emit_fill_values] *)
Definition _handle_emit_fill_values (h : DataHandler) (data_array : ndarray)
  : ndarray :=
  let fill_mask := fun x => feq x (fill_value h) in
  if file_type_is h FEmit then
    let valid_range_mask := fun x => (flt x (Fin 0) || fgt x (Fin 1))%bool in
    masked_where (fun x => (fill_mask x || valid_range_mask x)%bool) data_array
  else
    masked_where fill_mask data_array.

(** [_handle_aviris3_fill_values] *)
Definition _handle_aviris3_fill_values (data_array : ndarray)
  (data_type : string) : ndarray :=
  let nan_mask := isnan in
  let fill_value_mask := fun x => feq x (Fin (-9999)) in
  let valid_range_mask :=
    if String.eqb data_type "reflectance"
    then fun x => (flt x (Fin 0) || fgt x (Fin 1))%bool
    else fun x => flt x (Fin 0) in
  masked_where
    (fun x => (nan_mask x || fill_value_mask x || valid_range_mask x)%bool)
    data_array.

(* ---------------------------------------------------------------- *)
(** ** Bad-band list and data-ignore value, from the header *)

(** Python's truth value of a header entry. *)
Definition truthy (v : hval) : bool :=
  match v with
  | HStr s => negb (String.eqb s EmptyString)
  | HList l => negb (Nat.eqb (List.length l) 0)
  | HInts l => negb (Nat.eqb (List.length l) 0)
  | HInt n => negb (n =? 0)
  | HNum x => negb (feq x (Fin 0))
  end.

(** [for key in self.header.keys(): if key.lower() == name: ... break] *)
Fixpoint find_key (p : string -> bool) (d : Envi.header) : option string :=
  match d with
  | [] => None
  | (k, _) :: r => if p (lower k) then Some k else find_key p r
  end.

Definition len {A} (l : list A) : Z := Z.of_nat (List.length l).

(** [[int(x.strip()) for x in bbl_str.split(',') if x.strip()]] *)
Definition parse_bbl_str (bbl_str : string) : option (list Z) :=
  all_some
    (map (fun x => int_of_str (strip x))
         (filter (fun x => negb (String.eqb (strip x) EmptyString))
                 (split_char "," bbl_str))).

(** The [try] body of [_load_bad_band_list_from_header]: the new value of
    [self.bad_band_list], or [None] when an exception is raised. *)
Definition load_bbl_body (h : DataHandler) : option (option (list Z)) :=
  match find_key (fun k => String.eqb k "bbl") (header h) with
  | None => Some (bad_band_list h)
  | Some bbl_key =>
      match lookup bbl_key (header h) with
      | None => None
      | Some bbl_data =>
          if negb (truthy bbl_data) then Some (bad_band_list h)
          else
            let assigned : option (option (list Z)) :=
              match bbl_data with
              | HStr s =>
                  let bbl_str := strip_chars "{}[] " s in
                  if String.eqb bbl_str EmptyString
                  then Some (bad_band_list h)
                  else option_map Some (parse_bbl_str bbl_str)
              | HList l => option_map Some (all_some (map int_of_str l))
              | HInts l => Some (Some l)
              | _ => Some (bad_band_list h)
              end in
            match assigned with
            | None => None
            | Some None => None  (* [len(None)] in the message raises *)
            | Some (Some bbl) =>
                if negb (len bbl =? bands h) then Some None
                else Some (Some bbl)
            end
      end
  end.

(** [_load_bad_band_list_from_header] *)
Definition _load_bad_band_list_from_header (h : DataHandler) : DataHandler :=
  match header h with
  | [] => h
  | _ =>
      match load_bbl_body h with
      | Some v => with_bad_band_list v h
      | None => with_bad_band_list None h
      end
  end.

Definition ignore_keys : list string :=
  ["data ignore value"; "data_ignore_value"; "ignore_value"].

Definition str_in (s : string) (l : list string) : bool :=
  existsb (String.eqb s) l.

Section Platform.
(** Python's [float(s)] ([None] is [ValueError]) and [str(x)] of a
    float. *)
Variable float_of_str : string -> option f64.
Variable float_repr : f64 -> string.
(** [spectral.io.envi.open] *)
Variable envi_open : filesystem -> string -> string -> option SpyFile.

(** The [try] body of [_load_data_ignore_value_from_header]. *)
Definition load_ignore_body (h : DataHandler) : option (option f64) :=
  match find_key (fun k => str_in k ignore_keys) (header h) with
  | None => Some (data_ignore_value h)
  | Some ignore_key =>
      match lookup ignore_key (header h) with
      | None => None
      | Some (HStr s) =>
          let ignore_value := strip s in
          if str_in (lower ignore_value) ["none"; "null"; ""]
          then Some None
          else option_map Some (float_of_str ignore_value)
      | Some (HNum x) => Some (Some x)
      | Some (HInt n) => Some (Some (Fin (inject_Z n)))
      | Some _ => None
      end
  end.

(** [_load_data_ignore_value_from_header] *)
Definition _load_data_ignore_value_from_header (h : DataHandler)
  : DataHandler :=
  match header h with
  | [] => h
  | _ =>
      match load_ignore_body h with
      | Some v => with_data_ignore_value v h
      | None => with_data_ignore_value None h
      end
  end.

(* -------------------------------------------------------------- *)
(** ** Opening an ENVI file *)

Definition first_existing (fs : filesystem) (candidates : list string)
  : option string :=
  find (exists_ fs) candidates.

(** [_find_header_file] *)
Definition _find_header_file (fs : filesystem) (fname : string)
  : option string :=
  first_existing fs
    [ (fname ++ ".hdr")%string;
      (fst (PyPath.splitext fname) ++ ".hdr")%string;
      PyPath.replace ".bip" ".hdr"
        (PyPath.replace ".bil" ".hdr"
           (PyPath.replace ".bsq" ".hdr" fname)) ].

(** [_find_data_file] *)
Definition _find_data_file (fs : filesystem) (header_file : string)
  : option string :=
  let base_name := fst (PyPath.splitext header_file) in
  first_existing fs
    [ base_name;
      (base_name ++ ".bsq")%string;
      (base_name ++ ".bil")%string;
      (base_name ++ ".bip")%string;
      (base_name ++ ".dat")%string;
      (base_name ++ ".img")%string ].

Definition path_ok (fs : filesystem) (p : option string) : bool :=
  match p with
  | Some s => (negb (String.eqb s EmptyString) && exists_ fs s)%bool
  | None => false
  end.

(* -------------------------------------------------------------- *)
(** ** The header written for a forced interleave *)

(** [enumerate(l)] *)
Definition enumerate {A} (l : list A) : list (Z * A) :=
  combine (range (len l)) l.

(** [l.insert(i, x)] *)
Definition list_insert {A} (i : Z) (x : A) (l : list A) : list A :=
  let n := len l in
  let i' := if i <? 0 then Z.max 0 (i + n) else Z.min i n in
  firstn (Z.to_nat i') l ++ x :: skipn (Z.to_nat i') l.

(** [f'interleave = {interleave.lower()}'] *)
Definition interleave_line (interleave : string) : string :=
  ("interleave = " ++ lower interleave)%string.

(** [line.strip().lower().startswith('interleave')] *)
Definition is_interleave_line (line : string) : bool :=
  startswith "interleave" (lower (strip line)).

(** [any(dim in line.lower() for dim in ['bands', 'lines', 'samples'])] *)
Definition mentions_dimension (line : string) : bool :=
  any_in ["bands"; "lines"; "samples"] (lower line).

(** The lines [_create_spy_file_with_interleave] writes to the temporary
    header, from the lines of the original one. *)
Definition forced_interleave_lines (lines : list string)
  (interleave : string) : list string :=
  let modified_lines :=
    map (fun line => if is_interleave_line line
                     then interleave_line interleave else line) lines in
  let found_interleave := existsb is_interleave_line lines in
  if found_interleave then modified_lines
  else
    let insert_idx :=
      fold_left
        (fun insert_idx '(i, line) =>
           if mentions_dimension line then Z.max insert_idx (i + 1)
           else insert_idx)
        (enumerate modified_lines) (len modified_lines) in
    list_insert insert_idx (interleave_line interleave) modified_lines.

(** ['\n'.join(modified_lines)] for [lines = header_content.split('\n')] *)
Definition forced_interleave_text (header_content interleave : string)
  : string :=
  join (String newline EmptyString)
       (forced_interleave_lines (split_char newline header_content)
                                interleave).

(** [tempfile.NamedTemporaryFile(mode='w', suffix='.hdr', delete=False)]
    once the header has been written to it and it has been closed: the
    path of the new file, or [None] when one of these steps raises. *)
Variable new_temp_file : filesystem -> option string.

(** [SpyFile.load] and [SpyFile.open_memmap] of the opened file: the outer
    [None] stands for an exception; [open_memmap] can also return
    [None]. *)
Variable spy_load : SpyFile -> option ndarray.
Variable spy_open_memmap : SpyFile -> option (option ndarray).

(** The disk while the temporary header exists. *)
Definition with_temp_header (fs : filesystem) (temp_name content : string)
  : filesystem :=
  fun p => if String.eqb p temp_name
           then Some (EText (TextFile content true true))
           else fs p.

(** [_create_spy_file_with_interleave]: the file opened from a temporary
    copy of the header with the interleave forced or, when anything raises
    on the way, the file opened from the header itself.  The temporary
    file is removed before the method returns, so the disk is left as it
    was.  [None] is the exception of that last [envi.open]. *)
Definition _create_spy_file_with_interleave (fs : filesystem)
  (header_file data_file interleave : string) : option SpyFile :=
  let fallback := envi_open fs header_file data_file in
  match read_text fs header_file with
  | None => fallback
  | Some header_content =>
      match new_temp_file fs with
      | None => fallback
      | Some temp_name =>
          let content := forced_interleave_text header_content interleave in
          match envi_open (with_temp_header fs temp_name content)
                          temp_name data_file with
          | Some spy_file => Some spy_file
          | None => fallback
          end
      end
  end.

(* -------------------------------------------------------------- *)
(** ** Opening an ENVI file, continued *)

(** [_load_envi_data_original].  An exception of [envi.open] leaves the
    object as it was; an exception of [spy_file.load] or of
    [spy_file.open_memmap] leaves it with the attributes assigned by
    then, [data] and [is_loaded] excepted. *)
Definition _load_envi_data_original (fs : filesystem) (h : DataHandler)
  (fname : string) (load_to_ram : bool) (force_interleave : option string)
  : DataHandler * bool :=
  let '(header_file, data_file) :=
    if endswith ".hdr" fname
    then (Some fname, _find_data_file fs fname)
    else (_find_header_file fs fname, Some fname) in
  if negb (path_ok fs header_file) then (h, false)
  else if negb (path_ok fs data_file) then (h, false)
  else
    match header_file, data_file with
    | Some hf, Some df =>
        let opened :=
          match force_interleave with
          | Some interleave =>
              if String.eqb interleave EmptyString
              then envi_open fs hf df
              else _create_spy_file_with_interleave fs hf df interleave
          | None => envi_open fs hf df
          end in
        match opened with
        | None => (h, false)
        | Some spy =>
            let wl := match df_centers (spy_data spy) with
                      | Some c => WArr c
                      | None => WUnsized
                      end in
            let h1 :=
              MkHandler (Some spy) (data h) (metadata spy) (Some wl)
                        (spy_shape spy) (Some df) (Some hf) (is_loaded h)
                        (use_memmap h) (Some FEnvi) (fill_value h)
                        (bad_band_list h) (data_ignore_value h)
                        (nc_dataset h) in
            let h2 := _load_bad_band_list_from_header h1 in
            let h3 := _load_data_ignore_value_from_header h2 in
            let read :=
              if load_to_ram then option_map Some (spy_load spy)
              else spy_open_memmap spy in
            match read with
            | Some data' =>
                (MkHandler (spy_file h3) data'
                           (header h3) (wavelengths h3) (shape h3)
                           (filename h3) (header_filename h3) true
                           (negb load_to_ram) (file_type h3) (fill_value h3)
                           (bad_band_list h3) (data_ignore_value h3)
                           (nc_dataset h3), true)
            | None =>
                (MkHandler (spy_file h3) (data h3)
                           (header h3) (wavelengths h3) (shape h3)
                           (filename h3) (header_filename h3) (is_loaded h3)
                           (negb load_to_ram) (file_type h3) (fill_value h3)
                           (bad_band_list h3) (data_ignore_value h3)
                           (nc_dataset h3), false)
            end
        end
    | _, _ => (h, false)
    end.

(* -------------------------------------------------------------- *)
(** ** Opening NetCDF products *)

(** [_get_emit_product_level] *)
Definition _get_emit_product_level (fname : string) : string :=
  if contains "L1B" fname then "L1B_RAD"
  else if contains "L2A_RFL" fname then "L2A_RFL"
  else if contains "L2A_MASK" fname then "L2A_MASK"
  else if contains "L2B_MIN" fname then "L2B_MIN"
  else "Unknown".

(** [_get_aviris3_product_level] *)
Definition _get_aviris3_product_level (fname : string) : string :=
  if contains "L1B_RDN" fname then "L1B_RDN"
  else if contains "L2A_RFL" fname then "L2A_RFL"
  else if contains "L2A_OE" fname then "L2A_OE"
  else if contains "L2B" fname then "L2B"
  else "Unknown".

(** The entries of the header built for a NetCDF product that the
    accessor reads back. *)
Definition netcdf_header (shp : list Z) (sensor product_level : string)
  : Envi.header :=
  [ ("lines", HInt (nth 0 shp 0));
    ("samples", HInt (nth 1 shp 0));
    ("bands", HInt (nth 2 shp 0));
    ("interleave", HStr "bsq");
    ("wavelength_units", HStr "nm");
    ("sensor_type", HStr sensor);
    ("product_level", HStr product_level) ].

Definition list_Z_eqb (a b : list Z) : bool :=
  if list_eq_dec Z.eq_dec a b then true else false.

(** [t.index(x)]; [None] is [ValueError]. *)
Fixpoint index_of (x : Z) (i : Z) (t : list Z) : option Z :=
  match t with
  | [] => None
  | y :: r => if y =? x then Some i else index_of x (i + 1) r
  end.

(** [_get_spectral_dimension_size] *)
Definition _get_spectral_dimension_size (shp : list Z)
  (dimensions : list string) : Z :=
  match fst (Introspector._determine_emit_transpose dimensions shp) with
  | None => last shp 0
  | Some order =>
      if list_Z_eqb order [1; 2; 0] then nth 0 shp 0
      else match index_of (len order - 1) 0 order with
           | Some i => nth (Z.to_nat i) shp 0
           | None => 0
           end
  end.

Definition raw_array (v : nc_variable) : ndarray :=
  NdArr (nv_shape v) (fun i j k => plain (nv_values v i j k)).

(** [_load_emit_data].  The fill values are handled before
    [self.file_type] is assigned: [_handle_emit_fill_values] sees the
    object as it was before this load.  The values of a variable are those
    the netCDF4 reader of the default, memory-mapped mode returns, and that
    mode leaves the dataset open in [nc_dataset].  With [load_to_ram] the
    code reads through xarray, which decodes the values on the way (a fill
    value becomes NaN, a scale and an offset are applied); the embedding has
    no such decoding, so what is proved of the stored values is proved for
    the default mode. *)
Definition _load_emit_data (fs : filesystem) (h : DataHandler)
  (fname : string) (load_to_ram : bool) : DataHandler * bool :=
  match fs fname with
  | Some (ENetCDF ncf) =>
      let candidates :=
        filter (fun v => Nat.eqb (List.length (nv_dimensions v)) 3)
               (nc_variables ncf) in
      let main :=
        match find (fun c => str_in (nv_name c)
                               ["reflectance"; "radiance"; "mask"])
                   candidates with
        | Some c => Some c
        | None => hd_error candidates
        end in
      match main with
      | None => (h, false)
      | Some v =>
          let main_var_dims := nv_dimensions v in
          let main_var_shape := nv_shape v in
          let product_level := _get_emit_product_level (PyPath.name fname) in
          let transpose_order :=
            fst (Introspector._determine_emit_transpose
                   main_var_dims main_var_shape) in
          let data_array := transpose_opt transpose_order (raw_array v) in
          let group_wl :=
            match lookup "sensor_band_parameters" (nc_groups ncf) with
            | Some g => lookup "wavelengths" (grp_vectors g)
            | None => None
            end in
          let wl :=
            match group_wl with
            | Some w => w
            | None =>
                if load_to_ram
                then arange1 (_get_spectral_dimension_size
                                main_var_shape main_var_dims)
                else arange1 (dim data_array 2)
            end in
          let data_array := _handle_emit_fill_values h data_array in
          (MkHandler (spy_file h) (Some data_array)
                     (netcdf_header (nd_shape data_array) "EMIT" product_level)
                     (Some (WArr wl)) (nd_shape data_array)
                     (Some fname) (header_filename h) true
                     (negb load_to_ram) (Some FEmit) (fill_value h)
                     (bad_band_list h) (data_ignore_value h)
                     (if load_to_ram then nc_dataset h else Some ncf), true)
      end
  | _ => (h, false)
  end.

Definition has_group (name : string) (ncf : nc_file) : bool :=
  match lookup name (nc_groups ncf) with Some _ => true | None => false end.

(** [_load_aviris3_data].  As for [_load_emit_data], the values are those
    of the netCDF4 reader of the default mode, and the decoding that xarray
    applies with [load_to_ram] is not embedded. *)
Definition _load_aviris3_data (fs : filesystem) (h : DataHandler)
  (fname : string) (load_to_ram : bool) : DataHandler * bool :=
  match fs fname with
  | Some (ENetCDF ncf) =>
      let data_group_name :=
        if has_group "reflectance" ncf then Some "reflectance"
        else if has_group "radiance" ncf then Some "radiance"
        else None in
      match data_group_name with
      | None => (h, false)
      | Some data_var_name =>
          match lookup data_var_name (nc_groups ncf) with
          | None => (h, false)
          | Some data_group =>
              match find (fun v => String.eqb (nv_name v) data_var_name)
                         (grp_variables data_group) with
              | None => (h, false)
              | Some v =>
                  let product_level :=
                    _get_aviris3_product_level (PyPath.name fname) in
                  let transpose_order := [1; 2; 0] in
                  let raw := raw_array v in
                  let wl :=
                    match lookup "wavelength" (grp_vectors data_group) with
                    | Some w => w
                    | None => arange1 (dim raw 0)
                    end in
                  let data_array := transpose raw transpose_order in
                  let data_array :=
                    _handle_aviris3_fill_values data_array data_var_name in
                  (MkHandler (spy_file h) (Some data_array)
                             (netcdf_header (nd_shape data_array)
                                            "AVIRIS-3" product_level)
                             (Some (WArr wl)) (nd_shape data_array)
                             (Some fname) (header_filename h) true
                             (negb load_to_ram) (Some FAviris3)
                             (fill_value h) (bad_band_list h)
                             (data_ignore_value h)
                             (if load_to_ram then nc_dataset h
                              else Some ncf), true)
              end
          end
      end
  | _ => (h, false)
  end.

(** [_is_emit_file], [_is_aviris3_file] *)
Definition _is_emit_file (fname : string) : bool :=
  (String.eqb (lower (PyPath.suffix fname)) ".nc"
   && contains "EMIT" (PyPath.upper (PyPath.name fname)))%bool.

Definition _is_aviris3_file (fname : string) : bool :=
  (String.eqb (lower (PyPath.suffix fname)) ".nc"
   && contains "AV3" (PyPath.upper (PyPath.name fname)))%bool.

(** [load_envi_data] *)
Definition load_envi_data (fs : filesystem) (h : DataHandler)
  (fname : string) (load_to_ram : bool) (force_interleave : option string)
  : DataHandler * bool :=
  if _is_emit_file fname then _load_emit_data fs h fname load_to_ram
  else if _is_aviris3_file fname then _load_aviris3_data fs h fname load_to_ram
  else _load_envi_data_original fs h fname load_to_ram force_interleave.

(* -------------------------------------------------------------- *)
(** ** Writing the bad-band list and the data-ignore value back *)

(** The insertion index the two savers compute: it starts at the number
    of lines and is raised, with [max], to just after each line that
    starts with one of [prefixes]. *)
Definition insert_index (prefixes : list string)
  (filtered_lines : list string) : Z :=
  fold_left
    (fun insert_idx '(i, line) =>
       let line_lower := lower (strip line) in
       if startswith_any prefixes line_lower
       then Z.max insert_idx (i + 1)
       else insert_idx)
    (enumerate filtered_lines) (len filtered_lines).

(** [not self.header_filename] *)
Definition no_header_filename (h : DataHandler) : bool :=
  match header_filename h with
  | None => true
  | Some s => String.eqb s EmptyString
  end.

Definition header_path (h : DataHandler) : string :=
  match header_filename h with Some s => s | None => EmptyString end.

(** ['bbl = {' + ', '.join(map(str, bbl)) + '}\n'] *)
Definition bbl_line (bbl : list Z) : string :=
  ("bbl = {" ++ join ", " (map str_of_int bbl) ++ "}"
   ++ String newline EmptyString)%string.

(** The header lines [_save_bad_band_list_to_header] writes. *)
Definition bbl_rewrite (bbl : option (list Z)) (header_lines : list string)
  : list string :=
  let filtered_lines :=
    filter (fun line => negb (startswith "bbl" (lower (strip line))))
           header_lines in
  match bbl with
  | Some l =>
      let insert_idx :=
        insert_index ["wavelength"; "fwhm"; "bands"] filtered_lines in
      list_insert insert_idx (bbl_line l) filtered_lines
  | None => filtered_lines
  end.

(** [_save_bad_band_list_to_header] *)
Definition _save_bad_band_list_to_header (fs : filesystem) (h : DataHandler)
  : filesystem * DataHandler * bool :=
  if no_header_filename h then (fs, h, false)
  else if negb (exists_ fs (header_path h)) then (fs, h, false)
  else if negb (writable fs (header_path h)) then (fs, h, false)
  else
    match read_text fs (header_path h) with
    | None => (fs, h, false)
    | Some text =>
        let new_lines := bbl_rewrite (bad_band_list h) (readlines text) in
        match write_text fs (header_path h) (writelines new_lines) with
        | None => (fs, h, false)
        | Some fs' =>
            let hd :=
              match bad_band_list h with
              | Some l => dict_set "bbl" (HInts l) (header h)
              | None => dict_del "bbl" (header h)
              end in
            (fs', with_header hd h, true)
        end
    end.

(** [set_bad_band_list] *)
Definition set_bad_band_list (fs : filesystem) (h : DataHandler)
  (bbl : option (list Z)) : filesystem * DataHandler * bool :=
  if (negb (is_loaded h) || negb (file_type_is h FEnvi))%bool
  then (fs, h, false)
  else
    match bbl with
    | None => _save_bad_band_list_to_header fs (with_bad_band_list None h)
    | Some l =>
        if negb (len l =? bands h) then (fs, h, false)
        else if negb (forallb (fun v => (v =? 0) || (v =? 1)) l)
        then (fs, h, false)
        else _save_bad_band_list_to_header fs (with_bad_band_list (Some l) h)
    end.

(** ['data ignore value = {value}\n'] *)
Definition ignore_line (v : f64) : string :=
  ("data ignore value = " ++ float_repr v
   ++ String newline EmptyString)%string.

Definition ignore_rewrite (v : option f64) (header_lines : list string)
  : list string :=
  let filtered_lines :=
    filter (fun line =>
              negb (startswith_any ["data ignore value"; "data_ignore_value"]
                                   (lower (strip line))))
           header_lines in
  match v with
  | Some x =>
      let insert_idx :=
        insert_index ["data type"; "bands"; "lines"; "samples"]
                     filtered_lines in
      list_insert insert_idx (ignore_line x) filtered_lines
  | None => filtered_lines
  end.

(** [for key in list(self.header.keys()): if key.lower() in ...: del ...; break] *)
Definition del_ignore_key (d : Envi.header) : Envi.header :=
  match find_key (fun k => str_in k ignore_keys) d with
  | Some k => dict_del k d
  | None => d
  end.

(** [_save_data_ignore_value_to_header] *)
Definition _save_data_ignore_value_to_header (fs : filesystem)
  (h : DataHandler) : filesystem * DataHandler * bool :=
  if (no_header_filename h || negb (exists_ fs (header_path h)))%bool
  then (fs, h, false)
  else
    match read_text fs (header_path h) with
    | None => (fs, h, false)
    | Some text =>
        let new_lines :=
          ignore_rewrite (data_ignore_value h) (readlines text) in
        match write_text fs (header_path h) (writelines new_lines) with
        | None => (fs, h, false)
        | Some fs' =>
            let hd :=
              match data_ignore_value h with
              | Some x => dict_set "data ignore value" (HNum x) (header h)
              | None => del_ignore_key (header h)
              end in
            (fs', with_header hd h, true)
        end
    end.

(** [set_data_ignore_value] *)
Definition set_data_ignore_value (fs : filesystem) (h : DataHandler)
  (ignore_value : option f64) : filesystem * DataHandler * bool :=
  if (negb (is_loaded h) || negb (file_type_is h FEnvi))%bool
  then (fs, h, false)
  else _save_data_ignore_value_to_header fs
         (with_data_ignore_value ignore_value h).

(** [reload_from_header] *)
Definition reload_from_header (fs : filesystem) (h : DataHandler)
  : DataHandler * bool :=
  if (negb (is_loaded h) || negb (file_type_is h FEnvi))%bool
  then (h, false)
  else
    match filename h with
    | None => (h, false)
    | Some fname =>
        if String.eqb fname EmptyString then (h, false)
        else
          let current_load_to_ram := negb (use_memmap h) in
          load_envi_data fs h fname current_load_to_ram None
    end.

(** [get_bad_band_list], [get_data_ignore_value] *)
Definition get_bad_band_list (h : DataHandler) : option (list Z) :=
  bad_band_list h.
Definition get_data_ignore_value (h : DataHandler) : option f64 :=
  data_ignore_value h.

(* -------------------------------------------------------------- *)
(** ** Reading bands and lines *)

(** [get_band_data] *)
Definition get_band_data (h : DataHandler) (band_index : Z)
  : option (plane cell) :=
  if negb (is_loaded h) then None
  else if ((band_index <? 0) || (band_index >=? bands h))%bool then None
  else
    match use_memmap h, data h with
    | true, Some a => band_plane a band_index
    | _, _ =>
        match spy_file h with
        | Some spy =>
            option_map (map (map plain))
                       (df_read_band (spy_data spy) band_index)
        | None => None
        end
    end.

(** [line_spectra[col, :] = spectrum]: the spectrum must have [n]
    elements, or one element, which is then repeated; [None] is the
    [ValueError] of a shape mismatch. *)
Definition assign_row (n : Z) (spectrum : list f64) : option (list f64) :=
  if len spectrum =? n then Some spectrum
  else match spectrum with
       | [x] => Some (repeat x (Z.to_nat n))
       | _ => None
       end.

(** [line_spectra[col, :] = np.nan] *)
Definition nan_row (n : Z) : list f64 := repeat NaN (Z.to_nat n).

(** The body of the loop over the columns of a line, in resident mode:
    the row of [line_spectra] for column [col]. *)
Definition read_line_pixel (h : DataHandler) (line_index col : Z)
  : list f64 :=
  let attempt :=
    match spy_file h with
    | Some spy =>
        match df_read_pixel (spy_data spy) line_index col with
        | Some spectrum => assign_row (bands h) spectrum
        | None => None
        end
    | None => None
    end in
  match attempt with
  | Some row => row
  | None => nan_row (bands h)
  end.

(** [extract_line_spectra] *)
Definition extract_line_spectra (h : DataHandler) (line_index : Z)
  : option (plane f64) :=
  if negb (is_loaded h) then None
  else if ((line_index <? 0) || (line_index >=? rows h))%bool then None
  else
    match file_type h with
    | Some FEmit | Some FAviris3 =>
        match data h with
        | Some a => option_map (filled_if_masked NaN) (line_plane a line_index)
        | None => None
        end
    | Some FEnvi =>
        match use_memmap h, data h with
        | true, Some a => option_map values (line_plane a line_index)
        | _, _ =>
            Some (map (read_line_pixel h line_index) (range (cols h)))
        end
    | None => None
    end.

(* -------------------------------------------------------------- *)
(** ** The compositor *)

(** What [x.astype(np.uint8)] gives where NumPy leaves it to the
    platform. *)
Variable cast_undef : Z.

Fixpoint insert_sorted (x : Q) (l : list Q) : list Q :=
  match l with
  | [] => [x]
  | y :: r => if Qle_bool x y then x :: l else y :: insert_sorted x r
  end.

(** [np.sort] *)
Definition sort_Q (l : list Q) : list Q := fold_right insert_sorted [] l.

(** [np.percentile(a, q)], linear interpolation, on the sorted data:
    the virtual index [(n - 1) * q / 100] is split into its floor and
    its fraction. *)
Definition percentile (sorted : list Q) (q : Q) : Q :=
  let n := len sorted in
  let virtual := (inject_Z (n - 1) * (q / 100))%Q in
  let lo := Qfloor virtual in
  let hi := Z.min (lo + 1) (n - 1) in
  let gamma := (virtual - inject_Z lo)%Q in
  let a := nth (Z.to_nat lo) sorted 0%Q in
  let b := nth (Z.to_nat hi) sorted 0%Q in
  (a + (b - a) * gamma)%Q.

Definition Qminimum (l : list Q) : Q :=
  match l with [] => 0%Q | x :: r => fold_left Qmin r x end.
Definition Qmaximum (l : list Q) : Q :=
  match l with [] => 0%Q | x :: r => fold_left Qmax r x end.

Definition micro : Q := 1 # 1000000.

(** Python's [max(a, b)] *)
Definition py_max (a b : f64) : f64 := if fgt b a then b else a.

(** [max(abs(v) * 1e-6, 1e-6) if v != 0 else 1e-6] *)
Definition tolerance (no_data_value : f64) : f64 :=
  if negb (feq no_data_value (Fin 0))
  then py_max (fmul (fabs no_data_value) (Fin micro)) (Fin micro)
  else Fin micro.

(** [np.isclose(x, y, atol=atol, rtol=rtol)] *)
Definition isclose (x y atol rtol : f64) : bool :=
  ((fle (fabs (fsub x y)) (fadd atol (fmul rtol (fabs y))) && isfinite y)
   || feq x y)%bool.

(** The no-data value when it takes part in the masking: given, and not
    NaN. *)
Definition masking_value (no_data_value : option f64) : option f64 :=
  match no_data_value with
  | Some v => if isnan v then None else Some v
  | None => None
  end.

(** [np.isclose(band, no_data_value, atol=tolerance, rtol=1e-6)] at one
    pixel; false when no value takes part in the masking. *)
Definition is_no_data (no_data_value : option f64) (x : f64) : bool :=
  match masking_value no_data_value with
  | Some v => isclose x v (tolerance v) (Fin micro)
  | None => false
  end.

(** [valid_mask] at one pixel *)
Definition is_valid (no_data_value : option f64) (x : f64) : bool :=
  (isfinite x && negb (is_no_data no_data_value x))%bool.

(** [band[valid_mask]] *)
Definition valid_data (no_data_value : option f64) (band : plane f64)
  : list Q :=
  flat_map (fun x => match x with
                     | Fin q => if is_valid no_data_value x then [q] else []
                     | _ => []
                     end)
           (List.concat band).

Definition percent_ok (q : Q) : bool := (Qle_bool 0 q && Qle_bool q 100)%bool.

(** [p2, p98]: the percentiles, or the minimum and maximum when
    [np.percentile] raises (a percentile out of [0, 100]). *)
Definition stretch_range (valid : list Q) (stretch_percent : f64) : Q * Q :=
  let fallback := (Qminimum valid, Qmaximum valid) in
  match stretch_percent with
  | Fin sp =>
      let p_low := sp in
      let p_high := (100 - sp)%Q in
      if (percent_ok p_low && percent_ok p_high)%bool
      then (percentile (sort_Q valid) p_low, percentile (sort_Q valid) p_high)
      else fallback
  | _ => fallback
  end.

(** The stretch of one pixel:
    [(np.clip((x - p2) / (p98 - p2), 0, 1) * 255).astype(np.uint8)] *)
Definition stretch_pixel (p2 p98 : Q) (x : f64) : Z :=
  let band_stretched := fdiv (fsub x (Fin p2)) (Fin (p98 - p2)) in
  let band_clipped := clip 0 1 band_stretched in
  astype_uint8 cast_undef (fmul band_clipped (Fin 255)).

(** One pass of the loop of [_normalize_for_display]: channel [band]. *)
Definition normalize_band (band : plane f64) (stretch_percent : f64)
  (no_data_value : option f64) : plane Z :=
  let valid := valid_data no_data_value band in
  match valid with
  | [] => map (map (fun _ => 0)) band
  | _ =>
      let '(p2, p98) := stretch_range valid stretch_percent in
      let stretched : f64 -> Z :=
        if Qlt_bool p2 p98 then stretch_pixel p2 p98
        else if negb (Qeq_bool p2 0) then (fun _ => 128)
        else (fun _ => 0) in
      map (map (fun x => if is_no_data no_data_value x then 0
                         else stretched x)) band
  end.

(** [_normalize_for_display] on the channels of an image. *)
Definition _normalize_for_display (image : list (plane f64))
  (stretch_percent : f64) (no_data_value : option f64) : list (plane Z) :=
  map (fun band => normalize_band band stretch_percent no_data_value) image.

(** [_estimate_rgb_bands]; [None] is the [TypeError] that [len] raises
    on an unsized array. *)
Definition _estimate_rgb_bands (h : DataHandler) : option (Z * Z * Z) :=
  let fallback :=
    let n_bands := bands h in
    Some (Z.min 29 (n_bands - 1), Z.min 19 (n_bands - 1),
          Z.min 9 (n_bands - 1)) in
  match wavelengths h with
  | None => fallback
  | Some WUnsized => None
  | Some (WArr []) => fallback
  | Some (WArr w) =>
      let target_r := 650%Q in
      let target_g := 550%Q in
      let target_b := 450%Q in
      Some (argmin (abs_diff w target_r),
            argmin (abs_diff w target_g),
            argmin (abs_diff w target_b))
  end.

(** The result of [get_rgb_composite]: a grey plane in mono mode, else
    the three channels. *)
Inductive image :=
| Gray (p : plane Z)
| Color (r g b : plane Z).

(** [min(max(band, 0), max_bands - 1)] *)
Definition clamp_band (max_bands band : Z) : Z :=
  Z.min (Z.max band 0) (max_bands - 1).

(** One band plane as [get_rgb_composite] reads it; [None] is an
    exception. *)
Definition read_composite_band (h : DataHandler) (b : Z)
  : option (plane f64) :=
  match file_type h with
  | Some FEmit | Some FAviris3 =>
      match data h with
      | Some a => option_map (filled_if_masked (Fin 0)) (band_plane a b)
      | None => None
      end
  | Some FEnvi =>
      match use_memmap h, data h with
      | true, Some a => option_map values (band_plane a b)
      | _, _ =>
          match spy_file h with
          | Some spy => df_read_band (spy_data spy) b
          | None => None
          end
      end
  | None => None
  end.

(** The band indices after auto-selection, before clamping. *)
Definition select_bands (h : DataHandler) (red_band green_band blue_band : option Z)
  : option (Z * Z * Z) :=
  match red_band, green_band, blue_band with
  | Some r, Some g, Some b => Some (r, g, b)
  | _, _, _ =>
      match _estimate_rgb_bands h with
      | Some (er, eg, eb) =>
          Some (match red_band with Some r => r | None => er end,
                match green_band with Some g => g | None => eg end,
                match blue_band with Some b => b | None => eb end)
      | None => None
      end
  end.

(** [get_rgb_composite] *)
Definition get_rgb_composite (h : DataHandler)
  (red_band green_band blue_band : option Z)
  (stretch_percent : f64) (no_data_value : option f64) : option image :=
  if negb (is_loaded h) then None
  else
    let no_data_value :=
      match no_data_value, data_ignore_value h with
      | None, Some v => Some v
      | _, _ => no_data_value
      end in
    match select_bands h red_band green_band blue_band with
    | None => None
    | Some (r0, g0, b0) =>
        let max_bands := bands h in
        let r := clamp_band max_bands r0 in
        let g := clamp_band max_bands g0 in
        let b := clamp_band max_bands b0 in
        match read_composite_band h r, read_composite_band h g,
              read_composite_band h b with
        | Some red, Some green, Some blue =>
            if ((r =? g) && (g =? b))%bool
            then
              match _normalize_for_display [red] stretch_percent
                                           no_data_value with
              | [grey] => Some (Gray grey)
              | _ => None
              end
            else
              match _normalize_for_display [red; green; blue] stretch_percent
                                           no_data_value with
              | [nr; ng; nb] => Some (Color nr ng nb)
              | _ => None
              end
        | _, _, _ => None
        end
    end.

End Platform.

End Handler.

(* ================================================================== *)
(** * Band selection helpers of [core/utils.py] *)
(* ================================================================== *)

Module Utils.
Import Num NdArray.

(** [wavelength_to_band_index], the index part. *)
Definition wavelength_to_band_index (wavelengths : list f64) (target : Q) : Z :=
  argmin (abs_diff wavelengths target).

(** [int(n * 0.8)], [int(n * 0.5)], [int(n * 0.2)] *)
Definition scaled (n : Z) (num den : Z) : Z :=
  Qtrunc (inject_Z n * (num # Z.to_pos den))%Q.

(** [get_true_color_rgb_bands] on an array of wavelengths ([None] for the
    argument [None]). *)
Definition get_true_color_rgb_bands (wavelengths : option (list f64))
  : Z * Z * Z :=
  match wavelengths with
  | None => (29, 19, 9)
  | Some [] => (0, 0, 0)
  | Some w =>
      let true_red := 650%Q in
      let true_green := 550%Q in
      let true_blue := 450%Q in
      let min_wl := np_min w in
      let max_wl := np_max w in
      let has_blue := fle min_wl (Fin 480) in
      let has_green := (fle min_wl (Fin 580) && fge max_wl (Fin 520))%bool in
      let has_red := fge max_wl (Fin 620) in
      if (has_blue && has_green && has_red)%bool then
        (wavelength_to_band_index w true_red,
         wavelength_to_band_index w true_green,
         wavelength_to_band_index w true_blue)
      else
        let n_bands := Z.of_nat (List.length w) in
        if n_bands <? 3 then (0, 0, 0)
        else
          let red_idx := Z.min (n_bands - 1) (scaled n_bands 8 10) in
          let green_idx := Z.min (n_bands - 1) (scaled n_bands 5 10) in
          let blue_idx := Z.min (n_bands - 1) (scaled n_bands 2 10) in
          let green_idx :=
            if red_idx =? green_idx then
              if 0 <? red_idx then red_idx - 1
              else Z.min (n_bands - 1) (red_idx + 1)
            else green_idx in
          let blue_idx :=
            if blue_idx =? green_idx then
              if 1 <? blue_idx then green_idx - 2
              else Z.min (n_bands - 1) (green_idx + 2)
            else blue_idx in
          let blue_idx :=
            if blue_idx =? red_idx then
              if 2 <? blue_idx then red_idx - 3
              else Z.min (n_bands - 1) (red_idx + 3)
            else blue_idx in
          (red_idx, green_idx, blue_idx)
  end.

End Utils.

(* ================================================================== *)
(** * Auxiliary notions used in the statements *)
(* ================================================================== *)

Module Props.
Import Num NdArray Env PyStr Envi Handler Introspector.

(** Axis [k] is the only axis of [dimensions]/[shape] classified spectral,
    and every other axis is classified spatial. *)
Definition one_spectral_axis (k : Z) (dimensions : list string)
  (shape : list Z) : Prop :=
  map dt_kind (classify dimensions shape)
  = map (fun i => if i =? k then Spectral else Spatial)
        (range (len dimensions)).

(** [l] with its element at position [k] moved to the end, the others
    keeping their order. *)
Definition move_to_last {A} (k : Z) (l : list A) : list A :=
  firstn (Z.to_nat k) l ++ skipn (Z.to_nat k + 1) l
  ++ firstn 1 (skipn (Z.to_nat k) l).

(** The element of [a] whose index along axis [k] is [b] and whose indices
    along the two other axes, in their order, are [r] and [c]. *)
Definition at_split {V} (a : cube V) (k r c b : Z) : V :=
  if k =? 0 then a b r c
  else if k =? 1 then a r b c
  else a r c b.

(** The spectral index [_determine_emit_transpose] works with. *)
Definition chosen_spectral_index (dimensions : list string) (shape : list Z)
  : Z :=
  fst (choose_spectral_index (classify dimensions shape)).

(** The six orders of the axes of a cube with 224 bands named [bands]. *)
Definition bands_axis : string * Z := ("bands", 224).
Definition rows_axis : string * Z := ("downtrack", 100).
Definition cols_axis : string * Z := ("crosstrack", 120).

Definition six_orders : list (list (string * Z)) :=
  [ [bands_axis; rows_axis; cols_axis];
    [bands_axis; cols_axis; rows_axis];
    [rows_axis; bands_axis; cols_axis];
    [cols_axis; bands_axis; rows_axis];
    [rows_axis; cols_axis; bands_axis];
    [cols_axis; rows_axis; bands_axis] ].

(** The axes of the cube after the derived transpose. *)
Definition transposed_axes (axes : list (string * Z)) : list (string * Z) :=
  apply_transpose (EmptyString, 0)
    (fst (_determine_emit_transpose (map fst axes) (map snd axes))) axes.




(** The stretch of one channel as the specification words it: when the two
    percentiles coincide the range falls back to the minimum and maximum of
    the valid data, and only if that range is degenerate too is the channel
    filled with 128 (nonzero constant) or 0. *)
Definition normalize_band_spec (cast_undef : Z) (band : plane f64)
  (stretch_percent : f64) (no_data_value : option f64) : plane Z :=
  let valid := valid_data no_data_value band in
  match valid with
  | [] => map (map (fun _ => 0)) band
  | _ =>
      let '(p_low, p_high) := stretch_range valid stretch_percent in
      let '(lo, hi) :=
        if Qeq_bool p_high p_low then (Qminimum valid, Qmaximum valid)
        else (p_low, p_high) in
      let stretched : f64 -> Z :=
        if Qlt_bool lo hi then stretch_pixel cast_undef lo hi
        else if negb (Qeq_bool lo 0) then (fun _ => 128)
        else (fun _ => 0) in
      map (map (fun x => if is_no_data no_data_value x then 0
                         else stretched x)) band
  end.

(** All the elements of a composite. *)
Definition image_pixels (img : image) : list Z :=
  match img with
  | Gray p => List.concat p
  | Color r g b => List.concat r ++ List.concat g ++ List.concat b
  end.

(** A line as [readlines] yields it before the end of the file: some
    characters other than the line feed, then one line feed. *)
Fixpoint terminated_line (s : string) : bool :=
  match s with
  | EmptyString => false
  | String c EmptyString => Ascii.eqb c newline
  | String c r => (negb (Ascii.eqb c newline) && terminated_line r)%bool
  end.

(** No line feed at all. *)
Definition no_newline (s : string) : bool :=
  forallb_str (fun c => negb (Ascii.eqb c newline)) s.

(** What [readlines] yields: terminated lines, the last of which may
    instead be a non-empty line without line feed. *)
Fixpoint split_lines_ok (lines : list string) : bool :=
  match lines with
  | [] => true
  | [s] => (terminated_line s
            || (no_newline s && negb (String.eqb s EmptyString)))%bool
  | s :: r => (terminated_line s && split_lines_ok r)%bool
  end.

(** The test by which the saver recognises a [bbl] line. *)
Definition is_bbl_line (line : string) : bool :=
  startswith "bbl" (lower (strip line)).

Definition zero_or_one (v : Z) : bool := ((v =? 0) || (v =? 1))%bool.

(** The reader holds no [bbl] entry and is not gathering one. *)
Definition bbl_free (st : reader) : Prop :=
  lookup "bbl" (rd_dict st) = None
  /\ forall k s, rd_open st = Some (k, s) -> k <> "bbl".

(** Every key is in lower case. *)
Definition keys_lower (d : Envi.header) : Prop :=
  Forall (fun kv => lower (fst kv) = fst kv) d.

End Props.

(* ================================================================== *)
(** * Concrete files and objects *)
(* ================================================================== *)

Module Examples.
Import Num NdArray Env PyStr Envi Handler.

(** A reader of plain decimal literals ([12], [-9999.0], [0.5]), standing
    for Python's [float] on the inputs of this module. *)
Definition decimal_value (int_part frac_part : string) : option Q :=
  match unsigned_int (int_part ++ frac_part)%string with
  | Some n => Some (n # Pos.pow 10 (Pos.of_nat (String.length frac_part)))
  | None => None
  end.

Definition unsigned_float (s : string) : option Q :=
  let '(i, dotted, f) := partition_char "." s in
  if dotted then
    match f with
    | EmptyString => option_map inject_Z (unsigned_int i)
    | _ => decimal_value i f
    end
  else option_map inject_Z (unsigned_int i).

Definition float_of_str (s : string) : option f64 :=
  match strip s with
  | String "-" r => option_map (fun q => Fin (- q)) (unsigned_float r)
  | String "+" r => option_map Fin (unsigned_float r)
  | t => option_map Fin (unsigned_float t)
  end.

(** [str(x)] for the floats of this module: integral values print with a
    trailing [.0]. *)
Definition float_repr (x : f64) : string :=
  match x with
  | Fin q => (str_of_int (Qfloor q) ++ ".0")%string
  | PInf => "inf"
  | NInf => "-inf"
  | NaN => "nan"
  end.

Definition envi_open := Envi.open float_of_str.

(** The temporary header gets a path of the temporary directory. *)
Definition new_temp_file (fs : filesystem) : option string :=
  Some "/tmp/tmpheader.hdr".

(** A 1 x 1 x 2 ENVI cube. *)
Definition cube_data : data_file :=
  DataFile (NdArr [1; 1; 2] (fun _ _ b => plain (Fin (inject_Z b))))
           (fun _ _ => Some [Fin 0; Fin 1])
           (fun b => Some [[Fin (inject_Z b)]])
           (Some [Fin 500; Fin 600]).

(** Its header, every line ended by a line feed. *)
Definition header_text : string :=
"ENVI
samples = 1
lines = 1
bands = 2
data type = 4
interleave = bsq
byte order = 0
wavelength = {500, 600}
wavelength units = nm
".

(** The same header, the last line not ended by a line feed. *)
Definition header_text_unterminated : string :=
"ENVI
samples = 1
lines = 1
bands = 2
data type = 4
interleave = bsq
byte order = 0
wavelength = {500, 600}
wavelength units = nm".

Definition disk (text : string) (can_write : bool) : filesystem :=
  fun p =>
    if String.eqb p "cube.hdr" then Some (EText (TextFile text true can_write))
    else if String.eqb p "cube.bsq" then Some (EData cube_data)
    else None.

(** A fresh object that has opened [cube.bsq] on the given disk. *)
Definition opened (fs : filesystem) : DataHandler :=
  fst (load_envi_data float_of_str envi_open new_temp_file Envi.load
                      Envi.open_memmap fs init "cube.bsq" false None).


(** An EMIT surface-reflectance product: one pixel, four bands holding
    1.5, 0.5, the fill sentinel and -0.25. *)
Definition emit_values (b : Z) : f64 :=
  if b =? 0 then Fin (3 # 2)
  else if b =? 1 then Fin (1 # 2)
  else if b =? 2 then Fin (-9999)
  else Fin (- (1 # 4)).

Definition emit_reflectance : nc_file :=
  NcFile [ NcVar "reflectance" ["downtrack"; "crosstrack"; "bands"]
                 [1; 1; 4] (fun _ _ b => emit_values b) ]
         [ ("sensor_band_parameters",
            NcGroup [] [("wavelengths",
                         [Fin 1000; Fin 1100; Fin 1200; Fin 1300])]) ].

Definition emit_path : string := "EMIT_L2A_RFL_001_20230101T000000.nc".

Definition emit_disk : filesystem :=
  fun p => if String.eqb p emit_path then Some (ENetCDF emit_reflectance)
           else None.

(** The product opened by a fresh object, and opened once more by the
    same object. *)
Definition emit_first : DataHandler :=
  fst (load_envi_data float_of_str envi_open new_temp_file Envi.load
                      Envi.open_memmap emit_disk init emit_path false None).

Definition emit_second : DataHandler :=
  fst (load_envi_data float_of_str envi_open new_temp_file Envi.load
                      Envi.open_memmap emit_disk emit_first emit_path false
                      None).

(** The mask bits of the four bands of the single pixel. *)
Definition pixel_masks (h : DataHandler) : list bool :=
  match data h with
  | Some a => map (fun b => cmask (nd_at a 0 0 b)) (range 4)
  | None => []
  end.

(** A 1 x 3 x 2 ENVI cube whose middle pixel cannot be read. *)
Definition line_data : data_file :=
  DataFile (NdArr [1; 3; 2] (fun _ c b => plain (Fin (inject_Z (c + 10 * b)))))
           (fun _ c => if c =? 1 then None
                       else Some [Fin (inject_Z c); Fin (inject_Z (c + 10))])
           (fun b => Some [[Fin (inject_Z (10 * b));
                            Fin (inject_Z (1 + 10 * b));
                            Fin (inject_Z (2 + 10 * b))]])
           (Some [Fin 500; Fin 600]).

Definition line_header_text : string :=
"ENVI
samples = 3
lines = 1
bands = 2
data type = 4
interleave = bip
byte order = 0
".

Definition line_disk : filesystem :=
  fun p =>
    if String.eqb p "line.hdr"
    then Some (EText (TextFile line_header_text true true))
    else if String.eqb p "line.bip" then Some (EData line_data)
    else None.

(** The cube opened in resident mode ([load_to_ram=True]). *)
Definition resident : DataHandler :=
  fst (load_envi_data float_of_str envi_open new_temp_file Envi.load
                      Envi.open_memmap line_disk init "line.bip" true None).

(** The writable disk whose header lacks the final line feed, the cube
    opened from it, and the outcome of [set_bad_band_list([1, 0])]. *)
Definition disk_unterminated : filesystem := disk header_text_unterminated true.

Definition after_set_unterminated : filesystem * DataHandler * bool :=
  set_bad_band_list disk_unterminated (opened disk_unterminated) (Some [1; 0]).

(** The same with the header that ends with a line feed. *)
Definition disk_terminated : filesystem := disk header_text true.

Definition after_set_terminated : filesystem * DataHandler * bool :=
  set_bad_band_list disk_terminated (opened disk_terminated) (Some [1; 0]).

(** The same, followed by [set_bad_band_list(None)]. *)
Definition after_clear_terminated : filesystem * DataHandler * bool :=
  set_bad_band_list (fst (fst after_set_terminated))
                    (snd (fst after_set_terminated)) None.

(** [reload_from_header] by the object that made the change. *)
Definition reloaded (t : filesystem * DataHandler * bool) : DataHandler * bool :=
  reload_from_header float_of_str envi_open new_temp_file Envi.load
                     Envi.open_memmap (fst (fst t)) (snd (fst t)).

(** The header on disk, re-parsed. *)
Definition reparsed (fs : filesystem) : option Envi.header :=
  match read_text fs "cube.hdr" with
  | Some text => read_envi_header text
  | None => None
  end.

(** Wavelengths in the short-wave infrared only. *)
Definition swir : list f64 := [Fin 1000; Fin 1100; Fin 1200; Fin 1300].

End Examples.

(* ================================================================== *)
(** * [DataHandler]: band quality, pixel spectra, wavelength lookup *)
(* ================================================================== *)

Module Accessors.
Import Num NdArray Env PyStr Envi Handler.

(** [np.where(l == v)[0]]: the indices of the entries equal to [v], in
    ascending order. *)
Definition where_eq (v : Z) (l : list Z) : list Z :=
  map fst (filter (fun il => snd il =? v) (enumerate l)).

(** [get_good_bands] *)
Definition get_good_bands (h : DataHandler) : option (list Z) :=
  match bad_band_list h with
  | None => None
  | Some l => Some (where_eq 1 l)
  end.

(** [get_bad_bands] *)
Definition get_bad_bands (h : DataHandler) : option (list Z) :=
  match bad_band_list h with
  | None => None
  | Some l => Some (where_eq 0 l)
  end.

(** [is_band_good] *)
Definition is_band_good (h : DataHandler) (band_index : Z) : bool :=
  match bad_band_list h with
  | None => true
  | Some l =>
      if ((band_index <? 0) || (band_index >=? len l))%bool then true
      else nth (Z.to_nat band_index) l 0 =? 1
  end.

(** [a[y, x, :]] *)
Definition pixel_vector (a : ndarray) (y x : Z) : option (list cell) :=
  match resolve_index (dim a 0) y, resolve_index (dim a 1) x with
  | Some r, Some c => Some (map (fun b => nd_at a r c b) (range (dim a 2)))
  | _, _ => None
  end.

(** [if np.ma.is_masked(s): s = s.filled(v)] and then the values of the
    vector [s]. *)
Definition filled_vector_if_masked (v : f64) (s : list cell) : list f64 :=
  if existsb cmask s then map (fun c => if cmask c then v else cv c) s
  else map cv s.

(** [get_pixel_spectrum]: [x] is the column, [y] the row. *)
Definition get_pixel_spectrum (h : DataHandler) (x y : Z)
  : option (list f64) :=
  if negb (is_loaded h) then None
  else if ((x <? 0) || (x >=? cols h) || (y <? 0) || (y >=? rows h))%bool
  then None
  else
    match file_type h with
    | Some FEmit | Some FAviris3 =>
        match data h with
        | Some a =>
            option_map (filled_vector_if_masked NaN) (pixel_vector a y x)
        | None => None
        end
    | Some FEnvi =>
        match use_memmap h, data h with
        | true, Some a => option_map (map cv) (pixel_vector a y x)
        | _, _ =>
            match spy_file h with
            | Some spy => df_read_pixel (spy_data spy) y x
            | None => None
            end
        end
    | None => None
    end.

(** [np.abs(wavelengths - target)] for any float target. *)
Definition abs_diff_to (wavelengths : list f64) (target : f64) : list f64 :=
  map (fun w => fabs (fsub w target)) wavelengths.

(** [get_band_by_wavelength].  The method has no [try]: the outer [None]
    stands for the exception that escapes it, the [TypeError] of the
    subtraction on the unsized array or the [ValueError] of [np.argmin] on
    an empty one. *)
Definition get_band_by_wavelength (h : DataHandler) (target_wavelength : f64)
  : option (option (Z * f64)) :=
  match wavelengths h with
  | None => Some None
  | Some WUnsized => None
  | Some (WArr []) => None
  | Some (WArr w) =>
      let differences := abs_diff_to w target_wavelength in
      let closest_idx := argmin differences in
      Some (Some (closest_idx, nth (Z.to_nat closest_idx) w NaN))
  end.

(** [cleanup].  [nc_close] tells whether [self.nc_dataset.close()]
    returns; when it raises, the dataset stays in [nc_dataset]. *)
Definition cleanup (nc_close : nc_file -> bool) (h : DataHandler)
  : DataHandler :=
  MkHandler None None (header h) (wavelengths h) (shape h)
            (filename h) (header_filename h) false (use_memmap h)
            (file_type h) (fill_value h) (bad_band_list h)
            (data_ignore_value h)
            match nc_dataset h with
            | Some d => if nc_close d then None else Some d
            | None => None
            end.

End Accessors.

(* ================================================================== *)
(** * Notions used in the statements about the accessors *)
(* ================================================================== *)

Module Notions.
Import Num NdArray Env PyStr Envi Handler Accessors.

(** The cube is held as an array whose shape is the one the object
    records: a NetCDF product, or a memory-mapped ENVI file. *)
Definition held_as (h : DataHandler) (a : ndarray) : Prop :=
  (file_type h = Some FEmit \/ file_type h = Some FAviris3
   \/ (file_type h = Some FEnvi /\ use_memmap h = true))
  /\ data h = Some a /\ nd_shape a = shape h.


End Notions.

(* ================================================================== *)
(** * Notions used in the statements about the loaders *)
(* ================================================================== *)

Module LoadNotions.
Import Num NdArray Env PyStr Envi Handler Introspector.

(** The wavelengths an EMIT file carries: the vector [wavelengths] of its
    group [sensor_band_parameters]. *)
Definition emit_file_wavelengths (ncf : nc_file) : option (list f64) :=
  match lookup "sensor_band_parameters" (nc_groups ncf) with
  | Some g => lookup "wavelengths" (grp_vectors g)
  | None => None
  end.

(** The names [_load_emit_data] looks for first. *)
Definition standard_names : list string := ["reflectance"; "radiance"; "mask"].

(** The 3-D variables of a file. *)
Definition three_d (ncf : nc_file) : list nc_variable :=
  filter (fun v => Nat.eqb (List.length (nv_dimensions v)) 3)
         (nc_variables ncf).

(** The dimension entries of the header agree with the shape. *)
Definition header_matches_shape (h : DataHandler) : Prop :=
  lookup "lines" (header h) = Some (HInt (rows h))
  /\ lookup "samples" (header h) = Some (HInt (cols h))
  /\ lookup "bands" (header h) = Some (HInt (bands h)).

(** A bad-band list, when there is one, has one entry per band. *)
Definition bbl_fits (h : DataHandler) : Prop :=
  match bad_band_list h with
  | None => True
  | Some l => len l = bands h
  end.

End LoadNotions.

(* ================================================================== *)
(** * More concrete files *)
(* ================================================================== *)

Module Fixtures.
Import Num NdArray Env PyStr Envi Handler.

(** An AVIRIS-3 radiance product of 2 bands, 1 line and 3 samples, stored
    bands first, without wavelengths. *)
Definition av3_radiance : nc_file :=
  NcFile []
         [ ("radiance",
            NcGroup [ NcVar "radiance" ["wavelength"; "lines"; "samples"]
                            [2; 1; 3]
                            (fun b _ c => Fin (inject_Z (10 * b + c))) ]
                    []) ].

Definition av3_path : string := "AV320230101t000000_L1B_RDN.nc".

Definition av3_disk : filesystem :=
  fun p => if String.eqb p av3_path then Some (ENetCDF av3_radiance)
           else None.

(** An EMIT product stored bands first, without wavelengths. *)
Definition emit_bands_first : nc_file :=
  NcFile [ NcVar "radiance" ["bands"; "downtrack"; "crosstrack"]
                 [2; 1; 3] (fun b _ c => Fin (inject_Z (10 * b + c))) ]
         [].

Definition emit_l1b_path : string := "EMIT_L1B_RAD_001_20230101T000000.nc".

Definition emit_l1b_disk : filesystem :=
  fun p => if String.eqb p emit_l1b_path then Some (ENetCDF emit_bands_first)
           else None.

End Fixtures.

(* ================================================================== *)
(** * More helpers of [core/utils.py] *)
(* ================================================================== *)

Module Toolbox.
Import Num NdArray Env PyStr Handler Accessors.

(** [wavelength_to_band_index], the index part, for any float target. *)
Definition band_index_for (wavelengths : list f64) (target_wavelength : f64)
  : Z :=
  let differences := abs_diff_to wavelengths target_wavelength in
  argmin differences.

(** [estimate_optimal_rgb_bands] on an array of wavelengths ([None] for
    the argument [None]). *)
Definition estimate_optimal_rgb_bands (wavelengths : option (list f64))
  : Z * Z * Z :=
  let fallback (n_bands : Z) :=
    (Z.min 29 (n_bands - 1), Z.min 19 (n_bands - 1), Z.min 9 (n_bands - 1)) in
  match wavelengths with
  | None => fallback 100
  | Some [] => fallback 0
  | Some w =>
      let min_wl := np_min w in
      let max_wl := np_max w in
      let '(target_red, target_green, target_blue) :=
        if fle max_wl (Fin 1000) then (Fin 650, Fin 550, Fin 450)
        else if fge min_wl (Fin 1000) then
          (fsub max_wl (fmul (fsub max_wl min_wl) (Fin (1 # 10))),
           fadd min_wl (fmul (fsub max_wl min_wl) (Fin (5 # 10))),
           fadd min_wl (fmul (fsub max_wl min_wl) (Fin (1 # 10))))
        else (Fin 1200, Fin 800, Fin 650) in
      let red_idx := band_index_for w target_red in
      let green_idx := band_index_for w target_green in
      let blue_idx := band_index_for w target_blue in
      if ((red_idx =? green_idx) && (green_idx =? blue_idx))%bool then
        let n_bands := len w in
        (Z.min (n_bands - 1) (n_bands * 3 / 4),
         Z.min (n_bands - 1) (n_bands / 2),
         Z.min (n_bands - 1) (n_bands / 4))
      else (red_idx, green_idx, blue_idx)
  end.




(** [os.path.basename(p)] and [os.path.dirname(p)] *)
Definition basename (p : string) : string :=
  let i := PyPath.rfind "/" p + 1 in
  PyPath.slice i (PyPath.strlen p) p.

Definition dirname (p : string) : string :=
  let i := PyPath.rfind "/" p + 1 in
  let head := PyPath.slice 0 i p in
  if (negb (String.eqb head EmptyString)
      && negb (forallb_str (fun c => Ascii.eqb c "/") head))%bool
  then rstrip_with (fun c => Ascii.eqb c "/") head
  else head.

(** [validate_envi_file_pair] *)
Definition validate_envi_file_pair (fs : filesystem) (data_file : string)
  : bool * option string * option string :=
  if negb (exists_ fs data_file) then (false, None, None)
  else
    let possible_headers :=
      [ (data_file ++ ".hdr")%string;
        (fst (PyPath.splitext data_file) ++ ".hdr")%string;
        PyPath.replace ".bip" ".hdr"
          (PyPath.replace ".bil" ".hdr"
             (PyPath.replace ".bsq" ".hdr" data_file)) ] in
    let possible_headers :=
      if negb (contains "." (basename data_file))
      then possible_headers
           ++ [ (data_file ++ ".hdr")%string;
                (dirname data_file ++ "/" ++ basename data_file ++ ".hdr")%string ]
      else possible_headers in
    match find (exists_ fs) possible_headers with
    | None => (false, Some data_file, None)
    | Some header_file => (true, Some data_file, Some header_file)
    end.

End Toolbox.

(* ================================================================== *)
(** * Notions used in the statements about the helpers *)
(* ================================================================== *)

Module ToolNotions.
Import Num NdArray Env PyStr Handler Accessors Toolbox.

(** The test of [get_true_color_rgb_bands] for coverage of the visible
    range. *)
Definition visible_coverage (w : list f64) : bool :=
  (fle (np_min w) (Fin 480)
   && (fle (np_min w) (Fin 580) && fge (np_max w) (Fin 520))
   && fge (np_max w) (Fin 620))%bool.


End ToolNotions.

(* ================================================================== *)
(** * Python values and [dict]s *)
(* ================================================================== *)

Module PyVal.
Import PyStr Env.

#[local] Set Warnings "-register-all".

(** The Python values that dataset records hold: a [dict] has string keys
    and keeps its insertion order. *)
Inductive pyval :=
| VNone
| VBool (b : bool)
| VInt (n : Z)
| VFloat (q : Q)
| VStr (s : string)
| VList (l : list pyval)
| VDict (items : list (string * pyval)).

(** [d[key] = v] on the items of a [dict]: an existing key keeps its
    place, a new one goes to the end. *)
Fixpoint assoc_set {V} (key : string) (v : V) (d : list (string * V))
  : list (string * V) :=
  match d with
  | [] => [(key, v)]
  | (k, w) :: r =>
      if String.eqb k key then (k, v) :: r else (k, w) :: assoc_set key v r
  end.

(** [del d[key]] for a key that [d] holds. *)
Definition assoc_del {V} (key : string) (d : list (string * V))
  : list (string * V) :=
  filter (fun kv => negb (String.eqb (fst kv) key)) d.

(** [key in d] *)
Definition contains {V} (key : string) (d : list (string * V)) : bool :=
  match lookup key d with
  | Some _ => true
  | None => false
  end.

(** [d.get(key, default)] *)
Definition dict_get {V} (key : string) (default : V)
  (d : list (string * V)) : V :=
  match lookup key d with
  | Some v => v
  | None => default
  end.

End PyVal.

(* ================================================================== *)
(** * [ConfigManager] of [core/utils.py] *)
(* ================================================================== *)

Module Config.
Import PyStr Env PyVal.

#[local] Set Warnings "-register-all".

(** A value of the configuration.  A [dict] is an object: the value holds
    its address in the store, so that one [dict] can be held under several
    keys and an assignment into it shows under all of them.  A list is
    held by value: no method of the class assigns into one. *)
Inductive cval :=
| CNone
| CBool (b : bool)
| CInt (n : Z)
| CFloat (q : Q)
| CStr (s : string)
| CList (l : list cval)
| CDict (address : nat).

(** The [dict] objects by address, each with its items in insertion
    order. *)
Definition store := list (list (string * cval)).

(** The object at [address] becomes [d]. *)
Fixpoint store_set (address : nat) (d : list (string * cval)) (s : store)
  : store :=
  match s, address with
  | [], _ => []
  | _ :: r, O => d :: r
  | x :: r, S n => x :: store_set n d r
  end.

(** The attributes of a [ConfigManager]: [config] is the address of the
    [dict] in [self.config]. *)
Record ConfigManager := MkConfig {
  config_file : string;
  objects : store;
  config : nat
}.

(** [_load_default_config]: the seven [dict]s of the literal are new
    objects, placed after those of [s]; the result is the address of the
    outer one. *)
Definition _load_default_config (s : store) : store * nat :=
  let n := List.length s in
  (s ++ [ [ ("default_rgb_bands", CList [CInt 29; CInt 19; CInt 9]);
            ("contrast_stretch_percent", CFloat 2);
            ("auto_scale", CBool true);
            ("background_color", CStr "white") ];
          [ ("default_load_mode", CStr "memmap");
            ("memmap_threshold_mb", CInt 1000) ];
          [ ("default_roi_color", CStr "red");
            ("roi_line_width", CInt 2);
            ("max_rois", CInt 50) ];
          [ ("line_width", CInt 2);
            ("grid_alpha", CFloat (3 # 10));
            ("legend_position", CStr "top-right") ];
          [ ("default_format", CStr "csv");
            ("include_wavelengths", CBool true);
            ("precision", CInt 6) ];
          [ ("window_width", CInt 1200);
            ("window_height", CInt 800);
            ("splitter_ratios", CList [CFloat (6 # 10); CFloat (4 # 10)]);
            ("toolbar_icon_size", CInt 24) ];
          [ ("display", CDict n);
            ("data_loading", CDict (n + 1));
            ("roi", CDict (n + 2));
            ("spectrum_plot", CDict (n + 3));
            ("export", CDict (n + 4));
            ("ui", CDict (n + 5)) ] ],
   (n + 6)%nat).

(** [ConfigManager.__init__] when the configuration file does not exist:
    the defaults, in a store of their own. *)
Definition init (config_file : option string) : ConfigManager :=
  let '(s, root) := _load_default_config [] in
  MkConfig match config_file with
           | Some f => if String.eqb f EmptyString
                       then "configs/default.yaml" else f
           | None => "configs/default.yaml"
           end
           s root.

(** [for key in keys: value = value[key]]; [None] is the [KeyError] of a
    missing key or the [TypeError] of indexing a value that is not a
    [dict] with a string. *)
Fixpoint get_keys (s : store) (keys : list string) (value : cval)
  : option cval :=
  match keys with
  | [] => Some value
  | key :: rest =>
      match value with
      | CDict a =>
          match nth_error s a with
          | Some d =>
              match lookup key d with
              | Some v => get_keys s rest v
              | None => None
              end
          | None => None
          end
      | _ => None
      end
  end.

(** [ConfigManager.get] *)
Definition get (m : ConfigManager) (key_path : string) (default_value : cval)
  : cval :=
  let keys := split_char "." key_path in
  match get_keys (objects m) keys (CDict (config m)) with
  | Some value => value
  | None => default_value
  end.

(** The two loops of [ConfigManager.set] from the section reached so far:
    the store afterwards, and [false] when a [TypeError] is raised.  A
    missing key gets a new empty [dict]; the assignments are made into the
    objects reached, in place; a section that is not a [dict] raises. *)
Fixpoint set_keys (s : store) (keys : list string) (value : cval)
  (config_section : cval) : store * bool :=
  match config_section with
  | CDict a =>
      match nth_error s a with
      | Some d =>
          match keys with
          | [] => (s, false)
          | [last] => (store_set a (assoc_set last value d) s, true)
          | key :: rest =>
              match lookup key d with
              | Some section => set_keys s rest value section
              | None =>
                  let new := List.length s in
                  set_keys (store_set a (assoc_set key (CDict new) d) s
                            ++ [[]])
                           rest value (CDict new)
              end
          end
      | None => (s, false)
      end
  | _ => (s, false)
  end.

(** [ConfigManager.set]: the object afterwards, and whether the call
    returned ([false]: it raised). *)
Definition set (m : ConfigManager) (key_path : string) (value : cval)
  : ConfigManager * bool :=
  let '(s, ok) :=
    set_keys (objects m) (split_char "." key_path) value (CDict (config m)) in
  (MkConfig (config_file m) s (config m), ok).

End Config.

(* ================================================================== *)
(** * [DataManager] of [core/data_manager.py] *)
(* ================================================================== *)

Module Manager.
Import PyStr Env PyVal.

(** One entry of [self.metadata]. *)
Record meta := MkMeta {
  added_time : string;
  source_info : list (string * pyval);
  type : pyval;
  parent_datasets : pyval;
  processing_history : pyval
}.

(** The attributes of the manager.  [derived_refs] is a [dict] that the
    class only ever creates and clears. *)
Record DataManager := MkManager {
  datasets : list (string * Handler.DataHandler);
  metadata : list (string * meta);
  active_dataset : option string;
  derived_refs : list (string * unit)
}.

(** [DataManager.__init__], the first time *)
Definition init : DataManager := MkManager [] [] None [].

(** [add_dataset]; [hms] and [iso] are the two readings of the clock,
    [datetime.now().strftime("%H%M%S")] and [datetime.now().isoformat()].
    A [source_info] that is [None] or empty is false. *)
Definition add_dataset (hms iso : string) (m : DataManager) (name : string)
  (data_handler : Handler.DataHandler)
  (source_info : option (list (string * pyval))) : DataManager * bool :=
  let name :=
    if contains name (datasets m) then (name ++ "_" ++ hms)%string
    else name in
  let entry :=
    match source_info with
    | Some (e :: r) =>
        MkMeta iso (e :: r)
               (dict_get "type" (VStr "derived") (e :: r))
               (dict_get "parents" (VList []) (e :: r))
               (dict_get "processing" (VList []) (e :: r))
    | _ => MkMeta iso [] (VStr "original") (VList []) (VList [])
    end in
  (MkManager (assoc_set name data_handler (datasets m))
             (assoc_set name entry (metadata m))
             match active_dataset m with
             | None => Some name
             | Some a => Some a
             end
             (derived_refs m),
   true).

(** [get_dataset] *)
Definition get_dataset (m : DataManager) (name : string)
  : option Handler.DataHandler :=
  lookup name (datasets m).

(** [get_active_dataset]; the empty name is false. *)
Definition get_active_dataset (m : DataManager)
  : option Handler.DataHandler :=
  match active_dataset m with
  | Some a => if String.eqb a "" then None else lookup a (datasets m)
  | None => None
  end.

(** [set_active_dataset] *)
Definition set_active_dataset (m : DataManager) (name : string)
  : DataManager * bool :=
  if contains name (datasets m)
  then (MkManager (datasets m) (metadata m) (Some name) (derived_refs m),
        true)
  else (m, false).

(** [remove_dataset]; [None] is the [KeyError] of [del self.metadata[name]]
    for a name that [self.metadata] does not hold. *)
Definition remove_dataset (m : DataManager) (name : string)
  : option (DataManager * bool) :=
  if contains name (datasets m) then
    if contains name (metadata m) then
      let datasets' := assoc_del name (datasets m) in
      let active :=
        match active_dataset m with
        | Some a =>
            if String.eqb a name
            then match datasets' with
                 | (first, _) :: _ => Some first
                 | [] => None
                 end
            else Some a
        | None => None
        end in
      Some (MkManager datasets' (assoc_del name (metadata m)) active
                      (derived_refs m),
            true)
    else None
  else Some (m, false).

(** One [info] of [list_datasets]. *)
Record listing := MkListing {
  l_name : string;
  l_shape : option (list Z);
  l_type : pyval;
  l_parents : pyval;
  l_added_time : string;
  l_is_active : bool
}.

(** The loop of [list_datasets]; [None] is the [KeyError] of
    [self.metadata[name]]. *)
Fixpoint list_entries (metadata : list (string * meta))
  (active : option string) (items : list (string * Handler.DataHandler))
  : option (list listing) :=
  match items with
  | [] => Some []
  | (name, handler) :: rest =>
      match lookup name metadata with
      | Some md =>
          let info :=
            MkListing name
                      (if Handler.is_loaded handler
                       then Some (Handler.shape handler) else None)
                      (type md) (parent_datasets md) (added_time md)
                      match active with
                      | Some a => String.eqb name a
                      | None => false
                      end in
          match list_entries metadata active rest with
          | Some result => Some (info :: result)
          | None => None
          end
      | None => None
      end
  end.

(** [list_datasets] *)
Definition list_datasets (m : DataManager) : option (list listing) :=
  list_entries (metadata m) (active_dataset m) (datasets m).

(** [clear_all] *)
Definition clear_all (m : DataManager) : DataManager :=
  MkManager [] [] None [].

End Manager.

(* ================================================================== *)
(** * Notions used in the statements about the configuration and the
      manager *)
(* ================================================================== *)

Module ConfigNotions.
Import PyStr Env PyVal Config.

(** The lookups that following [keys] from [v] makes in the store, each
    the address of the [dict] looked into and the key, up to the first
    one that finds nothing. *)
Fixpoint lookups (s : store) (keys : list string) (v : cval)
  : list (nat * string) :=
  match keys with
  | [] => []
  | key :: rest =>
      match v with
      | CDict a =>
          (a, key)
          :: match nth_error s a with
             | Some d =>
                 match lookup key d with
                 | Some sub => lookups s rest sub
                 | None => []
                 end
             | None => []
             end
      | _ => []
      end
  end.

(** Every [dict] held under a key of a [dict] of the store is an object of
    the store. *)
Definition closed (s : store) : bool :=
  forallb (fun d =>
             forallb (fun kv => match snd kv with
                                | CDict b => (b <? List.length s)%nat
                                | _ => true
                                end) d) s.

(** [v] is a [dict] of the store. *)
Definition is_dict_of (s : store) (v : cval) : bool :=
  match v with
  | CDict a => (a <? List.length s)%nat
  | _ => false
  end.

End ConfigNotions.

Module ManagerNotions.
Import PyStr Env PyVal Manager.

(** A call of one of the methods that change the manager. *)
Inductive call :=
| Add (hms iso name : string) (data_handler : Handler.DataHandler)
      (source_info : option (list (string * pyval)))
| SetActive (name : string)
| Remove (name : string)
| ClearAll.

(** The manager after one call; [None] when the call raises. *)
Definition step (m : DataManager) (c : call) : option DataManager :=
  match c with
  | Add hms iso name h si => Some (fst (add_dataset hms iso m name h si))
  | SetActive name => Some (fst (set_active_dataset m name))
  | Remove name =>
      match remove_dataset m name with
      | Some (m', _) => Some m'
      | None => None
      end
  | ClearAll => Some (clear_all m)
  end.

(** The manager after a sequence of calls. *)
Fixpoint run (m : DataManager) (cs : list call) : option DataManager :=
  match cs with
  | [] => Some m
  | c :: rest =>
      match step m c with
      | Some m' => run m' rest
      | None => None
      end
  end.

(** The names of the datasets, oldest first. *)
Definition names (m : DataManager) : list string := map fst (datasets m).

(** What the methods keep true of the three attributes. *)
Definition consistent (m : DataManager) : Prop :=
  NoDup (names m)
  /\ map fst (metadata m) = names m
  /\ match active_dataset m with
     | Some a => In a (names m)
     | None => datasets m = []
     end.

End ManagerNotions.

(* ================================================================== *)
(** * Properties of the axis introspection *)
(* ================================================================== *)

Section IntrospectorFacts.
Import Num NdArray Introspector Props.

Lemma classify_three (n0 n1 n2 : string) (s0 s1 s2 : Z) :
  classify [n0; n1; n2] [s0; s1; s2]
  = [ DimType (classify_axis n0 s0) 0 n0 s0;
      DimType (classify_axis n1 s1) 1 n1 s1;
      DimType (classify_axis n2 s2) 2 n2 s2 ].
Proof. reflexivity. Qed.

Lemma three_elements {A} (l : list A) :
  List.length l = 3%nat -> exists a b c, l = [a; b; c].
Proof.
  destruct l as [|a [|b [|c [|d l]]]]; simpl; intros H; try discriminate.
  now exists a, b, c.
Qed.

(** An axis is classified spectral exactly when its lower-cased name
    contains one of the spectral substrings or its length lies in
    [[200, 400]]. *)
Lemma classify_axis_spectral (dim_name : string) (dim_size : Z) :
  classify_axis dim_name dim_size = Spectral
  <-> PyStr.any_in spectral_names (PyStr.lower dim_name) = true
      \/ 200 <= dim_size <= 400.
Proof.
  unfold classify_axis.
  destruct (PyStr.any_in spectral_names (PyStr.lower dim_name)) eqn:En;
    cbn [orb].
  - split; auto.
  - destruct ((200 <=? dim_size) && (dim_size <=? 400)) eqn:Es.
    + apply andb_true_iff in Es as [H1 H2].
      apply Z.leb_le in H1, H2. split; auto.
    + split.
      * intros H. destruct (_ || _) in H; discriminate H.
      * intros [H | H]; [discriminate H|].
        apply andb_false_iff in Es as [Es | Es]; apply Z.leb_gt in Es; lia.
Qed.

Lemma spectral_dims_index_bound dims shape i dt :
  In dt (classify_from i dims shape) -> i <= dt_index dt.
Proof.
  revert shape i. induction dims as [|n ds IH]; intros [|s ss] i; simpl;
    try contradiction.
  intros [<-|Hin]; simpl; [lia|].
  apply IH in Hin. lia.
Qed.

(** The six axis orders of a 224-band cube all end up with the spectral
    axis last and the two spatial axes in their original order. *)
Lemma six_orders_spectral_last :
  map transposed_axes six_orders
  = [ [rows_axis; cols_axis; bands_axis];
      [cols_axis; rows_axis; bands_axis];
      [rows_axis; cols_axis; bands_axis];
      [cols_axis; rows_axis; bands_axis];
      [rows_axis; cols_axis; bands_axis];
      [cols_axis; rows_axis; bands_axis] ].
Proof. vm_compute. reflexivity. Qed.

(** The transpose order derived for exactly one spectral axis [k]. *)
Lemma one_spectral_axis_order :
  forall (dimensions : list string) (shape : list Z) (k : Z),
    List.length dimensions = 3%nat ->
    List.length shape = 3%nat ->
    0 <= k < 3 ->
    one_spectral_axis k dimensions shape ->
    fst (_determine_emit_transpose dimensions shape)
    = (if k =? 0 then Some [1; 2; 0]
       else if k =? 2 then None
       else Some [0; 2; 1]).
Proof.
  intros dimensions shape k Hd Hs Hk Hone.
  destruct (three_elements _ Hd) as (n0 & n1 & n2 & ->).
  destruct (three_elements _ Hs) as (s0 & s1 & s2 & ->).
  unfold one_spectral_axis in Hone. rewrite classify_three in Hone.
  simpl in Hone.
  assert (Hcases : k = 0 \/ k = 1 \/ k = 2) by lia.
  unfold _determine_emit_transpose, choose_spectral_index, spectral_dims.
  rewrite classify_three.
  destruct Hcases as [-> | [-> | ->]]; simpl in Hone;
    injection Hone as H0 H1 H2;
    simpl; rewrite H0, H1, H2; reflexivity.
Qed.

(** C1.  For a 3-D variable with exactly one spectral axis [k] and two
    spatial axes, the derived transpose is [(1,2,0)] when the spectral axis
    is first, none when it is last and [(0,2,1)] when it is in the middle;
    applied to the axes (names and lengths) it puts the spectral axis last
    and keeps the two others in their order, and every element
    [(r, c, b)] of the transposed cube is the element of the source with
    spectral index [b] and spatial indices [r], [c]. *)
Theorem C1_transpose_puts_spectral_axis_last :
  forall (dimensions : list string) (shape : list Z) (k : Z),
    List.length dimensions = 3%nat ->
    List.length shape = 3%nat ->
    0 <= k < 3 ->
    one_spectral_axis k dimensions shape ->
    let order := fst (_determine_emit_transpose dimensions shape) in
    order = (if k =? 0 then Some [1; 2; 0]
             else if k =? 2 then None
             else Some [0; 2; 1])
    /\ apply_transpose EmptyString order dimensions = move_to_last k dimensions
    /\ apply_transpose 0 order shape = move_to_last k shape
    /\ (forall (V : Type) (a : cube V) (r c b : Z),
           transpose_cube order a r c b = at_split a k r c b).
Proof.
  intros dimensions shape k Hd Hs Hk Hone order.
  assert (Horder := one_spectral_axis_order dimensions shape k Hd Hs Hk Hone).
  fold order in Horder.
  split; [exact Horder|]. rewrite Horder. clear Horder order Hone.
  destruct (three_elements _ Hd) as (n0 & n1 & n2 & ->).
  destruct (three_elements _ Hs) as (s0 & s1 & s2 & ->).
  assert (Hcases : k = 0 \/ k = 1 \/ k = 2) by lia.
  destruct Hcases as [-> | [-> | ->]];
    (split; [reflexivity | split; [reflexivity |]]);
    intros V a r c b; reflexivity.
Qed.

Lemma C1_transpose_puts_spectral_axis_last_witness :
  let dimensions := ["downtrack"; "bands"; "crosstrack"] in
  let shape := [100; 224; 120] in
  fst (_determine_emit_transpose dimensions shape) = Some [0; 2; 1]
  /\ apply_transpose EmptyString
       (fst (_determine_emit_transpose dimensions shape)) dimensions
     = ["downtrack"; "crosstrack"; "bands"].
Proof.
  intros dimensions shape.
  destruct (C1_transpose_puts_spectral_axis_last dimensions shape 1)
    as (Ho & Hd & _); try reflexivity; [lia|].
  split; [exact Ho | exact Hd].
Defined.

Lemma choose_spectral_index_hd dts :
  fst (choose_spectral_index dts) = hd 0 (map dt_index (spectral_dims dts)).
Proof.
  unfold choose_spectral_index. now destruct (spectral_dims dts).
Qed.

Lemma transpose_log dimensions shape :
  let dts := classify dimensions shape in
  let idx := fst (choose_spectral_index dts) in
  snd (_determine_emit_transpose dimensions shape)
  = MsgClassification dts :: snd (choose_spectral_index dts)
    ++ (if (idx =? 0) || (idx =? 2) then []
        else [WarnUnusualPosition idx]).
Proof.
  unfold _determine_emit_transpose.
  destruct (choose_spectral_index (classify dimensions shape)) as [idx warn].
  simpl.
  destruct (idx =? 0); simpl; [now rewrite app_nil_r|].
  destruct (idx =? 2); simpl; [now rewrite app_nil_r|].
  now destruct (Nat.eqb (List.length shape) 3).
Qed.

(** C8, as stated, fails: with two spectral candidates the first one is
    taken silently.  Axes 0 and 1 both spectral: axis 0 is used and no
    warning at all is printed.  Axes 1 and 2 both spectral: axis 1, not
    axis 0, is used, and the no-spectral-axis warning is not printed. *)
Lemma C8_counterexample :
  (let dimensions := ["bands"; "wavelength"; "crosstrack"] in
   let shape := [224; 285; 1000] in
   spectral_axes dimensions shape = [0; 1]
   /\ warnings (snd (_determine_emit_transpose dimensions shape)) = [])
  /\
  (let dimensions := ["downtrack"; "bands"; "wavelength"] in
   let shape := [1000; 224; 285] in
   spectral_axes dimensions shape = [1; 2]
   /\ chosen_spectral_index dimensions shape = 1
   /\ fst (_determine_emit_transpose dimensions shape) = Some [0; 2; 1]
   /\ ~ In WarnNoSpectral (snd (_determine_emit_transpose dimensions shape))).
Proof.
  split; simpl.
  - split; reflexivity.
  - repeat split; try reflexivity.
    vm_compute. intros [H | [H | H]]; try discriminate H; exact H.
Qed.

(** C8, amended.  When the classification does not find exactly one
    spectral candidate, the spectral axis is the first candidate, and
    axis 0 when there is none.  Only the case of no candidate is announced:
    then the warning is printed and the transpose is [(1,2,0)]; with
    several candidates the no-spectral-axis warning is not printed, and the
    only warning there can be is the one about the position of the chosen
    axis. *)
Theorem C8_zero_or_many_spectral_candidates :
  forall (dimensions : list string) (shape : list Z),
    List.length (spectral_axes dimensions shape) <> 1%nat ->
    let log := snd (_determine_emit_transpose dimensions shape) in
    chosen_spectral_index dimensions shape
    = hd 0 (spectral_axes dimensions shape)
    /\ (spectral_axes dimensions shape = [] ->
        chosen_spectral_index dimensions shape = 0
        /\ fst (_determine_emit_transpose dimensions shape) = Some [1; 2; 0]
        /\ In WarnNoSpectral log)
    /\ (spectral_axes dimensions shape <> [] ->
        ~ In WarnNoSpectral log
        /\ forall m, In m (warnings log) ->
                     m = WarnUnusualPosition
                           (chosen_spectral_index dimensions shape)).
Proof.
  intros dimensions shape _ log.
  unfold chosen_spectral_index, spectral_axes.
  split; [apply choose_spectral_index_hd|].
  subst log. rewrite transpose_log.
  unfold _determine_emit_transpose, choose_spectral_index.
  destruct (spectral_dims (classify dimensions shape)) as [|dt rest] eqn:E;
    simpl.
  - split; [intros _ | intros H; now elim H].
    repeat split; auto.
  - split; [intros H; discriminate H|].
    intros _.
    destruct ((dt_index dt =? 0) || (dt_index dt =? 2)); simpl; split.
    + intros [H | H]; [discriminate H | exact H].
    + intros m H; now elim H.
    + intros [H | [H | H]]; [discriminate H | discriminate H | exact H].
    + intros m [H | H]; [now symmetry | now elim H].
Qed.

Lemma C8_zero_or_many_spectral_candidates_witness :
  let dimensions := ["a"; "b"; "c"] in
  let shape := [10; 20; 30] in
  chosen_spectral_index dimensions shape = 0
  /\ fst (_determine_emit_transpose dimensions shape) = Some [1; 2; 0]
  /\ In WarnNoSpectral (snd (_determine_emit_transpose dimensions shape)).
Proof.
  intros dimensions shape.
  destruct (C8_zero_or_many_spectral_candidates dimensions shape)
    as (_ & Hnone & _).
  - vm_compute. discriminate.
  - apply Hnone. reflexivity.
Defined.

End IntrospectorFacts.

Section LoadFacts.
Import Num NdArray Env PyStr Envi Handler Introspector Props.

(** The cube an EMIT load stores in the default, memory-mapped mode: when
    the product's only 3-D variable has exactly one spectral axis, the
    stored shape has that axis last and the two others in their order, and
    the element [(r, c, b)] is the source element of spectral index [b]
    and spatial indices [r], [c]. *)
Lemma emit_load_is_rows_cols_bands :
  forall (fs : filesystem) (h : DataHandler) (fname : string)
         (ncf : nc_file) (v : nc_variable) (k : Z),
    fs fname = Some (ENetCDF ncf) ->
    nc_variables ncf = [v] ->
    List.length (nv_dimensions v) = 3%nat ->
    List.length (nv_shape v) = 3%nat ->
    0 <= k < 3 ->
    one_spectral_axis k (nv_dimensions v) (nv_shape v) ->
    exists h' a,
      _load_emit_data fs h fname false = (h', true)
      /\ shape h' = move_to_last k (nv_shape v)
      /\ data h' = Some a
      /\ nd_shape a = move_to_last k (nv_shape v)
      /\ forall r c b,
           cv (nd_at a r c b) = at_split (nv_values v) k r c b.
Proof.
  intros fs h fname ncf v k Hfs Hvars Hd Hs Hk Hone.
  assert (Horder := one_spectral_axis_order _ _ k Hd Hs Hk Hone).
  unfold _load_emit_data. rewrite Hfs, Hvars.
  cbn [filter]. rewrite Hd. cbn [Nat.eqb find hd_error].
  assert (Hmain :
    match (if str_in (nv_name v) ["reflectance"; "radiance"; "mask"]
           then Some v else None) with
    | Some c => Some c
    | None => Some v
    end = Some v)
    by (destruct (str_in _ _); reflexivity).
  rewrite Hmain, Horder.
  destruct (three_elements _ Hs) as (s0 & s1 & s2 & Es).
  assert (Hcases : k = 0 \/ k = 1 \/ k = 2) by lia.
  unfold _handle_emit_fill_values, raw_array. rewrite Es.
  destruct Hcases as [-> | [-> | ->]]; destruct (file_type_is h FEmit);
    do 2 eexists; (split; [reflexivity|]); repeat split; reflexivity.
Qed.

End LoadFacts.

(* ================================================================== *)
(** * Properties of the setters *)
(* ================================================================== *)

Section SetterFacts.
Import Num NdArray Env PyStr Envi Handler Props.

Variable float_repr : f64 -> string.





End SetterFacts.



(* ================================================================== *)
(** * Properties of the fill-value masking *)
(* ================================================================== *)

Section FillFacts.
Import Num NdArray Env PyStr Envi Handler Props.

(** AVIRIS-3 reflectance: an element is masked exactly when it is NaN,
    the fill sentinel, negative or above 1. *)
Lemma aviris3_reflectance_mask (a : ndarray) (i j k : Z) :
  cmask (nd_at a i j k) = false ->
  let x := cv (nd_at a i j k) in
  cmask (nd_at (_handle_aviris3_fill_values a "reflectance") i j k)
  = (isnan x || feq x (Fin (-9999)) || (flt x (Fin 0) || fgt x (Fin 1)))%bool.
Proof. intros Hm x. simpl. rewrite Hm. subst x. now rewrite orb_false_r. Qed.

(** AVIRIS-3 radiance: an element is masked exactly when it is NaN, the
    fill sentinel or negative. *)
Lemma aviris3_radiance_mask (a : ndarray) (i j k : Z) :
  cmask (nd_at a i j k) = false ->
  let x := cv (nd_at a i j k) in
  cmask (nd_at (_handle_aviris3_fill_values a "radiance") i j k)
  = (isnan x || feq x (Fin (-9999)) || flt x (Fin 0))%bool.
Proof. intros Hm x. simpl. rewrite Hm. subst x. now rewrite orb_false_r. Qed.

(** EMIT: unless the object already holds an EMIT product, only the fill
    sentinel is masked. *)
Lemma emit_mask_before_file_type (h : DataHandler) (a : ndarray) (i j k : Z) :
  file_type h <> Some FEmit ->
  cmask (nd_at a i j k) = false ->
  cmask (nd_at (_handle_emit_fill_values h a) i j k)
  = feq (cv (nd_at a i j k)) (fill_value h).
Proof.
  intros Ht Hm. unfold _handle_emit_fill_values, file_type_is.
  destruct (file_type h) as [[| |]|]; try (now elim Ht);
    simpl; rewrite Hm; now rewrite orb_false_r.
Qed.

Lemma raw_array_unmasked (v : nc_variable) (order : option (list Z)) (i j k : Z) :
  cmask (nd_at (transpose_opt order (raw_array v)) i j k) = false.
Proof. destruct order; reflexivity. Qed.

(** A first EMIT load (the object does not yet hold an EMIT product) masks
    the fill sentinel and nothing else, whatever the product. *)
Lemma emit_first_load_masks_only_fill fs h fname load_to_ram h' :
  file_type h <> Some FEmit ->
  _load_emit_data fs h fname load_to_ram = (h', true) ->
  file_type h' = Some FEmit
  /\ exists a, data h' = Some a
     /\ forall i j k,
          cmask (nd_at a i j k) = feq (cv (nd_at a i j k)) (fill_value h).
Proof.
  intros Ht. unfold _load_emit_data.
  destruct (fs fname) as [[t|d|ncf]|]; try (intros H; discriminate H).
  match goal with
  | |- context [match ?m with Some _ => _ | None => (h, false) end] =>
      destruct m as [v|]; [|intros H; discriminate H]
  end.
  intros [= <-]. simpl. split; [reflexivity|].
  eexists. split; [reflexivity|]. intros i j k.
  rewrite emit_mask_before_file_type by (auto using raw_array_unmasked).
  unfold _handle_emit_fill_values, file_type_is.
  destruct (file_type h) as [[| |]|]; try (now elim Ht); reflexivity.
Qed.

(** An AVIRIS-3 load masks by product type: NaN, the sentinel and negative
    values always, values above 1 for reflectance only. *)
Lemma aviris3_load_masks_by_product fs h fname load_to_ram h' :
  _load_aviris3_data fs h fname load_to_ram = (h', true) ->
  exists (product : string) (a : ndarray),
    (product = "reflectance" \/ product = "radiance")
    /\ data h' = Some a
    /\ forall i j k,
         let x := cv (nd_at a i j k) in
         cmask (nd_at a i j k)
         = (isnan x || feq x (Fin (-9999))
            || (if String.eqb product "reflectance"
                then flt x (Fin 0) || fgt x (Fin 1)
                else flt x (Fin 0)))%bool.
Proof.
  unfold _load_aviris3_data.
  destruct (fs fname) as [[t|d|ncf]|]; try (intros H; discriminate H).
  destruct (has_group "reflectance" ncf).
  - destruct (lookup "reflectance" (nc_groups ncf)) as [grp|];
      [|intros H; discriminate H].
    destruct (find _ (grp_variables grp)) as [v|]; [|intros H; discriminate H].
    intros [= <-]. exists "reflectance". eexists.
    split; [now left|]. split; [reflexivity|].
    intros i j k. simpl. now rewrite orb_false_r.
  - destruct (has_group "radiance" ncf); [|intros H; discriminate H].
    destruct (lookup "radiance" (nc_groups ncf)) as [grp|];
      [|intros H; discriminate H].
    destruct (find _ (grp_variables grp)) as [v|]; [|intros H; discriminate H].
    intros [= <-]. exists "radiance". eexists.
    split; [now right|]. split; [reflexivity|].
    intros i j k. simpl. now rewrite orb_false_r.
Qed.

End FillFacts.

(** C4 at the failing input.  A fresh object opens an EMIT reflectance
    product whose pixel holds 1.5, 0.5, the fill sentinel and -0.25: the load
    succeeds, and only the sentinel is masked; 1.5 and -0.25, outside
    [[0, 1]], are not.  The same object opening the same file again masks
    them, because by then [file_type] is ['emit']. *)
Theorem C4_emit_first_load_skips_range_mask :
  Handler.is_loaded Examples.emit_first = true
  /\ Handler.file_type Examples.emit_first = Some Handler.FEmit
  /\ Handler.shape Examples.emit_first = [1; 1; 4]
  /\ Num.fgt (Examples.emit_values 0) (Num.Fin 1) = true
  /\ Num.flt (Examples.emit_values 3) (Num.Fin 0) = true
  /\ Examples.pixel_masks Examples.emit_first = [false; false; true; false]
  /\ Examples.pixel_masks Examples.emit_second = [true; false; true; true].
Proof. vm_compute. repeat split; reflexivity. Qed.

(* ================================================================== *)
(** * Properties of the readers *)
(* ================================================================== *)

Section ReaderFacts.
Import Num NdArray Env PyStr Envi Handler Props.

Lemma range_length (n : Z) : List.length (range n) = Z.to_nat n.
Proof. unfold range. now rewrite length_map, length_seq. Qed.

Lemma range_nth (n i : Z) (d : Z) :
  0 <= i < n -> nth (Z.to_nat i) (range n) d = i.
Proof.
  intros Hi. unfold range.
  rewrite nth_indep with (d' := Z.of_nat 0)
    by (rewrite length_map, length_seq; lia).
  rewrite map_nth, seq_nth by lia. simpl. lia.
Qed.

Lemma map_range_nth {A} (f : Z -> A) (n i : Z) (d : A) :
  0 <= i < n -> nth (Z.to_nat i) (map f (range n)) d = f i.
Proof.
  intros Hi.
  rewrite nth_indep with (d' := f 0)
    by (rewrite length_map, range_length; lia).
  now rewrite map_nth, range_nth.
Qed.






(** The line of the example cube: the unreadable middle pixel is NaN, the
    two others are read. *)
Lemma resident_line_example :
  extract_line_spectra Examples.resident 0
  = Some [ [Fin (inject_Z 0); Fin (inject_Z 10)];
           [NaN; NaN];
           [Fin (inject_Z 2); Fin (inject_Z 12)] ].
Proof. vm_compute. reflexivity. Qed.



Lemma resolve_index_in_range (n i : Z) :
  0 <= i < n -> resolve_index n i = Some i.
Proof.
  intros Hi. unfold resolve_index.
  replace (0 <=? i) with true by (symmetry; apply Z.leb_le; lia).
  replace (i <? n) with true by (symmetry; apply Z.ltb_lt; lia).
  reflexivity.
Qed.


Variable cast_undef : Z.


End ReaderFacts.


(* ================================================================== *)
(** * Properties of the compositor *)
(* ================================================================== *)

Section CompositorFacts.
Import Num NdArray Env PyStr Envi Handler Props.

Variable cast_undef : Z.

Lemma Qtrunc_nonneg (a : Q) : Qle_bool 0 a = true -> Qtrunc a = Qfloor a.
Proof. unfold Qtrunc. now intros ->. Qed.

Lemma astype_uint8_range (x : f64) : 0 <= astype_uint8 cast_undef x <= 255.
Proof.
  assert (Hmod : 0 <= cast_undef mod 256 <= 255)
    by (pose proof (Z.mod_pos_bound cast_undef 256); lia).
  destruct x as [a| | |]; simpl; try exact Hmod.
  destruct (Qle_bool 0 a) eqn:H0; simpl; [|exact Hmod].
  destruct (Qlt_bool a 256) eqn:H1; [|exact Hmod].
  rewrite Qtrunc_nonneg by exact H0.
  apply Qle_bool_iff in H0.
  unfold Qlt_bool in H1. apply negb_true_iff in H1.
  assert (Hlt : (a < 256)%Q).
  { apply Qnot_le_lt. intros Hle. apply Qle_bool_iff in Hle. congruence. }
  split.
  - replace 0 with (Qfloor 0) by reflexivity. now apply Qfloor_resp_le.
  - assert (Hf := Qfloor_le a).
    assert (Hz : (inject_Z (Qfloor a) < inject_Z 256)%Q)
      by (eapply Qle_lt_trans; [exact Hf | exact Hlt]).
    rewrite <- Zlt_Qlt in Hz. lia.
Qed.

Lemma stretch_pixel_range p2 p98 x : 0 <= stretch_pixel cast_undef p2 p98 x <= 255.
Proof. apply astype_uint8_range. Qed.

(** Every element of a normalised channel is a byte. *)
Lemma normalize_band_range band sp nd row x :
  In row (normalize_band cast_undef band sp nd) -> In x row -> 0 <= x <= 255.
Proof.
  unfold normalize_band.
  destruct (valid_data nd band) as [|q valid] eqn:Ev.
  - intros Hr Hx. apply in_map_iff in Hr as (r0 & <- & _).
    apply in_map_iff in Hx as (x0 & <- & _). lia.
  - destruct (stretch_range (q :: valid) sp) as [p2 p98].
    intros Hr Hx. apply in_map_iff in Hr as (r0 & <- & _).
    apply in_map_iff in Hx as (x0 & <- & _).
    destruct (is_no_data nd x0); [lia|].
    destruct (Qlt_bool p2 p98); [apply stretch_pixel_range|].
    destruct (negb (Qeq_bool p2 0)); lia.
Qed.

(** With coinciding percentiles the channel is a constant fill. *)
Lemma normalize_band_degenerate band sp nd p2 p98 :
  valid_data nd band <> [] ->
  stretch_range (valid_data nd band) sp = (p2, p98) ->
  (p98 <= p2)%Q ->
  normalize_band cast_undef band sp nd
  = map (map (fun x => if is_no_data nd x then 0
                       else if Qeq_bool p2 0 then 0 else 128)) band.
Proof.
  intros Hne Hr Hle. unfold normalize_band.
  destruct (valid_data nd band) as [|q valid] eqn:Ev; [now elim Hne|].
  rewrite Hr.
  assert (Hlt : Qlt_bool p2 p98 = false).
  { unfold Qlt_bool. apply negb_false_iff. now apply Qle_bool_iff. }
  rewrite Hlt.
  apply map_ext. intros row. apply map_ext. intros x.
  destruct (is_no_data nd x); [reflexivity|].
  now destruct (Qeq_bool p2 0).
Qed.


Lemma insert_sorted_Forall (P : Q -> Prop) x l :
  P x -> Forall P l -> Forall P (insert_sorted x l).
Proof.
  intros Hx Hl. induction Hl as [|y r Hy Hr IH]; simpl.
  - now constructor.
  - destruct (Qle_bool x y); repeat constructor; auto.
Qed.

Lemma sort_Q_Forall (P : Q -> Prop) l : Forall P l -> Forall P (sort_Q l).
Proof.
  induction 1 as [|x r Hx Hr IH]; simpl; [constructor|].
  now apply insert_sorted_Forall.
Qed.

Lemma insert_sorted_length x l :
  List.length (insert_sorted x l) = S (List.length l).
Proof.
  induction l as [|y r IH]; simpl; [reflexivity|].
  destruct (Qle_bool x y); simpl; now rewrite ?IH.
Qed.

Lemma sort_Q_length l : List.length (sort_Q l) = List.length l.
Proof.
  induction l as [|x r IH]; simpl; [reflexivity|].
  now rewrite insert_sorted_length, IH.
Qed.

Lemma fold_Qmin_const c r x :
  (x == c)%Q -> Forall (fun q => (q == c)%Q) r -> (fold_left Qmin r x == c)%Q.
Proof.
  intros Hx Hr. revert x Hx. induction Hr as [|y r Hy Hr IH]; intros x Hx;
    simpl; [exact Hx|].
  apply IH. unfold Qmin. now destruct (Qle_bool x y).
Qed.

Lemma fold_Qmax_const c r x :
  (x == c)%Q -> Forall (fun q => (q == c)%Q) r -> (fold_left Qmax r x == c)%Q.
Proof.
  intros Hx Hr. revert x Hx. induction Hr as [|y r Hy Hr IH]; intros x Hx;
    simpl; [exact Hx|].
  apply IH. unfold Qmax. now destruct (Qle_bool x y).
Qed.

Lemma nth_const c (l : list Q) (i : Z) :
  Forall (fun q => (q == c)%Q) l -> 0 <= i < len l ->
  (nth (Z.to_nat i) l 0%Q == c)%Q.
Proof.
  intros Hl Hi. rewrite Forall_forall in Hl. apply Hl, nth_In.
  unfold len in Hi. lia.
Qed.

Lemma percentile_const c (sorted : list Q) (q : Q) :
  sorted <> [] -> Forall (fun x => (x == c)%Q) sorted ->
  percent_ok q = true ->
  (percentile sorted q == c)%Q.
Proof.
  intros Hne Hall Hq. unfold percentile.
  set (n := len sorted).
  assert (Hn : 1 <= n).
  { subst n. unfold len. destruct sorted; [now elim Hne | simpl; lia]. }
  unfold percent_ok in Hq. apply andb_true_iff in Hq as [Hq0 Hq1].
  apply Qle_bool_iff in Hq0, Hq1.
  set (v := (inject_Z (n - 1) * (q / 100))%Q).
  assert (Hn1 : (0 <= inject_Z (n - 1))%Q)
    by (rewrite <- (Zle_Qle 0); lia).
  assert (Hfrac0 : (0 <= q / 100)%Q)
    by (apply Qle_shift_div_l; [reflexivity | now rewrite Qmult_0_l]).
  assert (Hfrac1 : (q / 100 <= 1)%Q)
    by (apply Qle_shift_div_r; [reflexivity | now rewrite Qmult_1_l]).
  assert (Hv0 : (0 <= v)%Q) by (subst v; now apply Qmult_le_0_compat).
  assert (Hv1 : (v <= inject_Z (n - 1))%Q).
  { subst v. rewrite <- (Qmult_1_r (inject_Z (n - 1))) at 2.
    rewrite (Qmult_comm (inject_Z (n - 1)) (q / 100)),
            (Qmult_comm (inject_Z (n - 1)) 1).
    now apply Qmult_le_compat_r. }
  assert (Hlo : 0 <= Qfloor v <= n - 1).
  { split.
    - replace 0 with (Qfloor 0) by reflexivity. now apply Qfloor_resp_le.
    - rewrite <- (Qfloor_Z (n - 1)). now apply Qfloor_resp_le. }
  rewrite (nth_const c sorted (Qfloor v)) by (auto; fold n; lia).
  rewrite (nth_const c sorted (Z.min (Qfloor v + 1) (n - 1)))
    by (auto; fold n; lia).
  ring.
Qed.

(** The stretch range of constant valid data is the constant, twice. *)
Lemma stretch_range_const c valid sp :
  valid <> [] -> Forall (fun q => (q == c)%Q) valid ->
  (fst (stretch_range valid sp) == c)%Q /\ (snd (stretch_range valid sp) == c)%Q.
Proof.
  intros Hne Hall.
  assert (Hfallback : (Qminimum valid == c)%Q /\ (Qmaximum valid == c)%Q).
  { destruct valid as [|x r]; [now elim Hne|]. inversion Hall; subst. simpl.
    split; [now apply fold_Qmin_const | now apply fold_Qmax_const]. }
  assert (Hs : sort_Q valid <> []).
  { intros E. apply (f_equal (@List.length Q)) in E.
    rewrite sort_Q_length in E. destruct valid; [now elim Hne | discriminate]. }
  unfold stretch_range. destruct sp as [s| | |]; try exact Hfallback.
  destruct (percent_ok s) eqn:E1; simpl; [|exact Hfallback].
  destruct (percent_ok (100 - s)) eqn:E2; simpl; [|exact Hfallback].
  split; apply percentile_const; auto using sort_Q_Forall.
Qed.

(** A channel whose valid data are constant is filled with 128, or with 0
    when the constant is 0; its no-data pixels are 0. *)
Lemma normalize_band_constant band sp nd c :
  valid_data nd band <> [] ->
  Forall (fun q => (q == c)%Q) (valid_data nd band) ->
  normalize_band cast_undef band sp nd
  = map (map (fun x => if is_no_data nd x then 0
                       else if Qeq_bool c 0 then 0 else 128)) band.
Proof.
  intros Hne Hall.
  destruct (stretch_range_const c _ sp Hne Hall) as [H2 H98].
  destruct (stretch_range (valid_data nd band) sp) as [p2 p98] eqn:Er.
  simpl in H2, H98.
  rewrite (normalize_band_degenerate band sp nd p2 p98 Hne Er)
    by (rewrite H2, H98; apply Qle_refl).
  apply map_ext. intros row. apply map_ext. intros x.
  now rewrite H2.
Qed.


Lemma concat_range (p : plane Z) (x : Z) :
  In x (List.concat p) ->
  (forall row y, In row p -> In y row -> 0 <= y <= 255) ->
  0 <= x <= 255.
Proof.
  intros Hin Hall. apply in_concat in Hin as (row & Hrow & Hx). eauto.
Qed.

(** What [get_rgb_composite] returns is built from normalised channels of
    the planes it read, with the no-data value it settled on. *)
Lemma composite_channels h r g b sp nd img :
  get_rgb_composite cast_undef h r g b sp nd = Some img ->
  let nd' := match nd, data_ignore_value h with
             | None, Some v => Some v
             | _, _ => nd
             end in
  exists red green blue,
    img = Gray (normalize_band cast_undef red sp nd')
    \/ img = Color (normalize_band cast_undef red sp nd')
                   (normalize_band cast_undef green sp nd')
                   (normalize_band cast_undef blue sp nd').
Proof.
  cbv zeta. unfold get_rgb_composite.
  destruct (is_loaded h); simpl; [|discriminate].
  destruct (select_bands h r g b) as [[[r0 g0] b0]|]; [|discriminate].
  destruct (read_composite_band h (clamp_band (bands h) r0)) as [red|];
    [|discriminate].
  destruct (read_composite_band h (clamp_band (bands h) g0)) as [green|];
    [|discriminate].
  destruct (read_composite_band h (clamp_band (bands h) b0)) as [blue|];
    [|discriminate].
  intros H. exists red, green, blue.
  destruct ((_ =? _) && (_ =? _)); injection H as <-; [left | right];
    reflexivity.
Qed.

Lemma composite_range h r g b sp nd img x :
  get_rgb_composite cast_undef h r g b sp nd = Some img ->
  In x (image_pixels img) -> 0 <= x <= 255.
Proof.
  intros H Hx. apply composite_channels in H as (red & green & blue & [-> | ->]);
    simpl in Hx.
  - eapply concat_range; [exact Hx|]. intros row y. apply normalize_band_range.
  - apply in_app_or in Hx as [Hx | Hx];
      [|apply in_app_or in Hx as [Hx | Hx]];
      (eapply concat_range; [exact Hx|]; intros row y;
       apply normalize_band_range).
Qed.

(** The behaviour behind C5, for every channel.  Every element of a
    normalised channel, and so of a composite, lies in [[0, 255]].  When the
    two percentiles of the valid data coincide the code does not fall back
    to the minimum and maximum: the channel is filled with 128 when the low
    percentile is not zero and with 0 when it is, no-data pixels being 0.
    For a channel whose valid data are one constant this is the documented
    result, uniformly 128 (constant not zero) or 0. *)
Theorem C5_coinciding_percentiles_fill_constant :
  forall (band : plane f64) (stretch_percent : f64)
         (no_data_value : option f64),
    (forall row x,
        In row (normalize_band cast_undef band stretch_percent no_data_value) ->
        In x row -> 0 <= x <= 255)
    /\ (forall p_low p_high,
           valid_data no_data_value band <> [] ->
           stretch_range (valid_data no_data_value band) stretch_percent
           = (p_low, p_high) ->
           (p_high <= p_low)%Q ->
           normalize_band cast_undef band stretch_percent no_data_value
           = map (map (fun x => if is_no_data no_data_value x then 0
                                else if Qeq_bool p_low 0 then 0 else 128))
                 band)
    /\ (forall c,
           valid_data no_data_value band <> [] ->
           Forall (fun q => (q == c)%Q) (valid_data no_data_value band) ->
           normalize_band cast_undef band stretch_percent no_data_value
           = map (map (fun x => if is_no_data no_data_value x then 0
                                else if Qeq_bool c 0 then 0 else 128))
                 band)
    /\ (forall h r g b img x,
           get_rgb_composite cast_undef h r g b stretch_percent no_data_value
           = Some img ->
           In x (image_pixels img) -> 0 <= x <= 255).
Proof.
  intros band sp nd. split; [|split; [|split]].
  - intros row x. apply normalize_band_range.
  - intros p2 p98. apply normalize_band_degenerate.
  - intros c. apply normalize_band_constant.
  - intros h r g b img x. apply composite_range.
Qed.

End CompositorFacts.

(** C5 at the failing inputs.  For the channel [0, 0, 0, 0, 10] stretched
    at 25 percent the two percentiles are both 0 while the minimum 0 and
    the maximum 10 differ: the branch written for a constant channel fills
    it with 0, where the stretch over [[min, max]] that the specification
    describes maps the last pixel to 255.  For the channel [0, 5, 10]
    stretched at 50 percent both percentiles are 5: the code fills the
    channel with 128, where the specified stretch gives 0, 127 and 255. *)
Theorem C5_coinciding_percentiles_flatten_varying_band :
  let band := [[Num.Fin 0; Num.Fin 0; Num.Fin 0; Num.Fin 0; Num.Fin 10]] in
  let valid := Handler.valid_data None band in
  let range := Handler.stretch_range valid (Num.Fin 25) in
  let band' := [[Num.Fin 0; Num.Fin 5; Num.Fin 10]] in
  let valid' := Handler.valid_data None band' in
  let range' := Handler.stretch_range valid' (Num.Fin 50) in
  Qeq_bool (snd range) (fst range) = true
  /\ Num.Qlt_bool (Handler.Qminimum valid) (Handler.Qmaximum valid) = true
  /\ Handler.normalize_band 0 band (Num.Fin 25) None = [[0; 0; 0; 0; 0]]
  /\ Props.normalize_band_spec 0 band (Num.Fin 25) None = [[0; 0; 0; 0; 255]]
  /\ Handler.normalize_band 0 band (Num.Fin 25) None
     <> Props.normalize_band_spec 0 band (Num.Fin 25) None
  /\ Qeq_bool (snd range') (fst range') = true
  /\ Num.Qlt_bool (Handler.Qminimum valid') (Handler.Qmaximum valid') = true
  /\ Handler.normalize_band 0 band' (Num.Fin 50) None = [[128; 128; 128]]
  /\ Props.normalize_band_spec 0 band' (Num.Fin 50) None = [[0; 127; 255]].
Proof.
  vm_compute. repeat split; try reflexivity. discriminate.
Qed.

Lemma C5_coinciding_percentiles_fill_constant_witness :
  let band := [[Num.Fin 5; Num.Fin 5]; [Num.Fin 5; Num.NaN]] in
  Handler.normalize_band 0 band (Num.Fin 2) None = [[128; 128]; [128; 128]].
Proof.
  intros band.
  destruct (C5_coinciding_percentiles_fill_constant 0 band (Num.Fin 2) None)
    as (_ & _ & Hconst & _).
  rewrite (Hconst 5%Q).
  - reflexivity.
  - vm_compute. discriminate.
  - vm_compute. repeat constructor.
Defined.

Section NoDataFacts.
Import Num NdArray Env PyStr Envi Handler Props.

Variable cast_undef : Z.







End NoDataFacts.


(* ================================================================== *)
(** * Properties of the band auto-selection *)
(* ================================================================== *)

Section SelectionFacts.
Import Num NdArray Env PyStr Envi Handler Props.

Lemma Qlt_bool_false_le (a b : Q) : Qlt_bool a b = false -> Qle_bool b a = true.
Proof. unfold Qlt_bool. now intros H%negb_false_iff. Qed.

Lemma fle_refl (x : f64) : isnan x = false -> fle x x = true.
Proof.
  destruct x as [a| | |]; intros H; try discriminate H; unfold fle; simpl;
    try reflexivity.
  rewrite (proj2 (Qeq_bool_iff a a) (Qeq_refl a)). apply orb_true_r.
Qed.

Lemma fle_Fin (a b : Q) : fle (Fin a) (Fin b) = Qle_bool a b.
Proof.
  unfold fle, flt, feq, Qlt_bool.
  destruct (Qle_bool a b) eqn:Hab.
  - apply Qle_bool_iff in Hab. destruct (Qle_bool b a) eqn:Hba; simpl;
      [|reflexivity].
    apply Qle_bool_iff in Hba. apply Qeq_bool_iff. now apply Qle_antisym.
  - assert (Hba : Qle_bool b a = true).
    { destruct (Qle_bool b a) eqn:E; [reflexivity|].
      exfalso. destruct (Qlt_le_dec a b) as [H | H].
      - apply Qlt_le_weak, Qle_bool_iff in H. congruence.
      - apply Qle_bool_iff in H. congruence. }
    rewrite Hba. simpl. destruct (Qeq_bool a b) eqn:E; [|reflexivity].
    apply Qeq_bool_iff in E. rewrite E in Hab.
    assert (Qle_bool b b = true) by (apply Qle_bool_iff, Qle_refl). congruence.
Qed.

Lemma flt_false_fle (x y : f64) :
  isnan x = false -> isnan y = false -> flt x y = false -> fle y x = true.
Proof.
  destruct x as [a| | |], y as [b| | |]; intros Hx Hy H;
    try discriminate; try reflexivity.
  rewrite fle_Fin. now apply Qlt_bool_false_le.
Qed.

Lemma flt_fle (x y : f64) : flt x y = true -> fle x y = true.
Proof. unfold fle. now intros ->. Qed.

Lemma fle_trans (x y z : f64) :
  fle x y = true -> fle y z = true -> fle x z = true.
Proof.
  destruct x as [a| | |], y as [b| | |], z as [c| | |];
    try discriminate; try reflexivity.
  rewrite !fle_Fin, !Qle_bool_iff. apply Qle_trans.
Qed.

Lemma fle_not_nan_l (x y : f64) : fle x y = true -> isnan x = false.
Proof. now destruct x, y. Qed.

(** [argmin_from] finds a position that holds a least element. *)
Lemma argmin_from_least (l : list f64) :
  forall (i best_i : Z) (best : f64),
    isnan best = false ->
    Forall (fun x => isnan x = false) l ->
    let k := argmin_from l i best_i best in
    exists v,
      (k = best_i /\ v = best
       \/ i <= k < i + len l /\ nth (Z.to_nat (k - i)) l NaN = v)
      /\ fle v best = true
      /\ Forall (fun x => fle v x = true) l.
Proof.
  induction l as [|x r IH]; intros i best_i best Hb Hl k.
  - exists best. subst k. simpl. repeat split; auto using fle_refl.
  - inversion Hl as [|? ? Hx Hr]; subst. subst k. simpl. rewrite Hb, Hx. simpl.
    destruct (flt x best) eqn:E.
    + destruct (IH (i + 1) i x Hx Hr) as (v & Hpos & Hvx & Hall).
      exists v. split; [|split].
      * right. destruct Hpos as [[-> ->] | [Hk Hn]].
        -- split; [unfold len; simpl; lia|].
           now replace (i - i) with 0 by lia.
        -- split; [unfold len in *; simpl; lia|].
           replace (Z.to_nat (argmin_from r (i + 1) i x - i))
             with (S (Z.to_nat (argmin_from r (i + 1) i x - (i + 1)))) by lia.
           exact Hn.
      * apply (fle_trans _ x); [exact Hvx | now apply flt_fle].
      * constructor; assumption.
    + destruct (IH (i + 1) best_i best Hb Hr) as (v & Hpos & Hvb & Hall).
      exists v. split; [|split].
      * destruct Hpos as [[-> ->] | [Hk Hn]]; [left; auto | right].
        split; [unfold len in *; simpl; lia|].
        replace (Z.to_nat (argmin_from r (i + 1) best_i best - i))
          with (S (Z.to_nat (argmin_from r (i + 1) best_i best - (i + 1))))
          by lia.
        exact Hn.
      * exact Hvb.
      * constructor; [|exact Hall].
        apply (fle_trans _ best); [exact Hvb | now apply flt_false_fle].
Qed.

Lemma argmin_least (l : list f64) :
  l <> [] -> Forall (fun x => isnan x = false) l ->
  0 <= argmin l < len l
  /\ Forall (fun x => fle (nth (Z.to_nat (argmin l)) l NaN) x = true) l.
Proof.
  destruct l as [|x r]; [intros H; now elim H|]. intros _ Hl.
  inversion Hl as [|? ? Hx Hr]; subst. unfold argmin.
  destruct (argmin_from_least r 1 0 x Hx Hr) as (v & Hpos & Hvx & Hall).
  destruct Hpos as [[-> ->] | [Hk Hn]].
  - split; [unfold len; simpl; lia|]. simpl. constructor; auto.
  - split; [unfold len in *; simpl; lia|].
    replace (Z.to_nat (argmin_from r 1 0 x))
      with (S (Z.to_nat (argmin_from r 1 0 x - 1))) by lia.
    simpl. rewrite Hn. constructor; auto.
Qed.

Lemma abs_diff_not_nan (w : list f64) (t : Q) :
  Forall (fun x => isnan x = false) w ->
  Forall (fun x => isnan x = false) (abs_diff w t).
Proof.
  intros H. unfold abs_diff. apply Forall_map.
  eapply Forall_impl; [|exact H]. intros [a| | |]; simpl; congruence.
Qed.

(** With wavelengths present, the auto-selected band for a target is a
    nearest one: no band is closer to the target. *)
Lemma estimate_rgb_bands_nearest (h : DataHandler) (w : list f64) :
  wavelengths h = Some (WArr w) -> w <> [] ->
  Forall (fun x => isnan x = false) w ->
  exists r g b,
    _estimate_rgb_bands h = Some (r, g, b)
    /\ (0 <= r < len w /\ 0 <= g < len w /\ 0 <= b < len w)
    /\ Forall (fun d => fle (nth (Z.to_nat r) (abs_diff w 650) NaN) d = true)
              (abs_diff w 650)
    /\ Forall (fun d => fle (nth (Z.to_nat g) (abs_diff w 550) NaN) d = true)
              (abs_diff w 550)
    /\ Forall (fun d => fle (nth (Z.to_nat b) (abs_diff w 450) NaN) d = true)
              (abs_diff w 450).
Proof.
  intros Hw Hne Hnan. unfold _estimate_rgb_bands. rewrite Hw.
  destruct w as [|x r]; [now elim Hne|].
  assert (Hlen : forall t, len (abs_diff (x :: r) t) = len (x :: r))
    by (intros t; unfold abs_diff, len; now rewrite length_map).
  assert (Hd : forall t, abs_diff (x :: r) t <> [])
    by (intros t; discriminate).
  pose proof (fun t => argmin_least _ (Hd t) (abs_diff_not_nan _ t Hnan)) as H.
  do 3 eexists. split; [reflexivity|].
  destruct (H 650%Q) as [H1 H1'], (H 550%Q) as [H2 H2'], (H 450%Q) as [H3 H3'].
  rewrite Hlen in H1, H2, H3. repeat split; try tauto; assumption.
Qed.

End SelectionFacts.

(* ================================================================== *)
(** * Properties of the header rewrite *)
(* ================================================================== *)

Section HeaderFacts.
Import Num NdArray Env PyStr Envi Handler Props.

(* ---- strings ---- *)

Lemma append_assoc (a b c : string) : ((a ++ b) ++ c = a ++ (b ++ c))%string.
Proof. induction a as [|x a IH]; simpl; [reflexivity | now rewrite IH]. Qed.

Lemma append_nil_r (a : string) : (a ++ "")%string = a.
Proof. induction a as [|x a IH]; simpl; [reflexivity | now rewrite IH]. Qed.

Lemma readlines_terminated (s rest : string) :
  terminated_line s = true ->
  readlines (s ++ rest) = s :: readlines rest.
Proof.
  induction s as [|c s IH]; [discriminate|].
  destruct s as [|d s'].
  - simpl. intros ->. reflexivity.
  - intros H. change (terminated_line (String c (String d s')))
      with (negb (Ascii.eqb c newline) && terminated_line (String d s'))%bool in H.
    apply andb_true_iff in H as [Hc Hs]. apply negb_true_iff in Hc.
    change ((String c (String d s') ++ rest)%string)
      with (String c (String d s' ++ rest)%string).
    change (readlines (String c (String d s' ++ rest)))
      with (if Ascii.eqb c newline
            then String c EmptyString :: readlines (String d s' ++ rest)
            else match readlines (String d s' ++ rest) with
                 | [] => [String c EmptyString]
                 | h :: t => String c h :: t
                 end).
    rewrite Hc, (IH Hs). reflexivity.
Qed.

Lemma readlines_no_newline (s : string) :
  no_newline s = true -> s <> EmptyString -> readlines s = [s].
Proof.
  induction s as [|c s IH]; [intros _ H; now elim H|].
  intros H _. simpl in H. apply andb_true_iff in H as [Hc Hs].
  apply negb_true_iff in Hc. simpl. rewrite Hc.
  destruct s as [|d s']; [reflexivity|].
  rewrite IH by (auto; discriminate). reflexivity.
Qed.

(** Writing lines that came from [readlines] and reading them again gives
    the same lines. *)
Lemma readlines_writelines (lines : list string) :
  split_lines_ok lines = true -> readlines (writelines lines) = lines.
Proof.
  induction lines as [|s r IH]; [reflexivity|].
  destruct r as [|s' r'].
  - intros H. simpl in H. unfold writelines. simpl. rewrite append_nil_r.
    apply orb_true_iff in H as [H | H].
    + rewrite <- (append_nil_r s) at 1. now rewrite readlines_terminated.
    + apply andb_true_iff in H as [H1 H2]. apply negb_true_iff in H2.
      apply readlines_no_newline; [exact H1|].
      intros ->. discriminate.
  - intros H.
    change (split_lines_ok (s :: s' :: r'))
      with (terminated_line s && split_lines_ok (s' :: r'))%bool in H.
    apply andb_true_iff in H as [H1 H2].
    change (writelines (s :: s' :: r'))
      with (s ++ writelines (s' :: r'))%string.
    rewrite readlines_terminated by exact H1. now rewrite IH.
Qed.

Lemma terminated_line_ok_single (s : string) :
  terminated_line s = true -> split_lines_ok [s] = true.
Proof. simpl. now intros ->. Qed.

Lemma split_lines_ok_head s r :
  split_lines_ok (s :: r) = true -> split_lines_ok [s] = true.
Proof.
  destruct r; [auto|]. intros H.
  change (terminated_line s && split_lines_ok (s0 :: r) = true)%bool in H.
  apply andb_true_iff in H as [H _]. now apply terminated_line_ok_single.
Qed.

Lemma split_lines_ok_tail s r :
  split_lines_ok (s :: r) = true -> split_lines_ok r = true.
Proof.
  destruct r; [auto|]. intros H.
  change (terminated_line s && split_lines_ok (s0 :: r) = true)%bool in H.
  now apply andb_true_iff in H as [_ H].
Qed.

Lemma split_lines_ok_cons s r :
  r <> [] -> split_lines_ok (s :: r) = true -> terminated_line s = true.
Proof.
  destruct r; [intros H; now elim H|]. intros _ H.
  change (terminated_line s && split_lines_ok (s0 :: r) = true)%bool in H.
  now apply andb_true_iff in H as [H _].
Qed.

Lemma split_lines_ok_filter (f : string -> bool) (lines : list string) :
  split_lines_ok lines = true -> split_lines_ok (filter f lines) = true.
Proof.
  induction lines as [|s r IH]; [reflexivity|]. intros H.
  pose proof (split_lines_ok_tail _ _ H) as Ht. specialize (IH Ht).
  simpl. destruct (f s); [|exact IH].
  destruct (filter f r) as [|s' r'] eqn:E.
  - now apply split_lines_ok_head in H.
  - change (terminated_line s && split_lines_ok (s' :: r') = true)%bool.
    rewrite IH, andb_true_r. apply (split_lines_ok_cons s r); [|exact H].
    intros ->. discriminate.
Qed.

Lemma readlines_head_nonempty (s h : string) (t : list string) :
  readlines s = h :: t -> h <> EmptyString.
Proof.
  destruct s as [|a s']; simpl; [discriminate|].
  destruct (Ascii.eqb a newline); [intros [= <- _]; discriminate|].
  destruct (readlines s'); intros [= <- _]; discriminate.
Qed.

Lemma terminated_line_cons (c d : ascii) (s : string) :
  terminated_line (String c (String d s))
  = (negb (Ascii.eqb c newline) && terminated_line (String d s))%bool.
Proof. reflexivity. Qed.

Lemma split_lines_ok_single (s : string) :
  split_lines_ok [s]
  = (terminated_line s || (no_newline s && negb (String.eqb s EmptyString)))%bool.
Proof. reflexivity. Qed.

Lemma split_lines_ok_more (s s' : string) (r : list string) :
  split_lines_ok (s :: s' :: r)
  = (terminated_line s && split_lines_ok (s' :: r))%bool.
Proof. reflexivity. Qed.

Lemma readlines_ok (text : string) : split_lines_ok (readlines text) = true.
Proof.
  induction text as [|c s IH]; [reflexivity|]. simpl.
  destruct (Ascii.eqb c newline) eqn:Hc.
  - destruct (readlines s) as [|h t] eqn:E.
    + simpl. now rewrite Hc.
    + rewrite split_lines_ok_more. simpl terminated_line. now rewrite Hc, IH.
  - destruct (readlines s) as [|h t] eqn:E.
    + simpl. rewrite Hc. unfold no_newline. simpl. now rewrite Hc.
    + pose proof (readlines_head_nonempty _ _ _ E) as Hh.
      destruct h as [|d h0]; [now elim Hh|].
      destruct t as [|h' t'].
      * rewrite split_lines_ok_single in IH |- *.
        rewrite terminated_line_cons, Hc. simpl negb. rewrite andb_true_l.
        apply orb_true_iff in IH as [IH | IH]; [now rewrite IH|].
        apply andb_true_iff in IH as [IH _].
        unfold no_newline in *.
        change (forallb_str (fun c0 => negb (Ascii.eqb c0 newline))
                            (String c (String d h0)))
          with (negb (Ascii.eqb c newline)
                && forallb_str (fun c0 => negb (Ascii.eqb c0 newline))
                               (String d h0))%bool.
        rewrite Hc, IH. simpl. apply orb_true_r.
      * rewrite split_lines_ok_more in IH |- *.
        apply andb_true_iff in IH as [IH1 IH2].
        now rewrite terminated_line_cons, Hc, IH1, IH2.
Qed.

(* ---- the insertion index ---- *)

Lemma fold_left_fixed {A} (f : Z -> A -> Z) (l : list A) (acc : Z) :
  (forall x, In x l -> f acc x = acc) -> fold_left f l acc = acc.
Proof.
  induction l as [|x r IH]; intros H; simpl; [reflexivity|].
  rewrite H by now left. apply IH. intros y Hy. apply H. now right.
Qed.

Lemma range_bound (n i : Z) : In i (range n) -> 0 <= i < n.
Proof.
  unfold range. intros H. apply in_map_iff in H as (k & <- & Hk).
  apply in_seq in Hk. lia.
Qed.

(** The insertion index of the savers is always the number of lines: the
    new line goes to the end of the file. *)
Lemma insert_index_is_length (prefixes lines : list string) :
  insert_index prefixes lines = len lines.
Proof.
  unfold insert_index. apply fold_left_fixed.
  intros [i line] Hin.
  assert (Hi : i + 1 <= len lines).
  { unfold enumerate in Hin. apply in_combine_l, range_bound in Hin. lia. }
  destruct (startswith_any prefixes (lower (strip line))); lia.
Qed.

Lemma list_insert_at_length {A} (x : A) (l : list A) :
  list_insert (len l) x l = l ++ [x].
Proof.
  unfold list_insert, len.
  replace (Z.of_nat (List.length l) <? 0) with false
    by (symmetry; apply Z.ltb_ge; lia).
  rewrite Z.min_id, Nat2Z.id, firstn_all, skipn_all. reflexivity.
Qed.

(** What the saver writes: the lines that are not [bbl] lines, then, for a
    list, the new [bbl] line. *)
Lemma bbl_rewrite_appends (bbl : option (list Z)) (lines : list string) :
  bbl_rewrite bbl lines
  = filter (fun line => negb (is_bbl_line line)) lines
    ++ match bbl with Some l => [bbl_line l] | None => [] end.
Proof.
  unfold bbl_rewrite. destruct bbl as [l|]; [|now rewrite app_nil_r].
  now rewrite insert_index_is_length, list_insert_at_length.
Qed.

(* ---- the new line, read back ---- *)

Lemma rstrip_with_tail (f : ascii -> bool) (s : string) (c n : ascii) :
  f c = false -> f n = true ->
  rstrip_with f (s ++ String c (String n EmptyString))
  = (s ++ String c EmptyString)%string.
Proof.
  intros Hc Hn. induction s as [|a s IH]; simpl.
  - now rewrite Hn, Hc.
  - rewrite IH. now destruct s.
Qed.

Lemma last_char_app (s : string) (c : ascii) :
  last_char (s ++ String c EmptyString) = Some c.
Proof.
  induction s as [|a s IH]; [reflexivity|]. simpl.
  destruct (s ++ String c EmptyString)%string eqn:E; [|exact IH].
  destruct s; discriminate.
Qed.

Lemma drop_last_app (s : string) (c : ascii) :
  drop_last (s ++ String c EmptyString) = s.
Proof.
  induction s as [|a s IH]; [reflexivity|]. simpl.
  destruct (s ++ String c EmptyString)%string eqn:E;
    [destruct s; discriminate|].
  now rewrite IH.
Qed.

Lemma split_char_nonempty (sep : ascii) (s : string) : split_char sep s <> [].
Proof.
  destruct s as [|c r]; simpl; [discriminate|].
  destruct (Ascii.eqb c sep); [discriminate|].
  destruct (split_char sep r); discriminate.
Qed.

Lemma strip_leading_space (s : string) :
  strip (String " " s) = strip s.
Proof. reflexivity. Qed.

Lemma str_of_zero_or_one (v : Z) :
  zero_or_one v = true -> str_of_int v = "0" \/ str_of_int v = "1".
Proof.
  unfold zero_or_one. intros H. apply orb_true_iff in H as [H | H];
    apply Z.eqb_eq in H; subst; [left | right]; reflexivity.
Qed.

(** The items of the written brace list, split and stripped, are the
    decimal forms of the entries. *)
Lemma split_join_bbl (l : list Z) :
  l <> [] -> forallb zero_or_one l = true ->
  map strip (split_char "," (join ", " (map str_of_int l)))
  = map str_of_int l.
Proof.
  induction l as [|v r IH]; [intros H; now elim H|]. intros _ H.
  simpl in H. apply andb_true_iff in H as [Hv Hr].
  destruct r as [|v' r'].
  - destruct (str_of_zero_or_one v Hv) as [E | E]; simpl; rewrite E;
      reflexivity.
  - specialize (IH ltac:(discriminate) Hr).
    change (map str_of_int (v :: v' :: r'))
      with (str_of_int v :: map str_of_int (v' :: r')).
    change (join ", " (str_of_int v :: map str_of_int (v' :: r')))
      with (str_of_int v ++ ", " ++ join ", " (map str_of_int (v' :: r')))%string.
    set (J := join ", " (map str_of_int (v' :: r'))) in *.
    destruct (split_char "," J) as [|h t] eqn:E;
      [now elim (split_char_nonempty "," J)|].
    destruct (str_of_zero_or_one v Hv) as [Ev | Ev]; rewrite Ev; simpl;
      rewrite E; simpl; rewrite strip_leading_space; simpl in IH;
      now rewrite <- IH.
Qed.

Lemma bbl_line_unfold (l : list Z) :
  bbl_line l
  = String "b" (String "b" (String "l" (String " " (String "=" (String " "
      ((String "{" (join ", " (map str_of_int l)))
       ++ String "}" (String newline EmptyString))))))).
Proof. reflexivity. Qed.

(** Outside a block, the reader turns the written line into the [bbl]
    entry, a list of the decimal forms of the entries. *)
Lemma read_bbl_line (d : Envi.header) (l : list Z) :
  l <> [] -> forallb zero_or_one l = true ->
  read_line (Reader d None) (bbl_line l)
  = Reader (dict_set "bbl" (HList (map str_of_int l)) d) None.
Proof.
  intros Hne H01. rewrite bbl_line_unfold.
  set (X := join ", " (map str_of_int l)).
  unfold read_line. cbn [rd_open rd_dict].
  cbn [partition_char Ascii.eqb Bool.eqb negb is_semicolon_line].
  change (strip (String " " (String "{" X ++ String "}" (String newline ""))))
    with (rstrip_with is_space
            (String "{" X ++ String "}" (String newline ""))).
  rewrite rstrip_with_tail by reflexivity.
  change (lower (strip "bbl ")) with "bbl".
  cbn [append]. unfold ends_with_brace.
  change (String "{" (X ++ "}")%string)
    with (String "{" X ++ String "}" EmptyString)%string.
  rewrite last_char_app. cbn [append].
  unfold block_value. change (String.eqb "bbl" "description") with false.
  cbn iota. unfold strip_ends. rewrite drop_last_app.
  subst X. now rewrite split_join_bbl.
Qed.

(* ---- no [bbl] entry without a [bbl] line ---- *)

Lemma partition_char_found (sep : ascii) (s a b : string) :
  partition_char sep s = (a, true, b) -> s = (a ++ String sep b)%string.
Proof.
  revert a b. induction s as [|c r IH]; intros a b; simpl; [discriminate|].
  destruct (Ascii.eqb c sep) eqn:E.
  - apply Ascii.eqb_eq in E. subst. now intros [= <- <-].
  - destruct (partition_char sep r) as [[a' f'] b'] eqn:P.
    intros [= <- -> <-]. simpl. now rewrite <- (IH a' b' eq_refl).
Qed.

Lemma lstrip_with_app (f : ascii -> bool) (a b : string) :
  lstrip_with f a <> EmptyString ->
  lstrip_with f (a ++ b) = (lstrip_with f a ++ b)%string.
Proof.
  induction a as [|c r IH]; simpl; [intros H; now elim H|].
  destruct (f c); [exact IH | reflexivity].
Qed.

Lemma rstrip_with_kept (f : ascii -> bool) (a b : string) (c : ascii) :
  f c = false ->
  rstrip_with f (a ++ String c b) = (a ++ String c (rstrip_with f b))%string.
Proof.
  intros Hc. induction a as [|x a IH]; simpl.
  - rewrite Hc. now destruct (rstrip_with f b).
  - rewrite IH. now destruct a.
Qed.

Lemma rstrip_with_prefix (f : ascii -> bool) (a : string) :
  exists t, a = (rstrip_with f a ++ t)%string.
Proof.
  induction a as [|x a [t IH]]; simpl; [now exists EmptyString|].
  destruct (rstrip_with f a) as [|y r] eqn:E.
  - destruct (f x); [now exists (String x a) | now exists a].
  - exists t. simpl in IH |- *. now rewrite <- IH.
Qed.

Lemma lower_app (a b : string) :
  lower (a ++ b) = (lower a ++ lower b)%string.
Proof. induction a as [|c a IH]; simpl; [reflexivity | now rewrite IH]. Qed.

Lemma startswith_app (p s : string) : startswith p (p ++ s) = true.
Proof.
  induction p as [|c p IH]; [reflexivity|]. simpl.
  now rewrite Ascii.eqb_refl, IH.
Qed.

(** A line whose key reads [bbl] is a line the saver removes. *)
Lemma bbl_key_is_bbl_line (line k v : string) :
  partition_char "=" line = (k, true, v) ->
  lower (strip k) = "bbl" ->
  is_bbl_line line = true.
Proof.
  intros Hp Hk. apply partition_char_found in Hp. subst line.
  unfold is_bbl_line, strip, strip_with in *.
  assert (Hne : lstrip_with is_space k <> EmptyString).
  { intros E. rewrite E in Hk. discriminate Hk. }
  rewrite lstrip_with_app by exact Hne.
  rewrite rstrip_with_kept by reflexivity.
  destruct (rstrip_with_prefix is_space (lstrip_with is_space k)) as [t Ht].
  rewrite Ht at 1. rewrite append_assoc, lower_app, Hk.
  apply startswith_app.
Qed.

Lemma lookup_dict_set_other (key key' : string) (v : hval) (d : Envi.header) :
  key <> key' -> lookup key' (dict_set key v d) = lookup key' d.
Proof.
  intros Hne. induction d as [|[k w] r IH]; simpl.
  - destruct (String.eqb key key') eqn:E; [|reflexivity].
    apply String.eqb_eq in E. now elim Hne.
  - destruct (String.eqb k key) eqn:E; simpl.
    + apply String.eqb_eq in E. subst k.
      destruct (String.eqb key key') eqn:E'; [|reflexivity].
      apply String.eqb_eq in E'. now elim Hne.
    + now rewrite IH.
Qed.

Lemma lookup_dict_set_same (key : string) (v : hval) (d : Envi.header) :
  lookup key (dict_set key v d) = Some v.
Proof.
  induction d as [|[k w] r IH]; simpl.
  - now rewrite String.eqb_refl.
  - destruct (String.eqb k key) eqn:E; simpl; rewrite E; [reflexivity | exact IH].
Qed.

Lemma read_line_bbl_free (st : reader) (line : string) :
  is_bbl_line line = false -> bbl_free st -> bbl_free (read_line st line).
Proof.
  intros Hline [Hd Ho]. unfold read_line.
  destruct (rd_open st) as [[key str]|] eqn:E.
  - assert (Hkey : key <> "bbl") by (apply (Ho key str); reflexivity).
    destruct (is_semicolon_line line); [split; [exact Hd | now rewrite E]|].
    destruct (ends_with_brace _); split; simpl.
    + now rewrite lookup_dict_set_other.
    + discriminate.
    + exact Hd.
    + now intros k s [= <- <-].
  - destruct (partition_char "=" line) as [[k found] v] eqn:P.
    destruct found; simpl; [|split; [exact Hd | now rewrite E]].
    destruct (is_semicolon_line line); [split; [exact Hd | now rewrite E]|].
    assert (Hkey : lower (strip k) <> "bbl").
    { intros Hk. rewrite (bbl_key_is_bbl_line line k v P Hk) in Hline.
      discriminate. }
    destruct (strip v) as [|c val] eqn:Ev.
    + split; simpl; [now rewrite lookup_dict_set_other | discriminate].
    + assert (Hplain :
        bbl_free (Reader (dict_set (lower (strip k)) (HStr (String c val))
                                   (rd_dict st)) None)).
      { split; simpl; [now rewrite lookup_dict_set_other | discriminate]. }
      destruct c as [[] [] [] [] [] [] [] []]; try exact Hplain.
      destruct (ends_with_brace _); split; simpl.
      * now rewrite lookup_dict_set_other.
      * discriminate.
      * exact Hd.
      * now intros k0 s [= <- <-].
Qed.

Lemma read_lines_bbl_free (lines : list string) (st : reader) :
  forallb (fun line => negb (is_bbl_line line)) lines = true ->
  bbl_free st -> bbl_free (read_lines st lines).
Proof.
  revert st. induction lines as [|line r IH]; intros st H Hst; [exact Hst|].
  simpl in H. apply andb_true_iff in H as [H1 H2].
  apply negb_true_iff in H1. simpl. apply IH; [exact H2|].
  now apply read_line_bbl_free.
Qed.

Lemma filter_forallb {A} (f : A -> bool) (l : list A) :
  forallb f (filter f l) = true.
Proof.
  induction l as [|x r IH]; [reflexivity|]. simpl.
  destruct (f x) eqn:E; simpl; [now rewrite E|exact IH].
Qed.

(** The second half of C2, for every header: once [set_bad_band_list(None)]
    has rewritten the header, a re-parse of it holds no [bbl] entry. *)
Lemma reparsed_without_bbl (text : string) (hd : Envi.header) :
  read_envi_header (writelines (bbl_rewrite None (readlines text))) = Some hd ->
  lookup "bbl" hd = None.
Proof.
  rewrite bbl_rewrite_appends, app_nil_r.
  set (kept := filter (fun line => negb (is_bbl_line line)) (readlines text)).
  unfold read_envi_header.
  rewrite readlines_writelines
    by (apply split_lines_ok_filter, readlines_ok).
  pose proof (filter_forallb (fun line => negb (is_bbl_line line))
                             (readlines text)) as Hkept.
  fold kept in Hkept.
  destruct kept as [|first rest]; [discriminate|].
  simpl in Hkept. apply andb_true_iff in Hkept as [_ Hrest].
  destruct (startswith "ENVI" (strip first)); [|discriminate].
  assert (Hfree : bbl_free (read_lines (Reader [] None) rest)).
  { apply read_lines_bbl_free; [exact Hrest|]. split; [reflexivity|].
    intros k s H. discriminate H. }
  destruct (rd_open (read_lines (Reader [] None) rest)); [discriminate|].
  intros [= <-]. apply Hfree.
Qed.

(* ---- the [bbl] entry of a rewritten, line-feed-terminated header ---- *)

Lemma no_newline_app (a b : string) :
  no_newline (a ++ b) = (no_newline a && no_newline b)%bool.
Proof.
  unfold no_newline. induction a as [|c a IH]; simpl; [reflexivity|].
  now rewrite IH, andb_assoc.
Qed.

Lemma terminated_line_app_newline (a : string) :
  no_newline a = true ->
  terminated_line (a ++ String newline EmptyString) = true.
Proof.
  induction a as [|c a IH]; [reflexivity|]. intros H.
  unfold no_newline in H. simpl in H. apply andb_true_iff in H as [Hc Ha].
  destruct a as [|d a'].
  - simpl. now rewrite Hc.
  - change (terminated_line (String c (String d (a' ++ String newline ""))) = true).
    rewrite terminated_line_cons, Hc. now apply IH.
Qed.

Lemma no_newline_join_bbl (l : list Z) :
  forallb zero_or_one l = true ->
  no_newline (join ", " (map str_of_int l)) = true.
Proof.
  induction l as [|v r IH]; [reflexivity|]. intros H. simpl in H.
  apply andb_true_iff in H as [Hv Hr]. specialize (IH Hr).
  assert (Hs : no_newline (str_of_int v) = true)
    by (destruct (str_of_zero_or_one v Hv) as [-> | ->]; reflexivity).
  destruct r as [|v' r']; [exact Hs|].
  change (join ", " (map str_of_int (v :: v' :: r')))
    with (str_of_int v ++ ", " ++ join ", " (map str_of_int (v' :: r')))%string.
  now rewrite !no_newline_app, Hs, IH.
Qed.

Lemma bbl_line_terminated (l : list Z) :
  forallb zero_or_one l = true -> terminated_line (bbl_line l) = true.
Proof.
  intros H. unfold bbl_line.
  rewrite <- !append_assoc. apply terminated_line_app_newline.
  rewrite !no_newline_app, no_newline_join_bbl by exact H. reflexivity.
Qed.

Lemma split_lines_ok_snoc (lines : list string) (s : string) :
  forallb terminated_line lines = true -> terminated_line s = true ->
  split_lines_ok (lines ++ [s]) = true.
Proof.
  intros Hl Hs. induction lines as [|x r IH]; simpl app.
  - now apply terminated_line_ok_single.
  - simpl in Hl. apply andb_true_iff in Hl as [Hx Hr].
    destruct (r ++ [s]) as [|y t] eqn:E; [now destruct r|].
    rewrite split_lines_ok_more, Hx. now apply IH.
Qed.

Lemma forallb_filter {A} (p f : A -> bool) (l : list A) :
  forallb p l = true -> forallb p (filter f l) = true.
Proof.
  induction l as [|x r IH]; [reflexivity|]. simpl. intros H.
  apply andb_true_iff in H as [Hx Hr]. destruct (f x); simpl;
    [now rewrite Hx, IH | now apply IH].
Qed.

Lemma read_lines_app (st : reader) (a b : list string) :
  read_lines st (a ++ b) = read_lines (read_lines st a) b.
Proof. apply fold_left_app. Qed.

(** The first half of C2, on disk, for every header that ends with a line
    feed: if the header without its [bbl] lines can be read, the header
    [set_bad_band_list] writes reads as the same entries plus the list. *)
Lemma reparsed_with_bbl (text : string) (l : list Z) (hd : Envi.header) :
  forallb terminated_line (readlines text) = true ->
  l <> [] -> forallb zero_or_one l = true ->
  read_envi_header (writelines (bbl_rewrite None (readlines text))) = Some hd ->
  read_envi_header (writelines (bbl_rewrite (Some l) (readlines text)))
  = Some (dict_set "bbl" (HList (map str_of_int l)) hd).
Proof.
  intros Hterm Hne H01. rewrite !bbl_rewrite_appends, app_nil_r.
  set (kept := filter (fun line => negb (is_bbl_line line)) (readlines text)).
  assert (Hk : forallb terminated_line kept = true)
    by (now apply forallb_filter).
  unfold read_envi_header.
  rewrite readlines_writelines
    by (apply split_lines_ok_filter, readlines_ok).
  rewrite readlines_writelines
    by (apply split_lines_ok_snoc; auto using bbl_line_terminated).
  destruct kept as [|first rest]; [discriminate|]. simpl app. cbv iota.
  destruct (startswith "ENVI" (strip first)); [|discriminate].
  rewrite read_lines_app.
  destruct (read_lines (Reader [] None) rest) as [d [o|]];
    cbn [rd_open rd_dict]; [discriminate|].
  intros [= <-]. unfold read_lines. cbn [fold_left].
  rewrite read_bbl_line by assumption. reflexivity.
Qed.

(* ---- the list an object loads from such a header ---- *)

Lemma lower_ascii_idem (c : ascii) : lower_ascii (lower_ascii c) = lower_ascii c.
Proof. destruct c as [[] [] [] [] [] [] [] []]; reflexivity. Qed.

Lemma lower_idem (s : string) : lower (lower s) = lower s.
Proof.
  induction s as [|c s IH]; simpl; [reflexivity|].
  now rewrite lower_ascii_idem, IH.
Qed.

Lemma dict_set_keys_lower key v d :
  lower key = key -> keys_lower d -> keys_lower (dict_set key v d).
Proof.
  intros Hk Hd. induction Hd as [|[k w] r Hkw Hr IH]; simpl.
  - repeat constructor. exact Hk.
  - destruct (String.eqb k key); constructor; auto.
Qed.

Lemma read_line_keys_lower st line :
  keys_lower (rd_dict st) ->
  (forall k s, rd_open st = Some (k, s) -> lower k = k) ->
  keys_lower (rd_dict (read_line st line))
  /\ (forall k s, rd_open (read_line st line) = Some (k, s) -> lower k = k).
Proof.
  intros Hd Ho. unfold read_line.
  destruct (rd_open st) as [[key str]|] eqn:E.
  - assert (Hkey : lower key = key) by (apply (Ho key str); reflexivity).
    destruct (is_semicolon_line line); [split; [exact Hd | now rewrite E]|].
    destruct (ends_with_brace _); split; simpl;
      auto using dict_set_keys_lower; try discriminate.
    now intros k s [= <- <-].
  - destruct (partition_char "=" line) as [[k found] v].
    destruct found; simpl; [|split; [exact Hd | now rewrite E]].
    destruct (is_semicolon_line line); [split; [exact Hd | now rewrite E]|].
    pose proof (lower_idem (strip k)) as Hkey.
    destruct (strip v) as [|c val].
    + split; simpl; [now apply dict_set_keys_lower | discriminate].
    + assert (Hplain :
        keys_lower (rd_dict (Reader (dict_set (lower (strip k))
                                        (HStr (String c val)) (rd_dict st)) None))
        /\ (forall k0 s,
               rd_open (Reader (dict_set (lower (strip k))
                                  (HStr (String c val)) (rd_dict st)) None)
               = Some (k0, s) -> lower k0 = k0)).
      { split; simpl; [now apply dict_set_keys_lower | discriminate]. }
      destruct c as [[] [] [] [] [] [] [] []]; try exact Hplain.
      destruct (ends_with_brace _); split; simpl;
        auto using dict_set_keys_lower; try discriminate.
      now intros k0 s [= <- <-].
Qed.

Lemma read_lines_keys_lower lines st :
  keys_lower (rd_dict st) ->
  (forall k s, rd_open st = Some (k, s) -> lower k = k) ->
  keys_lower (rd_dict (read_lines st lines)).
Proof.
  revert st. induction lines as [|line r IH]; intros st Hd Ho; [exact Hd|].
  simpl. destruct (read_line_keys_lower st line Hd Ho) as [Hd' Ho'].
  now apply IH.
Qed.

Lemma read_envi_header_keys_lower text hd :
  read_envi_header text = Some hd -> keys_lower hd.
Proof.
  unfold read_envi_header. destruct (readlines text) as [|first rest];
    [discriminate|].
  destruct (startswith "ENVI" (strip first)); [|discriminate].
  destruct (rd_open (read_lines (Reader [] None) rest)) eqn:E; [discriminate|].
  intros [= <-]. apply read_lines_keys_lower; [constructor|].
  intros k s H. discriminate H.
Qed.

Lemma find_key_lower (name : string) (d : Envi.header) (v : hval) :
  keys_lower d -> lookup name d = Some v ->
  find_key (fun k => String.eqb k name) d = Some name.
Proof.
  intros Hd. induction Hd as [|[k w] r Hk Hr IH]; simpl; [discriminate|].
  simpl in Hk. rewrite Hk. destruct (String.eqb k name) eqn:E.
  - apply String.eqb_eq in E. now subst.
  - exact IH.
Qed.

Lemma len_nonempty {A} (l : list A) : l <> [] -> negb (Nat.eqb (List.length l) 0) = true.
Proof. destruct l; [intros H; now elim H | reflexivity]. Qed.

(** An object whose header carries the list as integers, in a header with
    lower-case keys, loads the list when its length is the number of
    bands. *)
Lemma load_bbl_from_ints (h : DataHandler) (l : list Z) :
  keys_lower (header h) ->
  lookup "bbl" (header h) = Some (HInts l) ->
  l <> [] -> len l = bands h ->
  bad_band_list (_load_bad_band_list_from_header h) = Some l.
Proof.
  intros Hk Hl Hne Hlen. unfold _load_bad_band_list_from_header.
  destruct (header h) as [|e r] eqn:E; [discriminate|].
  unfold load_bbl_body. rewrite E.
  rewrite (find_key_lower "bbl" (e :: r) _ Hk Hl), Hl.
  cbn [truthy]. rewrite (len_nonempty l Hne). cbn [negb].
  apply Z.eqb_eq in Hlen. rewrite Hlen. reflexivity.
Qed.

(* ---- the round trip through the accessor ---- *)

Section RoundTrip.
Variable float_of_str : string -> option f64.
Hypothesis float_of_zero : float_of_str "0" = Some (Fin 0).
Hypothesis float_of_one : float_of_str "1" = Some (Fin 1).

Lemma ints_of_written (l : list Z) :
  forallb zero_or_one l = true ->
  all_some (map (int_of_float_str float_of_str) (map str_of_int l)) = Some l.
Proof.
  induction l as [|v r IH]; [reflexivity|]. intros H. simpl in H.
  apply andb_true_iff in H as [Hv Hr]. simpl. rewrite (IH Hr).
  unfold zero_or_one in Hv. apply orb_true_iff in Hv as [Hv | Hv];
    apply Z.eqb_eq in Hv; subst v; unfold int_of_float_str;
    [change (str_of_int 0) with "0"; rewrite float_of_zero
    |change (str_of_int 1) with "1"; rewrite float_of_one]; reflexivity.
Qed.

Lemma convert_bbl_written (l : list Z) (hd : Envi.header) :
  forallb zero_or_one l = true ->
  convert_bbl float_of_str (dict_set "bbl" (HList (map str_of_int l)) hd)
  = dict_set "bbl" (HInts l) (dict_set "bbl" (HList (map str_of_int l)) hd).
Proof.
  intros H. unfold convert_bbl.
  now rewrite lookup_dict_set_same, ints_of_written.
Qed.

Lemma header_int_dict_set_bbl (hd : Envi.header) (v : hval) (key : string) :
  key <> "bbl" -> header_int (dict_set "bbl" v hd) key = header_int hd key.
Proof.
  intros H. unfold header_int. rewrite lookup_dict_set_other; auto.
Qed.

Lemma has_required_dict_set_bbl (hd : Envi.header) (v : hval) :
  has_required (dict_set "bbl" v hd) = has_required hd.
Proof.
  unfold has_required, required_keys, dict_mem. simpl.
  now rewrite !lookup_dict_set_other by discriminate.
Qed.

(** The first half of C2 for every ENVI header that ends with a line feed.
    On a loaded ENVI cube whose header, once its [bbl] lines are left out,
    reads as a header of the cube, [set_bad_band_list] with a non-empty list
    of zeros and ones, one per band, succeeds; and every
    object that afterwards opens the data file, a fresh one or the same one
    through [reload_from_header], returns that list. *)
Theorem bbl_round_trip_of_terminated_header :
  forall (fs : filesystem) (h : DataHandler) (l : list Z)
         (hf df text : string) (d : data_file) (hd : Envi.header) (r c : Z),
    is_loaded h = true ->
    file_type h = Some FEnvi ->
    header_filename h = Some hf ->
    hf <> EmptyString -> df <> EmptyString ->
    fs hf = Some (EText (TextFile text true true)) ->
    fs df = Some (EData d) ->
    forallb terminated_line (readlines text) = true ->
    l <> [] -> len l = bands h -> forallb zero_or_one l = true ->
    read_envi_header (writelines (bbl_rewrite None (readlines text))) = Some hd ->
    has_required hd = true ->
    header_int hd "lines" = Some r ->
    header_int hd "samples" = Some c ->
    header_int hd "bands" = Some (bands h) ->
    exists fs' h',
      set_bad_band_list fs h (Some l) = (fs', h', true)
      /\ get_bad_band_list h' = Some l
      /\ read_text fs' hf
         = Some (writelines (bbl_rewrite (Some l) (readlines text)))
      /\ forall (new_temp_file : filesystem -> option string)
                (h0 : DataHandler) (load_to_ram : bool),
           _is_emit_file df = false ->
           _is_aviris3_file df = false ->
           endswith ".hdr" df = false ->
           _find_header_file fs' df = Some hf ->
           exists h1,
             load_envi_data float_of_str (Envi.open float_of_str)
                            new_temp_file Envi.load Envi.open_memmap
                            fs' h0 df load_to_ram None = (h1, true)
             /\ get_bad_band_list h1 = Some l.
Proof.
  intros fs h l hf df text d hd r c Hl Ht Hhf Hhfne Hdfne Hfh Hfd Hterm
         Hne Hlen H01 Hhd Hreq Hr Hc Hb.
  set (content := writelines (bbl_rewrite (Some l) (readlines text))).
  set (fs' := fun p => if String.eqb p hf
                       then Some (EText (TextFile content true true))
                       else fs p).
  assert (Hdiff : String.eqb df hf = false).
  { destruct (String.eqb df hf) eqn:E; [|reflexivity].
    apply String.eqb_eq in E. subst. rewrite Hfh in Hfd. discriminate. }
  assert (Hsave : set_bad_band_list fs h (Some l)
                  = (fs',
                     with_header (dict_set "bbl" (HInts l) (header h))
                                 (with_bad_band_list (Some l) h), true)).
  { unfold set_bad_band_list, file_type_is. rewrite Hl, Ht. simpl.
    apply Z.eqb_eq in Hlen. rewrite Hlen. simpl.
    change (forallb (fun v => (v =? 0) || (v =? 1)) l)
      with (forallb zero_or_one l). rewrite H01. simpl.
    unfold _save_bad_band_list_to_header, no_header_filename, header_path,
      exists_, writable, read_text, write_text. simpl.
    rewrite Hhf. destruct (String.eqb hf EmptyString) eqn:E;
      [apply String.eqb_eq in E; now elim Hhfne|].
    rewrite Hfh. simpl. reflexivity. }
  exists fs'. eexists. split; [exact Hsave|]. split; [reflexivity|].
  assert (Hread : read_text fs' hf = Some content).
  { unfold read_text, fs'. now rewrite String.eqb_refl. }
  split; [exact Hread|].
  intros new_temp_file h0 ram Hemit Hav Hext Hfind.
  assert (Hdata : fs' df = Some (EData d)).
  { unfold fs'. now rewrite Hdiff. }
  assert (Hopen : Envi.open float_of_str fs' hf df
                  = Some (MkSpyFile
                            (dict_set "bbl" (HInts l)
                               (dict_set "bbl" (HList (map str_of_int l)) hd))
                            [r; c; bands h] d)).
  { unfold Envi.open. rewrite Hread, Hdata. subst content.
    rewrite (reparsed_with_bbl text l hd Hterm Hne H01 Hhd).
    rewrite has_required_dict_set_bbl, Hreq.
    rewrite !header_int_dict_set_bbl by discriminate.
    rewrite Hr, Hc, Hb. now rewrite convert_bbl_written. }
  unfold load_envi_data. rewrite Hemit, Hav.
  unfold _load_envi_data_original. rewrite Hext, Hfind.
  unfold path_ok, exists_. 
  destruct (String.eqb hf EmptyString) eqn:E1;
    [apply String.eqb_eq in E1; now elim Hhfne|].
  destruct (String.eqb df EmptyString) eqn:E2;
    [apply String.eqb_eq in E2; now elim Hdfne|].
  assert (Hfh' : fs' hf = Some (EText (TextFile content true true)))
    by (unfold fs'; now rewrite String.eqb_refl).
  rewrite Hfh', Hdata. cbn [negb andb]. rewrite Hopen.
  cbv zeta.
  assert (Hread' :
            (if ram
             then option_map Some
                    (Envi.load
                       (MkSpyFile
                          (dict_set "bbl" (HInts l)
                             (dict_set "bbl" (HList (map str_of_int l)) hd))
                          [r; c; bands h] d))
             else Envi.open_memmap
                    (MkSpyFile
                       (dict_set "bbl" (HInts l)
                          (dict_set "bbl" (HList (map str_of_int l)) hd))
                       [r; c; bands h] d))
            = Some (Some (df_array d)))
    by (destruct ram; reflexivity).
  rewrite Hread'.
  eexists. split; [reflexivity|].
  unfold get_bad_band_list. cbn [bad_band_list].
  match goal with
  | |- bad_band_list (_load_data_ignore_value_from_header _ ?x) = _ =>
      assert (Hx : bad_band_list x = Some l)
  end.
  { apply load_bbl_from_ints; cbn [header metadata]; auto.
    - apply dict_set_keys_lower; [reflexivity|].
      apply dict_set_keys_lower; [reflexivity|].
      eapply read_envi_header_keys_lower; exact Hhd.
    - apply lookup_dict_set_same. }
  unfold _load_data_ignore_value_from_header.
  match goal with
  | |- bad_band_list (match ?hh with [] => _ | _ => _ end) = _ =>
      destruct hh; [exact Hx|]
  end.
  destruct (load_ignore_body _ _); exact Hx.
Qed.

End RoundTrip.

Lemma find_key_absent (name : string) (d : Envi.header) :
  keys_lower d -> lookup name d = None ->
  find_key (fun k => String.eqb k name) d = None.
Proof.
  intros Hd. induction Hd as [|[k w] r Hk Hr IH]; simpl; [reflexivity|].
  simpl in Hk. rewrite Hk. destruct (String.eqb k name); [discriminate|].
  exact IH.
Qed.

Lemma load_bbl_without_entry (h : DataHandler) :
  keys_lower (header h) -> lookup "bbl" (header h) = None ->
  bad_band_list (_load_bad_band_list_from_header h) = bad_band_list h.
Proof.
  intros Hk Hl. unfold _load_bad_band_list_from_header.
  destruct (header h) as [|e r] eqn:E; [reflexivity|].
  unfold load_bbl_body. rewrite E.
  now rewrite (find_key_absent "bbl" (e :: r) Hk Hl).
Qed.

Lemma load_ignore_keeps_bbl (float_of_str : string -> option f64)
  (h : DataHandler) :
  bad_band_list (_load_data_ignore_value_from_header float_of_str h)
  = bad_band_list h.
Proof.
  unfold _load_data_ignore_value_from_header.
  destruct (header h); [reflexivity|].
  now destruct (load_ignore_body float_of_str h).
Qed.

(** The second half of C2 for every ENVI header.  On a loaded ENVI cube with
    a writable header, [set_bad_band_list(None)] succeeds and leaves no
    bad-band list in memory; every re-parse of the header it wrote holds no
    [bbl] entry; and every object without a bad-band list that afterwards
    opens the data file, a fresh one or the same one through
    [reload_from_header], returns the absent value. *)
Theorem bbl_removal_for_every_header :
  forall (float_of_str : string -> option f64)
         (fs : filesystem) (h : DataHandler)
         (hf df text : string) (d : data_file),
    is_loaded h = true ->
    file_type h = Some FEnvi ->
    header_filename h = Some hf ->
    hf <> EmptyString ->
    fs hf = Some (EText (TextFile text true true)) ->
    fs df = Some (EData d) ->
    exists fs' h',
      set_bad_band_list fs h None = (fs', h', true)
      /\ get_bad_band_list h' = None
      /\ read_text fs' hf
         = Some (writelines (bbl_rewrite None (readlines text)))
      /\ (forall hd,
             read_envi_header (writelines (bbl_rewrite None (readlines text)))
             = Some hd ->
             lookup "bbl" hd = None)
      /\ forall (new_temp_file : filesystem -> option string)
                (h0 h1 : DataHandler) (load_to_ram : bool),
           get_bad_band_list h0 = None ->
           _is_emit_file df = false ->
           _is_aviris3_file df = false ->
           endswith ".hdr" df = false ->
           _find_header_file fs' df = Some hf ->
           load_envi_data float_of_str (Envi.open float_of_str)
                          new_temp_file Envi.load Envi.open_memmap
                          fs' h0 df load_to_ram None = (h1, true) ->
           get_bad_band_list h1 = None.
Proof.
  intros float_of_str fs h hf df text d Hl Ht Hhf Hhfne Hfh Hfd.
  set (content := writelines (bbl_rewrite None (readlines text))).
  set (fs' := fun p => if String.eqb p hf
                       then Some (EText (TextFile content true true))
                       else fs p).
  assert (Hsave : set_bad_band_list fs h None
                  = (fs',
                     with_header (dict_del "bbl" (header h))
                                 (with_bad_band_list None h), true)).
  { unfold set_bad_band_list, file_type_is. rewrite Hl, Ht. simpl.
    unfold _save_bad_band_list_to_header, no_header_filename, header_path,
      exists_, writable, read_text, write_text. simpl.
    rewrite Hhf. destruct (String.eqb hf EmptyString) eqn:E;
      [apply String.eqb_eq in E; now elim Hhfne|].
    rewrite Hfh. simpl. reflexivity. }
  exists fs'. eexists. split; [exact Hsave|]. split; [reflexivity|].
  assert (Hread : read_text fs' hf = Some content).
  { unfold read_text, fs'. now rewrite String.eqb_refl. }
  split; [exact Hread|].
  split; [intros hd; apply reparsed_without_bbl|].
  intros new_temp_file h0 h1 ram Hh0 Hemit Hav Hext Hfind.
  unfold load_envi_data. rewrite Hemit, Hav.
  unfold _load_envi_data_original. rewrite Hext, Hfind.
  destruct (negb (path_ok fs' (Some hf))); [intros [= <- ]; exact Hh0|].
  destruct (negb (path_ok fs' (Some df))); [intros [= <- ]; exact Hh0|].
  unfold Envi.open. rewrite Hread.
  destruct (fs' df) as [[t|d'|n]|]; try (intros [= <-]; exact Hh0).
  destruct (read_envi_header content) as [hd|] eqn:Ehd;
    [|intros [= <-]; exact Hh0].
  destruct (has_required hd); [|intros [= <-]; exact Hh0].
  destruct (header_int hd "lines"); [|intros [= <-]; exact Hh0].
  destruct (header_int hd "samples"); [|intros [= <-]; exact Hh0].
  destruct (header_int hd "bands"); [|intros [= <-]; exact Hh0].
  assert (Hno : lookup "bbl" hd = None)
    by (now apply (reparsed_without_bbl text)).
  assert (Hconv : convert_bbl float_of_str hd = hd)
    by (unfold convert_bbl; now rewrite Hno).
  rewrite Hconv. cbv zeta. unfold Envi.load, Envi.open_memmap.
  destruct ram; cbn [option_map]; intros [= <-];
    unfold get_bad_band_list in *; cbn [bad_band_list];
    (rewrite load_ignore_keeps_bbl, load_bbl_without_entry;
     cbn [header metadata]; auto);
    eapply read_envi_header_keys_lower; exact Ehd.
Qed.

End HeaderFacts.

(* ================================================================== *)
(** * The header round trip and the band auto-selection, evaluated *)
(* ================================================================== *)

(** With a header whose lines all end with a line feed the bad-band list
    comes back: a fresh object that opens the rewritten file, and the same
    object after [reload_from_header], both return [[1, 0]]; after
    [set_bad_band_list(None)] the re-parsed header has no [bbl] entry and
    both return [None]. *)
Lemma bbl_round_trip_example :
  snd Examples.after_set_terminated = true
  /\ option_map (Env.lookup "bbl")
       (Examples.reparsed (fst (fst Examples.after_set_terminated)))
     = Some (Some (Envi.HList ["1"; "0"]))
  /\ Handler.get_bad_band_list
       (Examples.opened (fst (fst Examples.after_set_terminated)))
     = Some [1; 0]
  /\ Handler.get_bad_band_list (fst (Examples.reloaded Examples.after_set_terminated))
     = Some [1; 0]
  /\ snd Examples.after_clear_terminated = true
  /\ option_map (Env.lookup "bbl")
       (Examples.reparsed (fst (fst Examples.after_clear_terminated)))
     = Some None
  /\ Handler.get_bad_band_list
       (Examples.opened (fst (fst Examples.after_clear_terminated)))
     = None
  /\ Handler.get_bad_band_list
       (fst (Examples.reloaded Examples.after_clear_terminated))
     = None.
Proof. vm_compute. repeat split; reflexivity. Qed.

(** C2 at the failing input.  The header's last line, [wavelength units =
    nm], has no line feed.  [set_bad_band_list([1, 0])] succeeds, but the
    [bbl] line is written right behind that last line: no line of the file
    passes the saver's own test for a [bbl] line, the re-parsed header has
    no [bbl] entry (the text has become the value of [wavelength units]),
    and an object that opens the file afresh returns no bad-band list.  The
    object that made the change keeps [[1, 0]] across [reload_from_header]
    only because a header without [bbl] leaves the in-memory value alone. *)
Theorem C2_unterminated_header_loses_bbl :
  let fs := fst (fst Examples.after_set_unterminated) in
  Handler.is_loaded (Examples.opened Examples.disk_unterminated) = true
  /\ Handler.bands (Examples.opened Examples.disk_unterminated) = 2
  /\ snd Examples.after_set_unterminated = true
  /\ Env.read_text fs "cube.hdr"
     = Some (Examples.header_text_unterminated ++ "bbl = {1, 0}
")%string
  /\ option_map (fun text => existsb Props.is_bbl_line (PyStr.readlines text))
       (Env.read_text fs "cube.hdr") = Some false
  /\ option_map (Env.lookup "bbl") (Examples.reparsed fs) = Some None
  /\ option_map (Env.lookup "wavelength units") (Examples.reparsed fs)
     = Some (Some (Envi.HStr "nmbbl = {1, 0}"))
  /\ Handler.is_loaded (Examples.opened fs) = true
  /\ Handler.get_bad_band_list (Examples.opened fs) = None
  /\ snd (Examples.reloaded Examples.after_set_unterminated) = true
  /\ Env.lookup "bbl"
       (Handler.header (fst (Examples.reloaded Examples.after_set_unterminated)))
     = None
  /\ Handler.get_bad_band_list
       (fst (Examples.reloaded Examples.after_set_unterminated))
     = Some [1; 0].
Proof. vm_compute. repeat split; reflexivity. Qed.

(** C7 at the failing input.  The opened EMIT cube has four bands, at 1000
    to 1300 nm: no visible coverage.  The auto-selection of
    [get_rgb_composite] takes, for each of 650, 550 and 450 nm, the nearest
    band, which is band 0 three times, and the composite is the grey image
    of the mono mode.  [get_true_color_rgb_bands] of [utils.py], on the same
    wavelengths, spreads the bands: 3, 2, 0. *)
Theorem C7_auto_selection_collapses_outside_visible :
  let h := Examples.emit_first in
  Handler.is_loaded h = true
  /\ Handler.bands h = 4
  /\ Handler.wavelengths h = Some (Handler.WArr Examples.swir)
  /\ Handler._estimate_rgb_bands h = Some (0, 0, 0)
  /\ Handler.select_bands h None None None = Some (0, 0, 0)
  /\ Handler.get_rgb_composite 0 h None None None (Num.Fin 2) None
     = Some (Handler.Gray [[128]])
  /\ Utils.get_true_color_rgb_bands (Some Examples.swir) = (3, 2, 0).
Proof. vm_compute. repeat split; reflexivity. Qed.

(* ================================================================== *)
(** * Properties of the band-quality queries *)
(* ================================================================== *)

Section BandQualityFacts.
Import Num NdArray Env PyStr Envi Handler Props Accessors Notions.

Lemma combine_seq_In {A} (l : list A) (d : A) :
  forall (s : nat) (i : Z) (x : A),
    In (i, x) (combine (map Z.of_nat (seq s (List.length l))) l)
    <-> exists k, (k < List.length l)%nat
                  /\ i = Z.of_nat (s + k) /\ nth k l d = x.
Proof.
  induction l as [|y r IH]; intros s i x; simpl.
  - split; [intros [] | intros (k & Hk & _); lia].
  - split.
    + intros [E | Hin].
      * inversion E; subst. exists 0%nat. repeat split; [lia | f_equal; lia].
      * apply IH in Hin. destruct Hin as (k & Hk & Hi & Hx).
        exists (S k). repeat split; [lia | lia | exact Hx].
    + intros (k & Hk & Hi & Hx). destruct k as [|k].
      * left. subst. f_equal. f_equal. lia.
      * right. apply IH. exists k. repeat split; [lia | lia | exact Hx].
Qed.

Lemma enumerate_In {A} (l : list A) (d : A) (i : Z) (x : A) :
  In (i, x) (enumerate l)
  <-> 0 <= i < len l /\ nth (Z.to_nat i) l d = x.
Proof.
  unfold enumerate, range, len. rewrite Nat2Z.id.
  rewrite (combine_seq_In l d 0 i x). split.
  - intros (k & Hk & -> & Hx). simpl. rewrite Nat2Z.id. split; [lia | exact Hx].
  - intros [Hi Hx]. exists (Z.to_nat i). repeat split; [lia | simpl; lia | exact Hx].
Qed.

Lemma where_eq_In (v : Z) (l : list Z) (i : Z) :
  In i (where_eq v l)
  <-> 0 <= i < len l /\ nth (Z.to_nat i) l 0 = v.
Proof.
  unfold where_eq. rewrite in_map_iff. split.
  - intros ([j x] & Hfst & Hin). simpl in Hfst. subst j.
    apply filter_In in Hin. destruct Hin as [Hin Hv]. simpl in Hv.
    apply (enumerate_In l 0) in Hin. apply Z.eqb_eq in Hv.
    destruct Hin as [Hi Hx]. split; [exact Hi | congruence].
  - intros [Hi Hx]. exists (i, v). split; [reflexivity|].
    apply filter_In. split.
    + apply (enumerate_In l 0). now split.
    + simpl. apply Z.eqb_refl.
Qed.

Lemma zero_or_one_nth (l : list Z) (i : Z) :
  forallb zero_or_one l = true -> 0 <= i < len l ->
  nth (Z.to_nat i) l 0 = 0 \/ nth (Z.to_nat i) l 0 = 1.
Proof.
  intros Hall Hi. rewrite forallb_forall in Hall.
  assert (Hin : In (nth (Z.to_nat i) l 0) l)
    by (apply nth_In; unfold len in Hi; lia).
  specialize (Hall _ Hin). unfold zero_or_one in Hall.
  apply orb_true_iff in Hall. destruct Hall as [H | H]; apply Z.eqb_eq in H; auto.
Qed.

(** X1.  With a bad-band list of zeros and ones, every band index is in
    exactly one of [get_good_bands] and [get_bad_bands], and
    [is_band_good] tells which; an index outside the list is reported
    good. *)
Theorem X1_good_and_bad_bands_partition :
  forall (h : DataHandler) (l : list Z),
    bad_band_list h = Some l ->
    forallb zero_or_one l = true ->
    exists good bad,
      get_good_bands h = Some good
      /\ get_bad_bands h = Some bad
      /\ (forall i, In i good <-> 0 <= i < len l /\ is_band_good h i = true)
      /\ (forall i, In i bad <-> 0 <= i < len l /\ is_band_good h i = false)
      /\ (forall i, ~ (In i good /\ In i bad))
      /\ (forall i, i < 0 \/ len l <= i -> is_band_good h i = true).
Proof.
  intros h l Hl Hall. unfold get_good_bands, get_bad_bands. rewrite Hl.
  exists (where_eq 1 l), (where_eq 0 l).
  assert (Hgood : forall i, 0 <= i < len l ->
                   is_band_good h i = (nth (Z.to_nat i) l 0 =? 1)).
  { intros i Hi. unfold is_band_good. rewrite Hl.
    replace (i <? 0) with false by (symmetry; apply Z.ltb_ge; lia).
    replace (i >=? len l) with false
      by (symmetry; rewrite Z.geb_leb; apply Z.leb_gt; lia).
    reflexivity. }
  split; [reflexivity | split; [reflexivity|]].
  split; [|split; [|split]].
  - intros i. rewrite where_eq_In. split.
    + intros [Hi Hx]. split; [exact Hi|]. rewrite Hgood by exact Hi.
      now apply Z.eqb_eq.
    + intros [Hi Hg]. split; [exact Hi|]. rewrite Hgood in Hg by exact Hi.
      now apply Z.eqb_eq.
  - intros i. rewrite where_eq_In. split.
    + intros [Hi Hx]. split; [exact Hi|]. rewrite Hgood by exact Hi.
      rewrite Hx. reflexivity.
    + intros [Hi Hg]. split; [exact Hi|]. rewrite Hgood in Hg by exact Hi.
      apply Z.eqb_neq in Hg.
      destruct (zero_or_one_nth l i Hall Hi) as [H | H]; [exact H | contradiction].
  - intros i [Hg Hb]. apply where_eq_In in Hg, Hb. lia.
  - intros i Hi. unfold is_band_good. rewrite Hl.
    destruct Hi as [Hi | Hi].
    + replace (i <? 0) with true by (symmetry; apply Z.ltb_lt; lia).
      reflexivity.
    + replace (i >=? len l) with true
        by (symmetry; rewrite Z.geb_leb; apply Z.leb_le; lia).
      now rewrite orb_true_r.
Qed.

End BandQualityFacts.

Lemma X1_good_and_bad_bands_partition_witness :
  exists good bad,
    Accessors.get_good_bands
      (Handler.with_bad_band_list (Some [1; 0; 1; 1]) Handler.init) = Some good
    /\ Accessors.get_bad_bands
         (Handler.with_bad_band_list (Some [1; 0; 1; 1]) Handler.init) = Some bad
    /\ good = [0; 2; 3] /\ bad = [1].
Proof.
  destruct (X1_good_and_bad_bands_partition
              (Handler.with_bad_band_list (Some [1; 0; 1; 1]) Handler.init)
              [1; 0; 1; 1] eq_refl eq_refl)
    as (good & bad & Hg & Hb & _).
  exists good, bad. split; [exact Hg | split; [exact Hb|]].
  vm_compute in Hg, Hb. split; congruence.
Defined.

(* ================================================================== *)
(** * Properties of the pixel and wavelength queries *)
(* ================================================================== *)

Section PixelFacts.
Import Num NdArray Env PyStr Envi Handler Props Accessors Notions.

Lemma In_range (n i : Z) : 0 <= i < n -> In i (range n).
Proof.
  intros Hi. unfold range. apply in_map_iff. exists (Z.to_nat i).
  split; [lia | apply in_seq; lia].
Qed.

Lemma existsb_false_In {A} (f : A -> bool) (l : list A) (x : A) :
  existsb f l = false -> In x l -> f x = false.
Proof.
  intros H Hin. destruct (f x) eqn:E; [|reflexivity].
  assert (existsb f l = true) by (apply existsb_exists; eauto). congruence.
Qed.

Lemma filled_unmasked (v : f64) (s : list cell) :
  existsb cmask s = false ->
  map (fun c => if cmask c then v else cv c) s = map cv s.
Proof.
  intros H. apply map_ext_in. intros c Hc.
  now rewrite (existsb_false_In _ _ _ H Hc).
Qed.

Lemma held_dims (h : DataHandler) (a : ndarray) :
  nd_shape a = shape h ->
  dim a 0 = rows h /\ dim a 1 = cols h /\ dim a 2 = bands h.
Proof. intros H. unfold dim, rows, cols, bands. now rewrite H. Qed.

(** The pixel [(y, x)] of a line read whole is the pixel read alone. *)
Lemma line_plane_pixel (a : ndarray) (x y : Z) :
  0 <= y < dim a 0 -> 0 <= x < dim a 1 ->
  exists p s,
    line_plane a y = Some p /\ pixel_vector a y x = Some s
    /\ len p = dim a 1
    /\ In s p
    /\ (forall (B : Type) (g : list cell -> list B) (d : list B),
           nth (Z.to_nat x) (map g p) d = g s).
Proof.
  intros Hy Hx. unfold line_plane, pixel_vector.
  rewrite !resolve_index_in_range by assumption.
  do 2 eexists. split; [reflexivity | split; [reflexivity|]].
  split; [|split].
  - unfold len. rewrite length_map, range_length. lia.
  - apply in_map_iff. exists x. split; [reflexivity | now apply In_range].
  - intros B g d. rewrite map_map.
    exact (map_range_nth
             (fun c => g (map (fun b => nd_at a y c b) (range (dim a 2))))
             (dim a 1) x d Hx).
Qed.

(** X2.  For a cube held as an array, the spectrum [get_pixel_spectrum]
    returns for column [x] and row [y] is entry [x] of the line
    [extract_line_spectra] returns for row [y]; coordinates outside the
    cube give [None], negative ones included. *)
Theorem X2_pixel_spectrum_is_entry_of_line :
  forall (h : DataHandler) (a : ndarray) (x y : Z),
    is_loaded h = true ->
    held_as h a ->
    0 <= x < cols h ->
    0 <= y < rows h ->
    (exists line,
        extract_line_spectra h y = Some line
        /\ len line = cols h
        /\ get_pixel_spectrum h x y = Some (nth (Z.to_nat x) line []))
    /\ (forall x' y',
           x' < 0 \/ cols h <= x' \/ y' < 0 \/ rows h <= y' ->
           get_pixel_spectrum h x' y' = None).
Proof.
  intros h a x y Hl (Hkind & Hdata & Hshape) Hx Hy.
  destruct (held_dims h a Hshape) as (Hr & Hc & _).
  split.
  - destruct (line_plane_pixel a x y) as (p & s & Hp & Hs & Hlen & Hin & Hnth);
      [lia | lia |].
    unfold extract_line_spectra, get_pixel_spectrum. rewrite Hl. cbn [negb].
    replace (y <? 0) with false by (symmetry; apply Z.ltb_ge; lia).
    replace (y >=? rows h) with false
      by (symmetry; rewrite Z.geb_leb; apply Z.leb_gt; lia).
    replace (x <? 0) with false by (symmetry; apply Z.ltb_ge; lia).
    replace (x >=? cols h) with false
      by (symmetry; rewrite Z.geb_leb; apply Z.leb_gt; lia).
    cbn [orb].
    assert (Hmasked :
              exists line,
                option_map (filled_if_masked NaN) (line_plane a y) = Some line
                /\ len line = cols h
                /\ option_map (filled_vector_if_masked NaN) (pixel_vector a y x)
                   = Some (nth (Z.to_nat x) line [])).
    { rewrite Hp, Hs. cbn [option_map]. eexists. split; [reflexivity|].
      unfold filled_if_masked, filled, values, filled_vector_if_masked.
      destruct (is_masked p) eqn:Em.
      - split; [unfold len in *; rewrite length_map; lia|].
        rewrite Hnth. destruct (existsb cmask s) eqn:Es; [reflexivity|].
        now rewrite filled_unmasked.
      - split; [unfold len in *; rewrite length_map; lia|].
        rewrite Hnth. unfold is_masked in Em.
        now rewrite (existsb_false_In _ _ _ Em Hin). }
    destruct Hkind as [Hk | [Hk | [Hk Hm]]]; rewrite Hk, Hdata.
    + exact Hmasked.
    + exact Hmasked.
    + rewrite Hm, Hp, Hs. cbn [option_map]. eexists. split; [reflexivity|].
      unfold values. split; [unfold len in *; rewrite length_map; lia|].
      now rewrite Hnth.
  - intros x' y' Hout. unfold get_pixel_spectrum. rewrite Hl. cbn [negb].
    replace ((x' <? 0) || (x' >=? cols h) || (y' <? 0) || (y' >=? rows h))%bool
      with true; [reflexivity|].
    symmetry. rewrite !orb_true_iff, !Z.ltb_lt, !Z.geb_leb, !Z.leb_le. lia.
Qed.

End PixelFacts.

Lemma X2_pixel_spectrum_is_entry_of_line_witness :
  exists line,
    Handler.extract_line_spectra Examples.emit_first 0 = Some line
    /\ Handler.len line = Handler.cols Examples.emit_first
    /\ Accessors.get_pixel_spectrum Examples.emit_first 0 0
       = Some (nth (Z.to_nat 0) line []).
Proof.
  assert (Hdata : exists a, Handler.data Examples.emit_first = Some a
                            /\ NdArray.nd_shape a = Handler.shape Examples.emit_first).
  { vm_compute. eexists. split; reflexivity. }
  destruct Hdata as (a & Hdata & Hshape).
  refine (proj1 (X2_pixel_spectrum_is_entry_of_line Examples.emit_first a 0 0
                   _ _ _ _)).
  - vm_compute. reflexivity.
  - split; [left; vm_compute; reflexivity | split; assumption].
  - vm_compute. split; [discriminate | reflexivity].
  - vm_compute. split; [discriminate | reflexivity].
Defined.

Section WavelengthFacts.
Import Num NdArray Env PyStr Envi Handler Props Accessors Notions.








End WavelengthFacts.


(* ================================================================== *)
(** * Properties of [cleanup] *)
(* ================================================================== *)

Section CleanupFacts.
Import Num NdArray Env PyStr Envi Handler Props Accessors Notions.

Variable float_of_str : string -> option f64.
Variable float_repr : f64 -> string.
Variable envi_open : filesystem -> string -> string -> option SpyFile.
Variable cast_undef : Z.

(** The two header loaders change one attribute each, and read only the
    header, the shape and that attribute. *)
Lemma load_bbl_eta (h : DataHandler) :
  _load_bad_band_list_from_header h
  = with_bad_band_list (bad_band_list (_load_bad_band_list_from_header h)) h.
Proof.
  unfold _load_bad_band_list_from_header.
  destruct (header h); [destruct h; reflexivity|].
  destruct (load_bbl_body h); reflexivity.
Qed.

Lemma load_bbl_indep (h h' : DataHandler) :
  header h = header h' -> shape h = shape h' ->
  bad_band_list h = bad_band_list h' ->
  bad_band_list (_load_bad_band_list_from_header h)
  = bad_band_list (_load_bad_band_list_from_header h').
Proof.
  intros Hh Hs Hb.
  unfold _load_bad_band_list_from_header, load_bbl_body, bands.
  rewrite Hh, Hs, Hb. destruct (header h'); [exact Hb|].
  match goal with
  | |- bad_band_list (match ?x with _ => _ end) = _ => destruct x
  end; reflexivity.
Qed.

Lemma load_ignore_eta (h : DataHandler) :
  _load_data_ignore_value_from_header float_of_str h
  = with_data_ignore_value
      (data_ignore_value (_load_data_ignore_value_from_header float_of_str h))
      h.
Proof.
  unfold _load_data_ignore_value_from_header.
  destruct (header h); [destruct h; reflexivity|].
  destruct (load_ignore_body float_of_str h); reflexivity.
Qed.

Lemma load_ignore_indep (h h' : DataHandler) :
  header h = header h' ->
  data_ignore_value h = data_ignore_value h' ->
  data_ignore_value (_load_data_ignore_value_from_header float_of_str h)
  = data_ignore_value (_load_data_ignore_value_from_header float_of_str h').
Proof.
  intros Hh Hv.
  unfold _load_data_ignore_value_from_header, load_ignore_body.
  rewrite Hh, Hv. destruct (header h'); [exact Hv|].
  match goal with
  | |- data_ignore_value (match ?x with _ => _ end) = _ => destruct x
  end; reflexivity.
Qed.

(** X4.  After [cleanup] every reader returns [None] and both setters and
    the reload refuse, leaving the disk and the object as they are; the
    wavelengths and the bad-band list stay available; and the NetCDF
    dataset that a memory-mapped load left open is released, whenever
    closing it does not raise. *)
Theorem X4_cleanup_disables_readers_only :
  forall (nc_close : nc_file -> bool) (fs : filesystem) (h : DataHandler),
    let h' := cleanup nc_close h in
    (forall b, get_band_data h' b = None)
    /\ (forall x y, get_pixel_spectrum h' x y = None)
    /\ (forall line, extract_line_spectra h' line = None)
    /\ (forall r g b sp nd,
           get_rgb_composite cast_undef h' r g b sp nd = None)
    /\ (forall bbl, set_bad_band_list fs h' bbl = (fs, h', false))
    /\ (forall v, set_data_ignore_value float_repr fs h' v = (fs, h', false))
    /\ (forall new_temp_file spy_load spy_open_memmap,
           reload_from_header float_of_str envi_open new_temp_file spy_load
                              spy_open_memmap fs h' = (h', false))
    /\ (forall t, get_band_by_wavelength h' t = get_band_by_wavelength h t)
    /\ get_bad_band_list h' = get_bad_band_list h
    /\ (forall i, is_band_good h' i = is_band_good h i)
    /\ ((forall d, nc_dataset h = Some d -> nc_close d = true) ->
        nc_dataset h' = None)
    /\ (forall d, nc_dataset h = Some d -> nc_close d = false ->
                  nc_dataset h' = Some d).
Proof.
  intros nc_close fs h h'. repeat split; try reflexivity.
  - intros Hclose. subst h'. cbn [cleanup nc_dataset].
    destruct (nc_dataset h) as [d|]; [|reflexivity].
    now rewrite (Hclose d eq_refl).
  - intros d Hd Hfail. subst h'. cbn [cleanup nc_dataset].
    now rewrite Hd, Hfail.
Qed.

End CleanupFacts.

(* ================================================================== *)
(** * Properties of the forced-interleave header *)
(* ================================================================== *)

Section InterleaveFacts.
Import Num NdArray Env PyStr Envi Handler Props Accessors Notions.

Lemma join_split_char (sep : ascii) (s : string) :
  join (String sep EmptyString) (split_char sep s) = s.
Proof.
  induction s as [|c r IH]; [reflexivity|].
  simpl split_char. destruct (Ascii.eqb c sep) eqn:E.
  - apply Ascii.eqb_eq in E. subst c.
    destruct (split_char sep r) as [|x t] eqn:Er;
      [now elim (split_char_nonempty sep r)|].
    change (join (String sep "") ("" :: x :: t))
      with ("" ++ String sep "" ++ join (String sep "") (x :: t))%string.
    rewrite IH. reflexivity.
  - destruct (split_char sep r) as [|x t] eqn:Er;
      [now elim (split_char_nonempty sep r)|].
    destruct t as [|y t'].
    + simpl in *. now rewrite IH.
    + change (join (String sep "") (String c x :: y :: t'))
        with (String c x ++ String sep "" ++ join (String sep "") (y :: t'))%string.
      change (join (String sep "") (x :: y :: t'))
        with (x ++ String sep "" ++ join (String sep "") (y :: t'))%string in IH.
      simpl. now rewrite <- IH.
Qed.

Lemma join_snoc (sep : string) (l : list string) (x : string) :
  l <> [] -> join sep (l ++ [x]) = (join sep l ++ sep ++ x)%string.
Proof.
  induction l as [|a r IH]; [intros H; now elim H|]. intros _.
  destruct r as [|b r'].
  - reflexivity.
  - change (join sep ((a :: b :: r') ++ [x]))
      with (a ++ sep ++ join sep ((b :: r') ++ [x]))%string.
    rewrite IH by discriminate.
    change (join sep (a :: b :: r'))
      with (a ++ sep ++ join sep (b :: r'))%string.
    now rewrite !append_assoc.
Qed.

Lemma forced_lines_without_interleave (lines : list string) (il : string) :
  existsb is_interleave_line lines = false ->
  forced_interleave_lines lines il = lines ++ [interleave_line il].
Proof.
  intros H. unfold forced_interleave_lines. rewrite H.
  assert (Hmap : map (fun line => if is_interleave_line line
                                  then interleave_line il else line) lines
                 = lines).
  { rewrite <- (map_id lines) at 2. apply map_ext_in. intros line Hin.
    now rewrite (existsb_false_In _ _ _ H Hin). }
  rewrite Hmap.
  rewrite (fold_left_fixed _ (enumerate lines) (len lines)).
  - apply list_insert_at_length.
  - intros [i line] Hin.
    assert (Hi : i + 1 <= len lines).
    { unfold enumerate in Hin. apply in_combine_l, range_bound in Hin. lia. }
    destruct (mentions_dimension line); lia.
Qed.

(** X5.  The header written for a forced interleave differs from the
    original in its interleave lines only: each of them is replaced by
    the forced one and every other line is kept as it is; a header without
    any has the forced line added after its last character, on a line of
    its own. *)
Theorem X5_forced_interleave_rewrites_only_that_line :
  forall (header_content interleave : string),
    let lines := split_char newline header_content in
    forced_interleave_text header_content interleave
    = if existsb is_interleave_line lines
      then join (String newline EmptyString)
                (map (fun line => if is_interleave_line line
                                  then interleave_line interleave else line)
                     lines)
      else (header_content ++ String newline EmptyString
            ++ interleave_line interleave)%string.
Proof.
  intros s il lines. unfold forced_interleave_text. fold lines.
  destruct (existsb is_interleave_line lines) eqn:E.
  - unfold forced_interleave_lines. now rewrite E.
  - rewrite forced_lines_without_interleave by exact E.
    rewrite join_snoc by apply split_char_nonempty.
    unfold lines. now rewrite join_split_char.
Qed.

End InterleaveFacts.

(* ================================================================== *)
(** * Properties of the two header savers *)
(* ================================================================== *)

Section SaverFacts.
Import Num NdArray Env PyStr Envi Handler Props Accessors Notions.

Variable float_repr : f64 -> string.

Lemma write_then_read (fs fs' : filesystem) (path text content : string) :
  read_text fs path = Some text ->
  write_text fs path content = Some fs' ->
  read_text fs' path = Some content
  /\ forall p, p <> path -> fs' p = fs p.
Proof.
  unfold read_text, write_text.
  destruct (fs path) as [[t | d | n]|] eqn:E; try discriminate.
  destruct (tf_readable t) eqn:Er; [|discriminate]. intros _.
  destruct (tf_writable t); [|discriminate]. intros [= <-].
  split.
  - cbv beta. rewrite String.eqb_refl. reflexivity.
  - intros p Hp. apply String.eqb_neq in Hp. now rewrite Hp.
Qed.

Lemma header_path_some (h : DataHandler) :
  no_header_filename h = false -> header_filename h = Some (header_path h).
Proof.
  unfold no_header_filename, header_path.
  destruct (header_filename h); [reflexivity | discriminate].
Qed.


Lemma ignore_rewrite_appends (v : option f64) (lines : list string) :
  ignore_rewrite float_repr v lines
  = filter (fun line =>
              negb (startswith_any ["data ignore value"; "data_ignore_value"]
                                   (lower (strip line)))) lines
    ++ match v with Some x => [ignore_line float_repr x] | None => [] end.
Proof.
  unfold ignore_rewrite. destruct v as [x|]; [|now rewrite app_nil_r].
  now rewrite insert_index_is_length, list_insert_at_length.
Qed.

Lemma save_ignore_success fs h fs' h' :
  _save_data_ignore_value_to_header float_repr fs h = (fs', h', true) ->
  exists text,
    header_filename h = Some (header_path h)
    /\ read_text fs (header_path h) = Some text
    /\ read_text fs' (header_path h)
       = Some (writelines
                 (ignore_rewrite float_repr (data_ignore_value h)
                                 (readlines text)))
    /\ (forall p, p <> header_path h -> fs' p = fs p)
    /\ h' = with_header
              match data_ignore_value h with
              | Some x => dict_set "data ignore value" (HNum x) (header h)
              | None => del_ignore_key (header h)
              end h.
Proof.
  unfold _save_data_ignore_value_to_header.
  destruct (no_header_filename h) eqn:En; [discriminate|]. cbn [orb].
  destruct (negb (exists_ fs (header_path h))); [discriminate|].
  destruct (read_text fs (header_path h)) as [text|] eqn:Er; [|discriminate].
  destruct (write_text fs (header_path h) _) as [fs1|] eqn:Ew; [|discriminate].
  intros [= <- <-]. exists text.
  destruct (write_then_read _ _ _ _ _ Er Ew) as [Hread Hframe].
  auto using header_path_some.
Qed.


(** X7.  When [set_data_ignore_value] succeeds, the header file holds its
    former lines without those that start with [data ignore value] or
    [data_ignore_value], in their order, followed for a value by the new
    line as the last line; no other file has changed; and the object
    holds the value, in [data_ignore_value] and under [data ignore value]
    in its header. *)
Theorem X7_data_ignore_value_goes_to_the_end :
  forall (fs : filesystem) (h : DataHandler) (v : option f64)
         (fs' : filesystem) (h' : DataHandler),
    set_data_ignore_value float_repr fs h v = (fs', h', true) ->
    get_data_ignore_value h' = v
    /\ (forall x, v = Some x ->
                  lookup "data ignore value" (header h') = Some (HNum x))
    /\ exists hf text,
         header_filename h = Some hf
         /\ read_text fs hf = Some text
         /\ read_text fs' hf
            = Some (writelines
                      (filter
                         (fun line =>
                            negb (startswith_any
                                    ["data ignore value"; "data_ignore_value"]
                                    (lower (strip line))))
                         (readlines text)
                       ++ match v with
                          | Some x => [ignore_line float_repr x]
                          | None => []
                          end))
         /\ forall p, p <> hf -> fs' p = fs p.
Proof.
  intros fs h v fs' h'. unfold set_data_ignore_value.
  destruct (negb (is_loaded h) || negb (file_type_is h FEnvi))%bool;
    [discriminate|].
  intros Hs. apply save_ignore_success in Hs.
  destruct Hs as (text & Hhf & Hr & Hw & Hframe & ->).
  split; [reflexivity | split].
  - intros x ->. cbn. apply lookup_dict_set_same.
  - exists (header_path (with_data_ignore_value v h)), text.
    rewrite ignore_rewrite_appends in Hw. auto.
Qed.

End SaverFacts.

Lemma succeeded_triple {A B} (t : A * B * bool) :
  snd t = true -> t = (fst (fst t), snd (fst t), true).
Proof. destruct t as [[a b] c]. simpl. now intros ->. Qed.


Lemma X7_data_ignore_value_goes_to_the_end_witness :
  let t := Handler.set_data_ignore_value Examples.float_repr
             Examples.disk_terminated
             (Examples.opened Examples.disk_terminated)
             (Some (Num.Fin (-9999))) in
  Handler.get_data_ignore_value (snd (fst t)) = Some (Num.Fin (-9999))
  /\ exists hf text,
       Handler.header_filename (Examples.opened Examples.disk_terminated)
       = Some hf
       /\ Env.read_text Examples.disk_terminated hf = Some text
       /\ Env.read_text (fst (fst t)) hf
          = Some (PyStr.writelines
                    (filter
                       (fun line =>
                          negb (PyStr.startswith_any
                                  ["data ignore value"; "data_ignore_value"]
                                  (PyStr.lower (PyStr.strip line))))
                       (PyStr.readlines text)
                     ++ [Handler.ignore_line Examples.float_repr
                           (Num.Fin (-9999))])).
Proof.
  intros t.
  assert (Hs : snd t = true) by (vm_compute; reflexivity).
  destruct (X7_data_ignore_value_goes_to_the_end
              Examples.float_repr Examples.disk_terminated
              (Examples.opened Examples.disk_terminated)
              (Some (Num.Fin (-9999)))
              (fst (fst t)) (snd (fst t)) (succeeded_triple t Hs))
    as (Hget & _ & hf & text & Hhf & Hr & Hw & _).
  split; [exact Hget|]. exists hf, text. auto.
Defined.

(* ================================================================== *)
(** * Properties of the loaders *)
(* ================================================================== *)

Section LoaderFacts.
Import Num NdArray Env PyStr Envi Handler Introspector Props.
Import Accessors Notions LoadNotions.

(** Whatever the classification of three axes finds, the axis it settles
    on goes last and the two others keep their order. *)
Lemma chosen_axis_facts (dimensions : list string) (shape : list Z) :
  List.length dimensions = 3%nat ->
  List.length shape = 3%nat ->
  let k := chosen_spectral_index dimensions shape in
  let order := fst (_determine_emit_transpose dimensions shape) in
  0 <= k < 3
  /\ order = (if k =? 0 then Some [1; 2; 0]
              else if k =? 2 then None
              else Some [0; 2; 1])
  /\ apply_transpose EmptyString order dimensions = move_to_last k dimensions
  /\ apply_transpose 0 order shape = move_to_last k shape
  /\ (forall (V : Type) (a : cube V) (r c b : Z),
         transpose_cube order a r c b = at_split a k r c b)
  /\ _get_spectral_dimension_size shape dimensions = nth (Z.to_nat k) shape 0
  /\ nth 2 (apply_transpose 0 order shape) 0 = nth (Z.to_nat k) shape 0.
Proof.
  intros Hd Hs.
  destruct (three_elements _ Hd) as (n0 & n1 & n2 & ->).
  destruct (three_elements _ Hs) as (s0 & s1 & s2 & ->).
  unfold chosen_spectral_index, _get_spectral_dimension_size,
    _determine_emit_transpose, choose_spectral_index, spectral_dims.
  rewrite classify_three. cbn [filter dt_kind].
  destruct (classify_axis n0 s0), (classify_axis n1 s1),
    (classify_axis n2 s2); cbn; repeat split; try lia; reflexivity.
Qed.

(** X8.  For every 3-D variable, however its axes are classified, the
    transpose [_determine_emit_transpose] derives puts the axis it settled
    on last and keeps the two others in their order, on names, lengths
    and elements alike; [_get_spectral_dimension_size] is the length of
    that axis, which is the length of the last axis after the transpose. *)
Theorem X8_settled_axis_goes_last :
  forall (dimensions : list string) (shape : list Z),
    List.length dimensions = 3%nat ->
    List.length shape = 3%nat ->
    let k := chosen_spectral_index dimensions shape in
    let order := fst (_determine_emit_transpose dimensions shape) in
    0 <= k < 3
    /\ apply_transpose EmptyString order dimensions = move_to_last k dimensions
    /\ apply_transpose 0 order shape = move_to_last k shape
    /\ (forall (V : Type) (a : cube V) (r c b : Z),
           transpose_cube order a r c b = at_split a k r c b)
    /\ _get_spectral_dimension_size shape dimensions
       = nth (Z.to_nat k) shape 0
    /\ nth 2 (apply_transpose 0 order shape) 0 = nth (Z.to_nat k) shape 0.
Proof.
  intros dimensions shape Hd Hs k order.
  destruct (chosen_axis_facts dimensions shape Hd Hs)
    as (Hk & _ & Hn & Hsh & Hel & Hsize & Hlast).
  repeat split; try assumption; apply Hk.
Qed.

Lemma nd_shape_emit_fill (h : DataHandler) (a : ndarray) :
  nd_shape (_handle_emit_fill_values h a) = nd_shape a.
Proof.
  unfold _handle_emit_fill_values. destruct (file_type_is h FEmit); reflexivity.
Qed.

Lemma cv_emit_fill (h : DataHandler) (a : ndarray) (r c b : Z) :
  cv (nd_at (_handle_emit_fill_values h a) r c b) = cv (nd_at a r c b).
Proof.
  unfold _handle_emit_fill_values. destruct (file_type_is h FEmit); reflexivity.
Qed.

Lemma nd_shape_transpose_raw (order : option (list Z)) (v : nc_variable) :
  nd_shape (transpose_opt order (raw_array v))
  = apply_transpose 0 order (nv_shape v).
Proof. destruct order; reflexivity. Qed.

Lemma cv_transpose_raw (order : option (list Z)) (v : nc_variable) (r c b : Z) :
  cv (nd_at (transpose_opt order (raw_array v)) r c b)
  = transpose_cube order (nv_values v) r c b.
Proof. destruct order; reflexivity. Qed.

Lemma hd_error_In {A} (l : list A) (x : A) : hd_error l = Some x -> In x l.
Proof. destruct l; simpl; [discriminate | intros [= ->]; now left]. Qed.

(** X9.  A successful EMIT load in the default, memory-mapped mode
    stores the main variable (the first 3-D variable named [reflectance],
    [radiance] or [mask], else the first 3-D variable) in rows, columns,
    bands order: the axis the introspection settled on is last, the two
    others keep their order, and element [(r, c, b)] is the file's element
    at those indices.  The wavelengths are the file's, or [1 .. bands] when
    it has none; the header built for the product repeats the shape; the
    dataset stays open in [nc_dataset]. *)
Theorem X9_emit_load_stores_rows_cols_bands :
  forall (fs : filesystem) (h : DataHandler) (fname : string)
         (ncf : nc_file) (h' : DataHandler),
    fs fname = Some (ENetCDF ncf) ->
    (forall v, In v (nc_variables ncf) ->
               List.length (nv_shape v) = List.length (nv_dimensions v)) ->
    _load_emit_data fs h fname false = (h', true) ->
    exists (v : nc_variable) (a : ndarray),
      In v (three_d ncf)
      /\ (find (fun c => str_in (nv_name c) standard_names) (three_d ncf)
          = Some v
          \/ (find (fun c => str_in (nv_name c) standard_names) (three_d ncf)
              = None
              /\ hd_error (three_d ncf) = Some v))
      /\ is_loaded h' = true
      /\ file_type h' = Some FEmit
      /\ use_memmap h' = true
      /\ nc_dataset h' = Some ncf
      /\ data h' = Some a
      /\ nd_shape a = shape h'
      /\ shape h'
         = move_to_last (chosen_spectral_index (nv_dimensions v) (nv_shape v))
                        (nv_shape v)
      /\ (forall r c b,
             cv (nd_at a r c b)
             = at_split (nv_values v)
                        (chosen_spectral_index (nv_dimensions v) (nv_shape v))
                        r c b)
      /\ wavelengths h'
         = Some (WArr match emit_file_wavelengths ncf with
                      | Some w => w
                      | None => arange1 (bands h')
                      end)
      /\ header_matches_shape h'.
Proof.
  intros fs h fname ncf h' Hfs Hshapes.
  unfold _load_emit_data. rewrite Hfs.
  change (filter (fun v => Nat.eqb (List.length (nv_dimensions v)) 3)
                 (nc_variables ncf)) with (three_d ncf).
  change ["reflectance"; "radiance"; "mask"] with standard_names.
  set (found := find (fun c => str_in (nv_name c) standard_names) (three_d ncf)).
  assert (Hmain :
            forall v,
              match found with Some c => Some c | None => hd_error (three_d ncf) end
              = Some v ->
              In v (three_d ncf)
              /\ (found = Some v
                  \/ (found = None /\ hd_error (three_d ncf) = Some v))).
  { intros v. subst found.
    destruct (find _ (three_d ncf)) as [c|] eqn:Ef.
    - intros [= ->]. split; [|now left]. now apply find_some in Ef.
    - intros Hhd. split; [now apply hd_error_In | now right]. }
  destruct (match found with Some c => Some c | None => hd_error (three_d ncf) end)
    as [v|] eqn:Emain; [|discriminate].
  destruct (Hmain v eq_refl) as [Hin Hsel].
  assert (Hd : List.length (nv_dimensions v) = 3%nat).
  { unfold three_d in Hin. apply filter_In in Hin as [_ Hl].
    now apply Nat.eqb_eq in Hl. }
  assert (Hs : List.length (nv_shape v) = 3%nat).
  { rewrite <- Hd. apply Hshapes. unfold three_d in Hin.
    now apply filter_In in Hin as [Hin _]. }
  destruct (chosen_axis_facts _ _ Hd Hs)
    as (Hk & _ & _ & Hsh & Hel & Hsize & Hlast).
  intros [= <-]. exists v. eexists.
  split; [exact Hin | split; [exact Hsel|]].
  split; [reflexivity | split; [reflexivity | split; [reflexivity|]]].
  split; [reflexivity | split; [reflexivity | split; [reflexivity|]]].
  cbn [shape data wavelengths].
  assert (Hshape :
            nd_shape
              (_handle_emit_fill_values h
                 (transpose_opt
                    (fst (_determine_emit_transpose (nv_dimensions v)
                                                    (nv_shape v)))
                    (raw_array v)))
            = move_to_last
                (chosen_spectral_index (nv_dimensions v) (nv_shape v))
                (nv_shape v)).
  { rewrite nd_shape_emit_fill, nd_shape_transpose_raw. exact Hsh. }
  split; [exact Hshape | split; [|split]].
  - intros r c b. rewrite cv_emit_fill, cv_transpose_raw. apply Hel.
  - do 2 f_equal. fold (emit_file_wavelengths ncf).
    destruct (emit_file_wavelengths ncf) as [w|]; [reflexivity|].
    unfold bands. cbn [shape].
    rewrite nd_shape_emit_fill, nd_shape_transpose_raw, Hlast.
    unfold dim. now rewrite nd_shape_transpose_raw, Hlast.
  - repeat split.
Qed.

(** X10.  A successful AVIRIS-3 load in the default, memory-mapped mode
    takes the variable [reflectance] of the group [reflectance] when the
    file has that group, else [radiance] of [radiance], and always moves
    the first axis last: the stored shape is the file's [(n1, n2, n0)] and
    element [(r, c, b)] is the file's element [(b, r, c)].  The wavelengths
    are the group's, or [1 .. bands] when it has none; the header built for
    the product repeats the shape; the dataset stays open in
    [nc_dataset]. *)
Theorem X10_aviris3_load_moves_first_axis_last :
  forall (fs : filesystem) (h : DataHandler) (fname : string)
         (h' : DataHandler),
    _load_aviris3_data fs h fname false = (h', true) ->
    exists (ncf : nc_file) (name : string) (g : nc_group)
           (v : nc_variable) (a : ndarray),
      fs fname = Some (ENetCDF ncf)
      /\ name = (if has_group "reflectance" ncf then "reflectance"
                 else "radiance")
      /\ lookup name (nc_groups ncf) = Some g
      /\ In v (grp_variables g)
      /\ nv_name v = name
      /\ is_loaded h' = true
      /\ file_type h' = Some FAviris3
      /\ use_memmap h' = true
      /\ nc_dataset h' = Some ncf
      /\ data h' = Some a
      /\ nd_shape a = shape h'
      /\ shape h' = [nth 1 (nv_shape v) 0; nth 2 (nv_shape v) 0;
                     nth 0 (nv_shape v) 0]
      /\ (forall r c b, cv (nd_at a r c b) = nv_values v b r c)
      /\ wavelengths h'
         = Some (WArr match lookup "wavelength" (grp_vectors g) with
                      | Some w => w
                      | None => arange1 (bands h')
                      end)
      /\ header_matches_shape h'.
Proof.
  intros fs h fname h'. unfold _load_aviris3_data.
  destruct (fs fname) as [[t | d | ncf]|]; try discriminate.
  assert (Hgo :
            forall name,
              match lookup name (nc_groups ncf) with
              | Some data_group =>
                  match find (fun v => String.eqb (nv_name v) name)
                             (grp_variables data_group) with
                  | Some v =>
                      (MkHandler (spy_file h)
                         (Some (_handle_aviris3_fill_values
                                  (transpose (raw_array v) [1; 2; 0]) name))
                         (netcdf_header
                            (nd_shape
                               (_handle_aviris3_fill_values
                                  (transpose (raw_array v) [1; 2; 0]) name))
                            "AVIRIS-3"
                            (_get_aviris3_product_level (PyPath.name fname)))
                         (Some (WArr
                                  match lookup "wavelength"
                                               (grp_vectors data_group) with
                                  | Some w => w
                                  | None => arange1 (dim (raw_array v) 0)
                                  end))
                         (nd_shape
                            (_handle_aviris3_fill_values
                               (transpose (raw_array v) [1; 2; 0]) name))
                         (Some fname) (header_filename h) true (negb false)
                         (Some FAviris3) (fill_value h) (bad_band_list h)
                         (data_ignore_value h) (Some ncf), true)
                  | None => (h, false)
                  end
              | None => (h, false)
              end = (h', true) ->
              exists (g : nc_group) (v : nc_variable) (a : ndarray),
                lookup name (nc_groups ncf) = Some g
                /\ In v (grp_variables g)
                /\ nv_name v = name
                /\ is_loaded h' = true
                /\ file_type h' = Some FAviris3
                /\ use_memmap h' = true
                /\ nc_dataset h' = Some ncf
                /\ data h' = Some a
                /\ nd_shape a = shape h'
                /\ shape h' = [nth 1 (nv_shape v) 0; nth 2 (nv_shape v) 0;
                               nth 0 (nv_shape v) 0]
                /\ (forall r c b, cv (nd_at a r c b) = nv_values v b r c)
                /\ wavelengths h'
                   = Some (WArr match lookup "wavelength" (grp_vectors g) with
                                | Some w => w
                                | None => arange1 (bands h')
                                end)
                /\ header_matches_shape h').
  { intros name.
    destruct (lookup name (nc_groups ncf)) as [g|]; [|discriminate].
    destruct (find _ (grp_variables g)) as [v|] eqn:Ef; [|discriminate].
    apply find_some in Ef as [Hin Hname]. apply String.eqb_eq in Hname.
    intros [= <-]. exists g, v. eexists.
    split; [reflexivity | split; [exact Hin | split; [exact Hname|]]].
    repeat split. }
  destruct (has_group "reflectance" ncf) eqn:Eg.
  - intros H. destruct (Hgo "reflectance" H) as (g & v & a & Hrest).
    exists ncf, "reflectance", g, v, a. rewrite Eg.
    split; [reflexivity | split; [reflexivity | exact Hrest]].
  - destruct (has_group "radiance" ncf); [|discriminate].
    intros H. destruct (Hgo "radiance" H) as (g & v & a & Hrest).
    exists ncf, "radiance", g, v, a. rewrite Eg.
    split; [reflexivity | split; [reflexivity | exact Hrest]].
Qed.

End LoaderFacts.

Lemma X8_settled_axis_goes_last_witness :
  let dimensions := ["y"; "wavelength"; "bands"] in
  let shape := [10; 300; 224] in
  Props.chosen_spectral_index dimensions shape = 1
  /\ Introspector.apply_transpose 0
       (fst (Introspector._determine_emit_transpose dimensions shape)) shape
     = [10; 224; 300]
  /\ Handler._get_spectral_dimension_size shape dimensions = 300.
Proof.
  intros dimensions shape.
  destruct (X8_settled_axis_goes_last dimensions shape eq_refl eq_refl)
    as (_ & _ & Hsh & _ & Hsize & _).
  split; [reflexivity | split].
  - rewrite Hsh. reflexivity.
  - rewrite Hsize. reflexivity.
Defined.

Lemma succeeded_pair {A} (t : A * bool) : snd t = true -> t = (fst t, true).
Proof. destruct t as [a b]. simpl. now intros ->. Qed.

Lemma X9_emit_load_stores_rows_cols_bands_witness :
  let r := Handler._load_emit_data Fixtures.emit_l1b_disk Handler.init
             Fixtures.emit_l1b_path false in
  exists (v : Env.nc_variable) (a : NdArray.ndarray),
    Handler.data (fst r) = Some a
    /\ Handler.shape (fst r)
       = Props.move_to_last
           (Props.chosen_spectral_index (Env.nv_dimensions v) (Env.nv_shape v))
           (Env.nv_shape v)
    /\ Handler.wavelengths (fst r)
       = Some (Handler.WArr (NdArray.arange1 (Handler.bands (fst r)))).
Proof.
  intros r.
  assert (Hs : snd r = true) by (vm_compute; reflexivity).
  destruct (X9_emit_load_stores_rows_cols_bands
              Fixtures.emit_l1b_disk Handler.init Fixtures.emit_l1b_path
              Fixtures.emit_bands_first (fst r) eq_refl)
    as (v & a & _ & _ & _ & _ & _ & _ & Hdata & _ & Hshape & _ & Hwl & _).
  - intros v [<- | []]. reflexivity.
  - exact (succeeded_pair r Hs).
  - exists v, a. split; [exact Hdata | split; [exact Hshape | exact Hwl]].
Defined.

Lemma X10_aviris3_load_moves_first_axis_last_witness :
  let r := Handler._load_aviris3_data Fixtures.av3_disk Handler.init
             Fixtures.av3_path false in
  exists (v : Env.nc_variable) (a : NdArray.ndarray),
    Handler.data (fst r) = Some a
    /\ Handler.shape (fst r)
       = [nth 1 (Env.nv_shape v) 0; nth 2 (Env.nv_shape v) 0;
          nth 0 (Env.nv_shape v) 0]
    /\ forall r c b,
         NdArray.cv (NdArray.nd_at a r c b) = Env.nv_values v b r c.
Proof.
  intros r.
  assert (Hs : snd r = true) by (vm_compute; reflexivity).
  destruct (X10_aviris3_load_moves_first_axis_last
              Fixtures.av3_disk Handler.init Fixtures.av3_path (fst r)
              (succeeded_pair r Hs))
    as (ncf & name & g & v & a & _ & _ & _ & _ & _ & _ & _ & _ & _ & Hdata & _
        & Hshape & Hel & _).
  exists v, a. split; [exact Hdata | split; [exact Hshape | exact Hel]].
Defined.

(* ================================================================== *)
(** * Properties of the ENVI loader *)
(* ================================================================== *)

Section EnviLoadFacts.
Import Num NdArray Env PyStr Envi Handler Introspector Props.
Import Accessors Notions LoadNotions.

Variable float_of_str : string -> option f64.
Variable envi_open : filesystem -> string -> string -> option SpyFile.
Variable new_temp_file : filesystem -> option string.
Variable spy_load : SpyFile -> option ndarray.
Variable spy_open_memmap : SpyFile -> option (option ndarray).

Lemma load_bbl_body_some (h : DataHandler) (l : list Z) :
  bad_band_list h = None ->
  load_bbl_body h = Some (Some l) -> len l = bands h.
Proof.
  intros Hnone. unfold load_bbl_body. rewrite Hnone.
  destruct (find_key _ (header h)) as [key|]; [|discriminate].
  destruct (lookup key (header h)) as [bbl_data|]; [|discriminate].
  destruct (negb (truthy bbl_data)); [discriminate|].
  match goal with
  | |- match ?a with _ => _ end = _ -> _ => destruct a as [[bbl|]|]
  end; try discriminate.
  destruct (negb (len bbl =? bands h)) eqn:E; [discriminate|].
  intros [= <-]. now apply negb_false_iff, Z.eqb_eq in E.
Qed.

Lemma load_bbl_fits (h : DataHandler) :
  bad_band_list h = None -> bbl_fits (_load_bad_band_list_from_header h).
Proof.
  intros Hnone. unfold bbl_fits.
  assert (Hb : bands (_load_bad_band_list_from_header h) = bands h)
    by (rewrite load_bbl_eta; reflexivity).
  rewrite Hb. unfold _load_bad_band_list_from_header.
  destruct (header h); [now rewrite Hnone|].
  destruct (load_bbl_body h) as [[l|]|] eqn:Eb; cbn; try exact I.
  now apply load_bbl_body_some.
Qed.

Lemma path_ok_exists (fs : filesystem) (p : option string) :
  negb (path_ok fs p) = false -> exists s, p = Some s /\ exists_ fs s = true.
Proof.
  unfold path_ok. destruct p as [s|]; [|discriminate].
  intros H. apply negb_false_iff, andb_true_iff in H as [_ H]. eauto.
Qed.

Lemma create_spy_file_cases (fs : filesystem) (hf df interleave : string)
  (spy : SpyFile) :
  _create_spy_file_with_interleave envi_open new_temp_file fs hf df interleave
  = Some spy ->
  envi_open fs hf df = Some spy
  \/ exists text temp_name,
       read_text fs hf = Some text
       /\ new_temp_file fs = Some temp_name
       /\ envi_open
            (with_temp_header fs temp_name
                              (forced_interleave_text text interleave))
            temp_name df
          = Some spy.
Proof.
  unfold _create_spy_file_with_interleave.
  destruct (read_text fs hf) as [text|]; [|now left].
  destruct (new_temp_file fs) as [temp_name|]; [|now left].
  destruct (envi_open (with_temp_header fs temp_name _) temp_name df)
    as [spy'|] eqn:E; [|now left].
  intros [= <-]. right. exists text, temp_name. auto.
Qed.

(** X11.  A successful ENVI load has found a header and a data file that
    both exist, the one given and the other by the search for its
    companion.  Without an interleave override it has opened them with
    [envi.open]; with one, it has opened the data file with a temporary
    copy of the header whose interleave lines are the forced one, or,
    that failing, with the header itself.  The object records the two
    paths, the opened file, its metadata and shape and what [load] (to
    RAM) or [open_memmap] returned, and is marked loaded, of type ENVI.
    An object that had no bad-band list ends with none or with one that
    has one entry per band.  A NetCDF dataset left open by an earlier load
    stays in [nc_dataset]. *)
Theorem X11_envi_load_records_what_it_opened :
  forall (fs : filesystem) (h : DataHandler) (fname : string)
         (load_to_ram : bool) (force_interleave : option string)
         (h' : DataHandler),
    _load_envi_data_original float_of_str envi_open new_temp_file spy_load
                             spy_open_memmap fs h fname load_to_ram
                             force_interleave
    = (h', true) ->
    exists (hf df : string) (spy : SpyFile),
      (if endswith ".hdr" fname
       then hf = fname /\ _find_data_file fs fname = Some df
       else df = fname /\ _find_header_file fs fname = Some hf)
      /\ exists_ fs hf = true
      /\ exists_ fs df = true
      /\ (envi_open fs hf df = Some spy
          \/ exists interleave text temp_name,
               force_interleave = Some interleave
               /\ interleave <> EmptyString
               /\ read_text fs hf = Some text
               /\ new_temp_file fs = Some temp_name
               /\ envi_open
                    (with_temp_header fs temp_name
                       (forced_interleave_text text interleave))
                    temp_name df
                  = Some spy)
      /\ (force_interleave = None -> envi_open fs hf df = Some spy)
      /\ header_filename h' = Some hf
      /\ filename h' = Some df
      /\ spy_file h' = Some spy
      /\ header h' = metadata spy
      /\ shape h' = spy_shape spy
      /\ (if load_to_ram then option_map Some (spy_load spy)
          else spy_open_memmap spy) = Some (data h')
      /\ is_loaded h' = true
      /\ file_type h' = Some FEnvi
      /\ use_memmap h' = negb load_to_ram
      /\ nc_dataset h' = nc_dataset h
      /\ (bad_band_list h = None -> bbl_fits h').
Proof.
  intros fs h fname ram force h'. unfold _load_envi_data_original.
  destruct (if endswith ".hdr" fname
            then (Some fname, _find_data_file fs fname)
            else (_find_header_file fs fname, Some fname))
    as [header_file data_file] eqn:Epaths.
  destruct (negb (path_ok fs header_file)) eqn:Eh; [discriminate|].
  destruct (negb (path_ok fs data_file)) eqn:Ed; [discriminate|].
  apply path_ok_exists in Eh as (hf & -> & Hhf).
  apply path_ok_exists in Ed as (df & -> & Hdf).
  cbv zeta.
  match goal with
  | |- match ?o with Some _ => _ | None => _ end = _ -> _ =>
      destruct o as [spy|] eqn:Eo; [|discriminate]
  end.
  assert (Hopened :
            (envi_open fs hf df = Some spy
             \/ exists interleave text temp_name,
                  force = Some interleave
                  /\ interleave <> EmptyString
                  /\ read_text fs hf = Some text
                  /\ new_temp_file fs = Some temp_name
                  /\ envi_open
                       (with_temp_header fs temp_name
                          (forced_interleave_text text interleave))
                       temp_name df
                     = Some spy)
            /\ (force = None -> envi_open fs hf df = Some spy)).
  { destruct force as [interleave|]; [|split; [now left | intros _; exact Eo]].
    split; [|discriminate].
    destruct (String.eqb interleave EmptyString) eqn:Ei; [now left|].
    apply String.eqb_neq in Ei.
    destruct (create_spy_file_cases _ _ _ _ _ Eo)
      as [Hplain | (text & temp_name & Hr & Ht & Ho)]; [now left|].
    right. exists interleave, text, temp_name. auto. }
  clear Eo.
  match goal with
  | |- context [_load_bad_band_list_from_header ?a] =>
      pose proof (load_bbl_eta a) as Ea;
      pose proof (load_bbl_fits a) as Hfits;
      set (ha := _load_bad_band_list_from_header a) in *;
      pose proof (load_ignore_eta float_of_str ha) as Fa;
      pose proof (load_ignore_keeps_bbl float_of_str ha) as Hkeep;
      set (hb := _load_data_ignore_value_from_header float_of_str ha) in *
  end.
  destruct (if ram then option_map Some (spy_load spy)
            else spy_open_memmap spy) as [data'|] eqn:Eread; [|discriminate].
  intros [= <-]. exists hf, df, spy.
  assert (Hpaths :
            if endswith ".hdr" fname
            then hf = fname /\ _find_data_file fs fname = Some df
            else df = fname /\ _find_header_file fs fname = Some hf).
  { destruct (endswith ".hdr" fname); injection Epaths as E1 E2;
      split; congruence. }
  split; [exact Hpaths|].
  split; [exact Hhf | split; [exact Hdf|]].
  split; [exact (proj1 Hopened) | split; [exact (proj2 Hopened)|]].
  cbn [header_filename filename spy_file header shape data is_loaded
       file_type use_memmap bad_band_list nc_dataset].
  assert (Hb : hb = with_data_ignore_value (data_ignore_value hb)
                      (with_bad_band_list (bad_band_list ha)
                         (MkHandler (Some spy) (data h) (metadata spy)
                            (Some match df_centers (spy_data spy) with
                                  | Some c => WArr c
                                  | None => WUnsized
                                  end)
                            (spy_shape spy) (Some df) (Some hf) (is_loaded h)
                            (use_memmap h) (Some FEnvi) (fill_value h)
                            (bad_band_list h) (data_ignore_value h)
                            (nc_dataset h))))
    by (rewrite Fa at 1; rewrite Ea at 1; reflexivity).
  rewrite Hb. cbn.
  repeat split; [exact Eread|].
  intros Hnone. specialize (Hfits Hnone). unfold bbl_fits in *.
  cbn [bad_band_list bands shape].
  assert (Hbands : bands ha = nth 2 (spy_shape spy) 0)
    by (rewrite Ea; reflexivity).
  destruct (bad_band_list ha); [|exact I].
  unfold bands at 1. cbn [shape]. now rewrite <- Hbands.
Qed.

End EnviLoadFacts.

Lemma X11_envi_load_records_what_it_opened_witness :
  let r := Handler._load_envi_data_original Examples.float_of_str
             Examples.envi_open Examples.new_temp_file Envi.load
             Envi.open_memmap Examples.disk_terminated Handler.init
             "cube.hdr" true (Some "BIP") in
  exists (hf df : string) (spy : Envi.SpyFile),
    Handler._find_data_file Examples.disk_terminated "cube.hdr" = Some df
    /\ Handler.header_filename (fst r) = Some hf
    /\ Handler.filename (fst r) = Some df
    /\ Handler.spy_file (fst r) = Some spy
    /\ Handler.shape (fst r) = Envi.spy_shape spy
    /\ LoadNotions.bbl_fits (fst r).
Proof.
  intros r.
  assert (Hs : snd r = true) by (vm_compute; reflexivity).
  destruct (X11_envi_load_records_what_it_opened
              Examples.float_of_str Examples.envi_open Examples.new_temp_file
              Envi.load Envi.open_memmap
              Examples.disk_terminated Handler.init "cube.hdr" true
              (Some "BIP") (fst r) (succeeded_pair r Hs))
    as (hf & df & spy & Hpaths & _ & _ & _ & _ & Hh & Hf & Hspy & _ & Hshape
        & _ & _ & _ & _ & _ & Hfits).
  exists hf, df, spy. change (PyStr.endswith ".hdr" "cube.hdr") with true in Hpaths.
  destruct Hpaths as [_ Hfind].
  split; [exact Hfind | split; [exact Hh | split; [exact Hf | split]]].
  - exact Hspy.
  - split; [exact Hshape|]. apply Hfits. reflexivity.
Defined.

(* ================================================================== *)
(** * The header round trip on a concrete file *)
(* ================================================================== *)

Lemma bbl_round_trip_of_terminated_header_witness :
  exists (fs' : Env.filesystem) (h' : Handler.DataHandler),
    Handler.set_bad_band_list Examples.disk_terminated
      (Examples.opened Examples.disk_terminated) (Some [1; 0])
    = (fs', h', true)
    /\ Handler.get_bad_band_list h' = Some [1; 0]
    /\ exists h1 : Handler.DataHandler,
         Handler.load_envi_data Examples.float_of_str
           (Envi.open Examples.float_of_str) Examples.new_temp_file Envi.load
           Envi.open_memmap fs' Handler.init "cube.bsq" true None
         = (h1, true)
         /\ Handler.get_bad_band_list h1 = Some [1; 0].
Proof.
  pose (h := Examples.opened Examples.disk_terminated).
  pose (text := Examples.header_text).
  assert (Hhd : exists hd,
             Envi.read_envi_header
               (PyStr.writelines
                  (Handler.bbl_rewrite None (PyStr.readlines text)))
             = Some hd
             /\ Envi.has_required hd = true
             /\ Envi.header_int hd "lines" = Some 1
             /\ Envi.header_int hd "samples" = Some 1
             /\ Envi.header_int hd "bands" = Some (Handler.bands h)).
  { eexists. split; [vm_compute; reflexivity|].
    vm_compute. auto. }
  destruct Hhd as (hd & Hhd & Hreq & Hlines & Hsamples & Hbands).
  assert (H1 : Handler.is_loaded h = true) by (vm_compute; reflexivity).
  assert (H2 : Handler.file_type h = Some Handler.FEnvi)
    by (vm_compute; reflexivity).
  assert (H3 : Handler.header_filename h = Some "cube.hdr")
    by (vm_compute; reflexivity).
  assert (H4 : "cube.hdr" <> "") by discriminate.
  assert (H5 : "cube.bsq" <> "") by discriminate.
  assert (H6 : Examples.disk_terminated "cube.hdr"
               = Some (Env.EText (Env.TextFile text true true)))
    by reflexivity.
  assert (H7 : Examples.disk_terminated "cube.bsq"
               = Some (Env.EData Examples.cube_data))
    by reflexivity.
  assert (H8 : forallb Props.terminated_line (PyStr.readlines text) = true)
    by (vm_compute; reflexivity).
  assert (H9 : [1; 0] <> @nil Z) by discriminate.
  assert (H10 : Handler.len [1; 0] = Handler.bands h)
    by (vm_compute; reflexivity).
  assert (H11 : forallb Props.zero_or_one [1; 0] = true) by reflexivity.
  destruct (bbl_round_trip_of_terminated_header
              Examples.float_of_str eq_refl eq_refl
              Examples.disk_terminated h [1; 0] "cube.hdr" "cube.bsq" text
              Examples.cube_data hd 1 1
              H1 H2 H3 H4 H5 H6 H7 H8 H9 H10 H11 Hhd Hreq Hlines Hsamples
              Hbands)
    as (fs' & h' & Hset & Hget & _ & Hload).
  exists fs', h'. split; [exact Hset | split; [exact Hget|]].
  assert (Hfind : Handler._find_header_file fs' "cube.bsq" = Some "cube.hdr").
  { assert (Hfs : fs' = fst (fst (Handler.set_bad_band_list
                                    Examples.disk_terminated h (Some [1; 0]))))
      by (now rewrite Hset).
    rewrite Hfs. vm_compute. reflexivity. }
  apply (Hload Examples.new_temp_file Handler.init true);
    [reflexivity | reflexivity | reflexivity|].
  exact Hfind.
Defined.

Lemma bbl_removal_for_every_header_witness :
  exists (fs' : Env.filesystem) (h' : Handler.DataHandler),
    Handler.set_bad_band_list Examples.disk_unterminated
      (Examples.opened Examples.disk_unterminated) None
    = (fs', h', true)
    /\ Handler.get_bad_band_list h' = None
    /\ Env.read_text fs' "cube.hdr"
       = Some (PyStr.writelines
                 (Handler.bbl_rewrite None
                    (PyStr.readlines Examples.header_text_unterminated))).
Proof.
  pose (h := Examples.opened Examples.disk_unterminated).
  assert (H1 : Handler.is_loaded h = true) by (vm_compute; reflexivity).
  assert (H2 : Handler.file_type h = Some Handler.FEnvi)
    by (vm_compute; reflexivity).
  assert (H3 : Handler.header_filename h = Some "cube.hdr")
    by (vm_compute; reflexivity).
  assert (H4 : "cube.hdr" <> "") by discriminate.
  assert (H6 : Examples.disk_unterminated "cube.hdr"
               = Some (Env.EText
                         (Env.TextFile Examples.header_text_unterminated
                                       true true)))
    by reflexivity.
  assert (H7 : Examples.disk_unterminated "cube.bsq"
               = Some (Env.EData Examples.cube_data))
    by reflexivity.
  destruct (bbl_removal_for_every_header
              Examples.float_of_str Examples.disk_unterminated h
              "cube.hdr" "cube.bsq" Examples.header_text_unterminated
              Examples.cube_data H1 H2 H3 H4 H6 H7)
    as (fs' & h' & Hset & Hget & Hread & _).
  exists fs', h'. auto.
Defined.

(* ================================================================== *)
(** * Properties of the band-selection helpers *)
(* ================================================================== *)

Section BandChoiceFacts.
Import Num NdArray Env PyStr Envi Handler Props Accessors Notions.
Import Toolbox ToolNotions.

(** [np.argmin] answers with a position of the array, NaN or not. *)
Lemma argmin_from_range (l : list f64) :
  forall (i best_i : Z) (best : f64),
    let k := argmin_from l i best_i best in
    k = best_i \/ i <= k < i + len l.
Proof.
  induction l as [|x r IH]; intros i best_i best k; [now left|].
  subst k. cbn [argmin_from].
  destruct (isnan best); [now left|].
  destruct (isnan x || flt x best)%bool.
  - right. destruct (IH (i + 1) i x) as [-> | H];
      unfold len in *; cbn [List.length]; lia.
  - destruct (IH (i + 1) best_i best) as [-> | H]; [now left | right].
    unfold len in *. cbn [List.length]. lia.
Qed.

Lemma argmin_range (l : list f64) : l <> [] -> 0 <= argmin l < len l.
Proof.
  destruct l as [|x r]; [intros H; now elim H|]. intros _. unfold argmin.
  destruct (argmin_from_range r 1 0 x) as [-> | H];
    unfold len in *; cbn [List.length]; lia.
Qed.

Lemma band_index_for_range (w : list f64) (t : f64) :
  w <> [] -> 0 <= band_index_for w t < len w.
Proof.
  intros Hne. unfold band_index_for.
  replace (len w) with (len (abs_diff_to w t))
    by (unfold abs_diff_to, len; now rewrite length_map).
  apply argmin_range. destruct w; [now elim Hne | discriminate].
Qed.

(** X13.  [estimate_optimal_rgb_bands] answers [(29, 19, 9)] without
    wavelengths and [(-1, -1, -1)] for an empty array.  For every other
    array it answers with three positions of the array, NaN or not, and,
    as soon as the array has two bands, never with three equal ones. *)
Theorem X13_optimal_bands_are_in_range_and_not_all_equal :
  estimate_optimal_rgb_bands None = (29, 19, 9)
  /\ estimate_optimal_rgb_bands (Some []) = (-1, -1, -1)
  /\ forall (w : list f64) (r g b : Z),
       w <> [] ->
       estimate_optimal_rgb_bands (Some w) = (r, g, b) ->
       (0 <= r < len w /\ 0 <= g < len w /\ 0 <= b < len w)
       /\ (2 <= len w -> ~ (r = g /\ g = b)).
Proof.
  split; [reflexivity | split; [reflexivity|]].
  intros w r g b Hne. unfold estimate_optimal_rgb_bands.
  destruct w as [|x w']; [now elim Hne|].
  cbv beta iota zeta. remember (x :: w') as w eqn:Ew.
  destruct (if fle (np_max w) (Fin 1000) then _ else _)
    as [[target_red target_green] target_blue].
  pose proof (band_index_for_range w target_red Hne) as Hr.
  pose proof (band_index_for_range w target_green Hne) as Hg.
  pose proof (band_index_for_range w target_blue Hne) as Hb.
  destruct ((band_index_for w target_red =? band_index_for w target_green)
            && (band_index_for w target_green =? band_index_for w target_blue))%bool
    eqn:Esame.
  - intros [= <- <- <-].
    assert (Hn : 1 <= len w) by (rewrite Ew; unfold len; cbn [List.length]; lia).
    assert (H34 : 0 <= len w * 3 / 4) by (apply Z.div_pos; lia).
    assert (H12 : 0 <= len w / 2) by (apply Z.div_pos; lia).
    assert (H14 : 0 <= len w / 4) by (apply Z.div_pos; lia).
    split; [lia|].
    intros H2 [E1 E2].
    assert (Hr4 : len w / 4 < len w * 3 / 4).
    { pose proof (Z.div_mod (len w) 4 ltac:(lia)) as D1.
      pose proof (Z.mod_pos_bound (len w) 4 ltac:(lia)) as M1.
      pose proof (Z.div_mod (len w * 3) 4 ltac:(lia)) as D2.
      pose proof (Z.mod_pos_bound (len w * 3) 4 ltac:(lia)) as M2.
      lia. }
    pose proof (Z.div_mod (len w) 4 ltac:(lia)) as D1.
    pose proof (Z.mod_pos_bound (len w) 4 ltac:(lia)) as M1.
    lia.
  - intros [= <- <- <-]. split; [tauto|].
    intros _ [E1 E2]. rewrite E1, E2, !Z.eqb_refl in Esame. discriminate.
Qed.

Lemma scaled_div (n num : Z) :
  0 <= n -> 0 < num -> Utils.scaled n num 10 = n * num / 10.
Proof.
  intros Hn Hnum. unfold Utils.scaled, Qtrunc.
  assert (H0 : Qle_bool 0 (inject_Z n * (num # Z.to_pos 10)) = true).
  { apply Qle_bool_iff. apply Qmult_le_0_compat.
    - change 0%Q with (inject_Z 0). now rewrite <- Zle_Qle.
    - unfold Qle. simpl. lia. }
  rewrite H0. unfold Qfloor, Qmult, inject_Z. simpl Qnum. simpl Qden.
  reflexivity.
Qed.

(** X14.  [get_true_color_rgb_bands] answers with three positions of the
    array.  With coverage of the visible range they are the bands nearest
    to 650, 550 and 450 nm, the ones [DataHandler._estimate_rgb_bands]
    picks.  Without it, an array of at least three bands gets the bands at
    eight, five and two tenths of its length, three different bands in
    decreasing order, and a shorter one gets band 0 three times. *)
Theorem X14_true_color_bands_spread_without_coverage :
  forall (w : list f64) (r g b : Z),
    w <> [] ->
    Utils.get_true_color_rgb_bands (Some w) = (r, g, b) ->
    (0 <= r < len w /\ 0 <= g < len w /\ 0 <= b < len w)
    /\ (visible_coverage w = true ->
        r = Utils.wavelength_to_band_index w 650
        /\ g = Utils.wavelength_to_band_index w 550
        /\ b = Utils.wavelength_to_band_index w 450
        /\ forall h, wavelengths h = Some (WArr w) ->
                     _estimate_rgb_bands h = Some (r, g, b))
    /\ (visible_coverage w = false -> 3 <= len w ->
        r = len w * 8 / 10 /\ g = len w * 5 / 10 /\ b = len w * 2 / 10
        /\ b < g < r)
    /\ (visible_coverage w = false -> len w < 3 ->
        r = 0 /\ g = 0 /\ b = 0).
Proof.
  intros w r g b Hne. unfold Utils.get_true_color_rgb_bands.
  destruct w as [|x w']; [now elim Hne|].
  cbv beta iota zeta. remember (x :: w') as w eqn:Ew.
  fold (visible_coverage w).
  assert (Hn : 1 <= len w)
    by (rewrite Ew; unfold len; cbn [List.length]; lia).
  assert (Hidx : forall t, 0 <= Utils.wavelength_to_band_index w t < len w).
  { intros t. unfold Utils.wavelength_to_band_index.
    replace (len w) with (len (abs_diff w t))
      by (unfold abs_diff, len; now rewrite length_map).
    apply argmin_range. rewrite Ew. discriminate. }
  destruct (visible_coverage w) eqn:Ecov.
  - intros [= <- <- <-].
    split; [auto | split; [|split; discriminate]].
    intros _. repeat split.
    intros h Hw. unfold _estimate_rgb_bands. rewrite Hw, Ew. reflexivity.
  - change (Z.of_nat (List.length w)) with (len w).
    destruct (len w <? 3) eqn:E3.
    + apply Z.ltb_lt in E3. intros [= <- <- <-].
      split; [lia | split; [discriminate | split; [lia | auto]]].
    + apply Z.ltb_ge in E3.
      rewrite !scaled_div by lia.
      pose proof (Z.div_mod (len w * 8) 10 ltac:(lia)) as D8.
      pose proof (Z.mod_pos_bound (len w * 8) 10 ltac:(lia)) as M8.
      pose proof (Z.div_mod (len w * 5) 10 ltac:(lia)) as D5.
      pose proof (Z.mod_pos_bound (len w * 5) 10 ltac:(lia)) as M5.
      pose proof (Z.div_mod (len w * 2) 10 ltac:(lia)) as D2.
      pose proof (Z.mod_pos_bound (len w * 2) 10 ltac:(lia)) as M2.
      set (q8 := len w * 8 / 10) in *.
      set (q5 := len w * 5 / 10) in *.
      set (q2 := len w * 2 / 10) in *.
      replace (Z.min (len w - 1) q8) with q8 by lia.
      replace (Z.min (len w - 1) q5) with q5 by lia.
      replace (Z.min (len w - 1) q2) with q2 by lia.
      replace (q8 =? q5) with false by (symmetry; apply Z.eqb_neq; lia).
      replace (q2 =? q5) with false by (symmetry; apply Z.eqb_neq; lia).
      replace (q2 =? q8) with false by (symmetry; apply Z.eqb_neq; lia).
      intros [= <- <- <-].
      split; [lia | split; [discriminate | split; [|lia]]].
      intros _ _. repeat split; lia.
Qed.

End BandChoiceFacts.

Lemma X14_true_color_bands_spread_without_coverage_witness :
  Utils.get_true_color_rgb_bands (Some Examples.swir) = (3, 2, 0)
  /\ 0 < 2 < 3.
Proof.
  destruct (X14_true_color_bands_spread_without_coverage
              Examples.swir 3 2 0)
    as (_ & _ & Hspread & _).
  - discriminate.
  - vm_compute. reflexivity.
  - split; [vm_compute; reflexivity|].
    destruct Hspread as (_ & _ & _ & Hlt);
      [vm_compute; reflexivity | vm_compute; discriminate | exact Hlt].
Defined.

(* ================================================================== *)
(** * Properties of [find_common_wavelengths] *)
(* ================================================================== *)

Section CommonWavelengthFacts.
Import Num NdArray Env PyStr Envi Handler Props Accessors Notions.
Import Toolbox ToolNotions.












End CommonWavelengthFacts.


(* ================================================================== *)
(** * Properties of [validate_envi_file_pair] *)
(* ================================================================== *)

Section PairFacts.
Import Num NdArray Env PyStr Envi Handler Props Accessors Notions.
Import Toolbox ToolNotions.

Lemma find_app_first {A} (f : A -> bool) (l1 l2 : list A) :
  find f (l1 ++ l2)
  = match find f l1 with Some x => Some x | None => find f l2 end.
Proof.
  induction l1 as [|x l1 IH]; [reflexivity|]. simpl.
  now destruct (f x).
Qed.

(** X16.  [validate_envi_file_pair] refuses a data file that does not
    exist.  For one that exists it returns the header
    [DataHandler._find_header_file] finds whenever that search finds one;
    a header it returns exists; and when it returns none, that search
    finds none either. *)
Theorem X16_validate_pair_agrees_with_header_search :
  forall (fs : filesystem) (data_file : string),
    (exists_ fs data_file = false ->
     validate_envi_file_pair fs data_file = (false, None, None))
    /\ (exists_ fs data_file = true ->
        (forall hf,
            _find_header_file fs data_file = Some hf ->
            validate_envi_file_pair fs data_file
            = (true, Some data_file, Some hf))
        /\ (forall ok d hf,
               validate_envi_file_pair fs data_file = (ok, d, Some hf) ->
               ok = true /\ d = Some data_file /\ exists_ fs hf = true)
        /\ (forall ok d,
               validate_envi_file_pair fs data_file = (ok, d, None) ->
               ok = false /\ d = Some data_file
               /\ _find_header_file fs data_file = None)).
Proof.
  intros fs data_file. unfold validate_envi_file_pair, _find_header_file,
    first_existing.
  set (three := [ (data_file ++ ".hdr")%string;
                  (fst (PyPath.splitext data_file) ++ ".hdr")%string;
                  PyPath.replace ".bip" ".hdr"
                    (PyPath.replace ".bil" ".hdr"
                       (PyPath.replace ".bsq" ".hdr" data_file)) ]).
  split.
  - intros ->. reflexivity.
  - intros ->. cbn [negb]. cbv zeta.
    match goal with
    | |- context [find (exists_ fs) (if ?c then three ++ ?more else three)] =>
        remember (find (exists_ fs) (if c then three ++ more else three))
          as found eqn:Efound;
        assert (Hfind : forall hf, find (exists_ fs) three = Some hf ->
                                   found = Some hf)
          by (intros hf H; subst found; destruct c; [|exact H];
              now rewrite find_app_first, H);
        assert (Hnone : found = None -> find (exists_ fs) three = None)
          by (subst found; destruct c; [|auto]; rewrite find_app_first;
              destruct (find (exists_ fs) three); [discriminate | auto]);
        assert (Hsome : forall hf, found = Some hf -> exists_ fs hf = true)
          by (intros hf H; subst found; now apply find_some in H)
    end.
    clear Efound. split; [|split].
    + intros hf H. now rewrite (Hfind hf H).
    + intros ok d hf. destruct found as [x|]; intros [= <- <- <-]. auto.
    + intros ok d. destruct found as [x|]; intros [= <- <-]. auto.
Qed.

End PairFacts.

(* ================================================================== *)
(** * Properties of [dict] assignment *)
(* ================================================================== *)

Section DictFacts.
Import PyStr Env PyVal.

Lemma lookup_assoc_set_same {V} (key : string) (v : V)
  (d : list (string * V)) :
  lookup key (assoc_set key v d) = Some v.
Proof.
  induction d as [|[k w] r IH]; simpl.
  - now rewrite String.eqb_refl.
  - destruct (String.eqb k key) eqn:E; simpl; rewrite E; auto.
Qed.

Lemma lookup_assoc_set_other {V} (key key' : string) (v : V)
  (d : list (string * V)) :
  key <> key' -> lookup key' (assoc_set key v d) = lookup key' d.
Proof.
  intros Hne. induction d as [|[k w] r IH]; simpl.
  - apply String.eqb_neq in Hne. now rewrite Hne.
  - destruct (String.eqb k key) eqn:E; simpl.
    + apply String.eqb_eq in E. subst k.
      apply String.eqb_neq in Hne. now rewrite Hne.
    + destruct (String.eqb k key'); auto.
Qed.

End DictFacts.

(* ================================================================== *)
(** * Properties of the configuration *)
(* ================================================================== *)

Section ConfigFacts.
Import PyStr Env PyVal Config ConfigNotions.

Lemma store_set_length (a : nat) (d : list (string * cval)) (s : store) :
  List.length (store_set a d s) = List.length s.
Proof.
  revert a. induction s as [|x r IH]; intros [|a]; simpl; auto.
Qed.

Lemma store_set_same (a : nat) (d d0 : list (string * cval)) (s : store) :
  nth_error s a = Some d0 -> nth_error (store_set a d s) a = Some d.
Proof.
  revert a. induction s as [|x r IH]; intros [|a]; simpl; try discriminate.
  - reflexivity.
  - apply IH.
Qed.

Lemma store_set_other (a b : nat) (d : list (string * cval)) (s : store) :
  a <> b -> nth_error (store_set a d s) b = nth_error s b.
Proof.
  revert a b. induction s as [|x r IH]; intros [|a] [|b] H; simpl; auto;
    try (now elim H).
Qed.

Lemma nth_error_known {A} (l : list A) (n : nat) (x : A) :
  nth_error l n = Some x -> (n < List.length l)%nat.
Proof. intros H. apply nth_error_Some. congruence. Qed.

Lemma set_keys_cons (s : store) (key k2 : string) (rest : list string)
  (value : cval) (a : nat) (d : list (string * cval)) :
  nth_error s a = Some d ->
  set_keys s (key :: k2 :: rest) value (CDict a)
  = match lookup key d with
    | Some section => set_keys s (k2 :: rest) value section
    | None =>
        set_keys (store_set a (assoc_set key (CDict (List.length s)) d) s
                  ++ [[]])
                 (k2 :: rest) value (CDict (List.length s))
    end.
Proof. intros H. cbn [set_keys]. now rewrite H. Qed.

Lemma get_keys_cons (s : store) (key : string) (rest : list string)
  (a : nat) (d : list (string * cval)) :
  nth_error s a = Some d ->
  get_keys s (key :: rest) (CDict a)
  = match lookup key d with
    | Some v => get_keys s rest v
    | None => None
    end.
Proof. intros H. cbn [get_keys]. now rewrite H. Qed.

Lemma set_keys_last (s : store) (last : string) (value : cval) (a : nat)
  (d : list (string * cval)) :
  nth_error s a = Some d ->
  set_keys s [last] value (CDict a)
  = (store_set a (assoc_set last value d) s, true).
Proof. intros H. cbn [set_keys]. now rewrite H. Qed.

(** The store after a missing key got its new [dict]. *)
Lemma extended_new (s : store) (a : nat) (d : list (string * cval)) :
  nth_error (store_set a d s ++ [[]]) (List.length s) = Some [].
Proof.
  rewrite nth_error_app2 by (rewrite store_set_length; lia).
  rewrite store_set_length, Nat.sub_diag. reflexivity.
Qed.

Lemma extended_old (s : store) (a b : nat) (d d0 : list (string * cval)) :
  nth_error s a = Some d0 ->
  nth_error (store_set a d s ++ [[]]) b
  = if Nat.eqb a b then Some d
    else if Nat.ltb b (List.length s) then nth_error s b
         else if Nat.eqb b (List.length s) then Some [] else None.
Proof.
  intros Ha. pose proof (nth_error_known _ _ _ Ha) as Hlt.
  destruct (Nat.eqb a b) eqn:E.
  - apply Nat.eqb_eq in E. subst b.
    rewrite nth_error_app1 by (rewrite store_set_length; lia).
    now apply store_set_same with (d0 := d0).
  - apply Nat.eqb_neq in E.
    destruct (Nat.ltb b (List.length s)) eqn:El.
    + apply Nat.ltb_lt in El.
      rewrite nth_error_app1 by (rewrite store_set_length; lia).
      now apply store_set_other.
    + apply Nat.ltb_ge in El.
      destruct (Nat.eqb b (List.length s)) eqn:Eb.
      * apply Nat.eqb_eq in Eb. subst b. apply extended_new.
      * apply Nat.eqb_neq in Eb. apply nth_error_None.
        rewrite length_app, store_set_length. simpl. lia.
Qed.

(** From a new, empty [dict] the assignment always succeeds. *)
Lemma set_keys_from_empty (keys : list string) (value : cval) :
  forall (s : store) (n : nat),
    keys <> [] -> nth_error s n = Some [] ->
    snd (set_keys s keys value (CDict n)) = true.
Proof.
  induction keys as [|key rest IH]; intros s n Hne Hn; [now elim Hne|].
  destruct rest as [|k2 rest].
  - now rewrite (set_keys_last _ _ _ _ _ Hn).
  - rewrite (set_keys_cons _ _ _ _ _ _ _ Hn). cbn [lookup].
    apply IH; [discriminate | apply extended_new].
Qed.

(** What the assignment leaves alone: every entry of an object of the
    store that is not one of the lookups of the path. *)
Lemma set_keys_frame (keys : list string) (value : cval) :
  forall (s : store) (v : cval) (b : nat) (d : list (string * cval))
         (key' : string),
    nth_error s b = Some d ->
    ~ In (b, key') (lookups s keys v) ->
    exists d',
      nth_error (fst (set_keys s keys value v)) b = Some d'
      /\ lookup key' d' = lookup key' d.
Proof.
  induction keys as [|key rest IH]; intros s v b d key' Hb Hnot.
  - exists d. destruct v as [| | | | | |a]; simpl; auto.
    destruct (nth_error s a); auto.
  - destruct v as [| | | | | |a]; try (exists d; simpl; now auto).
    destruct (nth_error s a) as [da|] eqn:Ha;
      [|exists d; cbn [set_keys]; rewrite Ha; now auto].
    cbn [lookups] in Hnot. rewrite Ha in Hnot.
    destruct rest as [|k2 rest].
    + rewrite (set_keys_last _ _ _ _ _ Ha). cbn [fst].
      destruct (Nat.eq_dec a b) as [->|Hab].
      * rewrite (store_set_same _ _ _ _ Ha). eexists. split; [reflexivity|].
        rewrite Hb in Ha. injection Ha as <-.
        apply lookup_assoc_set_other. intros ->. apply Hnot. now left.
      * rewrite store_set_other by exact Hab. now exists d.
    + rewrite (set_keys_cons _ _ _ _ _ _ _ Ha).
      destruct (lookup key da) as [sub|] eqn:El.
      * apply IH; [exact Hb|]. intros Hin. apply Hnot. now right.
      * pose proof (nth_error_known _ _ _ Hb) as Hlt.
        assert (Hb1 : exists d1,
                   nth_error (store_set a (assoc_set key
                                             (CDict (List.length s)) da) s
                              ++ [[]]) b = Some d1
                   /\ lookup key' d1 = lookup key' d).
        { rewrite (extended_old _ _ _ _ _ Ha).
          destruct (Nat.eqb a b) eqn:E.
          - apply Nat.eqb_eq in E. subst b. eexists. split; [reflexivity|].
            rewrite Hb in Ha. injection Ha as <-.
            apply lookup_assoc_set_other. intros ->. apply Hnot. now left.
          - apply Nat.ltb_lt in Hlt. rewrite Hlt. now exists d. }
        destruct Hb1 as (d1 & Hd1 & Hl1).
        destruct (IH _ (CDict (List.length s)) b d1 key' Hd1) as (d' & Hd' & Hl').
        { cbn [lookups]. rewrite extended_new. cbn [lookup].
          intros [H|[]]. injection H as H _. lia. }
        exists d'. split; [exact Hd'|]. now rewrite Hl'.
Qed.

Lemma set_keys_get (keys : list string) (value : cval) :
  forall (s : store) (v : cval),
    snd (set_keys s keys value v) = true ->
    NoDup (map fst (lookups s keys v)) ->
    get_keys (fst (set_keys s keys value v)) keys v = Some value.
Proof.
  induction keys as [|key rest IH]; intros s v Hok Hnd.
  - destruct v as [| | | | | |a]; try discriminate.
    simpl in Hok. destruct (nth_error s a); discriminate.
  - destruct v as [| | | | | |a]; try discriminate.
    destruct (nth_error s a) as [da|] eqn:Ha;
      [|cbn [set_keys] in Hok; rewrite Ha in Hok; discriminate].
    cbn [lookups] in Hnd. rewrite Ha in Hnd.
    destruct rest as [|k2 rest].
    + rewrite (set_keys_last _ _ _ _ _ Ha). cbn [fst get_keys].
      rewrite (store_set_same _ _ _ _ Ha), lookup_assoc_set_same.
      reflexivity.
    + rewrite (set_keys_cons _ _ _ _ _ _ _ Ha) in Hok |- *.
      destruct (lookup key da) as [sub|] eqn:El.
      * cbn [map fst] in Hnd. apply NoDup_cons_iff in Hnd as [Hnotin Hnd].
        destruct (set_keys_frame (k2 :: rest) value s sub a da key Ha)
          as (d' & Hd' & Hl').
        { intros Hin. apply Hnotin.
          change a with (fst (a, key)). now apply in_map. }
        rewrite (get_keys_cons _ _ _ _ _ Hd'), Hl', El. now apply IH.
      * destruct (set_keys_frame (k2 :: rest) value
                    (store_set a (assoc_set key (CDict (List.length s)) da) s
                     ++ [[]])
                    (CDict (List.length s)) a
                    (assoc_set key (CDict (List.length s)) da) key)
          as (d' & Hd' & Hl').
        { rewrite (extended_old _ _ _ _ _ Ha). now rewrite Nat.eqb_refl. }
        { cbn [lookups]. rewrite extended_new. cbn [lookup].
          pose proof (nth_error_known _ _ _ Ha).
          intros [H'|[]]. injection H' as H' _. lia. }
        rewrite (get_keys_cons _ _ _ _ _ Hd'), Hl', lookup_assoc_set_same.
        apply IH; [exact Hok|].
        cbn [lookups]. rewrite extended_new. cbn [lookup map].
        repeat constructor. intros [].
Qed.

Lemma set_keys_failure (keys : list string) (value : cval) :
  forall (s : store) (v : cval),
    keys <> [] ->
    snd (set_keys s keys value v) = false ->
    fst (set_keys s keys value v) = s
    /\ exists (n : nat) (w : cval),
         (n < List.length keys)%nat
         /\ get_keys s (firstn n keys) v = Some w
         /\ is_dict_of s w = false.
Proof.
  induction keys as [|key rest IH]; intros s v Hne Hfail; [now elim Hne|].
  assert (Hstop : is_dict_of s v = false ->
                  fst (set_keys s (key :: rest) value v) = s
                  /\ exists (n : nat) (w : cval),
                       (n < List.length (key :: rest))%nat
                       /\ get_keys s (firstn n (key :: rest)) v = Some w
                       /\ is_dict_of s w = false).
  { intros Hv. split.
    - destruct v as [| | | | | |a]; try reflexivity.
      cbn [set_keys]. destruct (nth_error s a) eqn:Ha; [|reflexivity].
      apply nth_error_known in Ha. apply Nat.ltb_ge in Hv. lia.
    - exists 0%nat, v. split; [simpl; lia | split; [reflexivity | exact Hv]]. }
  destruct v as [| | | | | |a]; try (apply Hstop; reflexivity).
  destruct (nth_error s a) as [da|] eqn:Ha.
  - destruct rest as [|k2 rest].
    + rewrite (set_keys_last _ _ _ _ _ Ha) in Hfail. discriminate.
    + rewrite (set_keys_cons _ _ _ _ _ _ _ Ha) in Hfail |- *.
      destruct (lookup key da) as [sub|] eqn:El.
      * destruct (IH s sub) as (Hs & n & w & Hn & Hget & Hw);
          [discriminate | exact Hfail |].
        split; [exact Hs|]. exists (S n), w.
        split; [simpl in *; lia|]. split; [|exact Hw].
        rewrite firstn_cons. cbn [get_keys]. now rewrite Ha, El.
      * rewrite set_keys_from_empty in Hfail;
          [discriminate | discriminate | apply extended_new].
  - apply Hstop. simpl. apply Nat.ltb_ge. now apply nth_error_None.
Qed.

Lemma closed_lookup (s : store) (a b : nat) (d : list (string * cval))
  (key : string) :
  closed s = true -> nth_error s a = Some d ->
  lookup key d = Some (CDict b) -> (b < List.length s)%nat.
Proof.
  unfold closed. intros Hc Ha Hl.
  rewrite forallb_forall in Hc. specialize (Hc d (nth_error_In _ _ Ha)).
  rewrite forallb_forall in Hc.
  assert (Hin : In (key, CDict b) d \/ exists k, In (k, CDict b) d).
  { clear -Hl. induction d as [|[k w] r IH]; [discriminate|].
    simpl in Hl. destruct (String.eqb k key).
    - injection Hl as ->. right. exists k. now left.
    - destruct (IH Hl) as [H|[k' H]]; [left | right; exists k']; now right. }
  destruct Hin as [Hin|[k Hin]]; specialize (Hc _ Hin); simpl in Hc;
    now apply Nat.ltb_lt in Hc.
Qed.

(** A path none of whose lookups is a lookup of the assigned path reads
    the same before and after. *)
Lemma get_keys_frame (keys : list string) (value : cval) (s : store)
  (root : cval) :
  closed s = true ->
  forall (other : list string) (v : cval),
    is_dict_of s v = true \/ (forall a, v <> CDict a) ->
    (forall e, In e (lookups s other v) -> ~ In e (lookups s keys root)) ->
    get_keys (fst (set_keys s keys value root)) other v
    = get_keys s other v.
Proof.
  intros Hc. induction other as [|key' rest IH]; intros v Hv Hdisj.
  - reflexivity.
  - destruct v as [| | | | | |b]; try reflexivity.
    destruct Hv as [Hv|Hv]; [|now elim (Hv b)].
    simpl in Hv. apply Nat.ltb_lt in Hv.
    destruct (nth_error s b) as [d|] eqn:Hb;
      [|apply nth_error_None in Hb; lia].
    destruct (set_keys_frame keys value s root b d key' Hb) as (d' & Hd' & Hl').
    { apply Hdisj. cbn [lookups]. now left. }
    cbn [get_keys]. rewrite Hd', Hl', Hb.
    destruct (lookup key' d) as [sub|] eqn:El; [|reflexivity].
    apply IH.
    + destruct sub as [| | | | | |c]; try (right; intros a; discriminate).
      left. simpl. apply Nat.ltb_lt. exact (closed_lookup _ _ _ _ _ Hc Hb El).
    + intros e He. apply Hdisj. cbn [lookups]. rewrite Hb, El. now right.
Qed.

(** X17.  [ConfigManager.set] assigns into the [dict] objects it reaches,
    in place.  When it returns and its path does not pass through one
    [dict] twice, [ConfigManager.get] with the same path returns the
    stored value, whatever default it is given.  A path none of whose
    lookups (the [dict] looked into and the key) is a lookup of the
    assigned path reads as before; a [dict] held under two keys is one
    object, so two paths that reach the same key of it, each through one
    of the two keys, share that lookup.  When [set] raises nothing has
    changed, and a proper prefix of the path leads to a value that is not
    a [dict]. *)
Theorem X17_config_get_returns_what_set_stored :
  forall (m : ConfigManager) (key_path : string) (value : cval),
    let keys := split_char "." key_path in
    let root := CDict (config m) in
    let r := set m key_path value in
    (snd r = true ->
     NoDup (map fst (lookups (objects m) keys root)) ->
     forall default_value, get (fst r) key_path default_value = value)
    /\ (snd r = true ->
        closed (objects m) = true ->
        forall other default_value,
          (forall e,
              In e (lookups (objects m) (split_char "." other) root) ->
              ~ In e (lookups (objects m) keys root)) ->
          get (fst r) other default_value = get m other default_value)
    /\ (snd r = false ->
        fst r = m
        /\ exists (n : nat) (w : cval),
             (n < List.length keys)%nat
             /\ get_keys (objects m) (firstn n keys) root = Some w
             /\ is_dict_of (objects m) w = false).
Proof.
  intros m key_path value keys root r.
  assert (Er : r = (MkConfig (config_file m)
                             (fst (set_keys (objects m) keys value root))
                             (config m),
                    snd (set_keys (objects m) keys value root))).
  { subst r keys root. unfold set.
    now destruct (set_keys (objects m) (split_char "." key_path) value
                           (CDict (config m))). }
  rewrite Er. cbn [fst snd]. unfold get. cbn [objects config].
  fold keys. fold root. split; [|split].
  - intros Hok Hnd d. now rewrite (set_keys_get keys value _ _ Hok Hnd).
  - intros Hok Hc other d Hdisj.
    rewrite (get_keys_frame keys value _ root Hc); [reflexivity| |exact Hdisj].
    left. subst root. simpl. apply Nat.ltb_lt.
    destruct (nth_error (objects m) (config m)) as [d0|] eqn:E;
      [now apply nth_error_known in E|].
    exfalso. destruct keys; cbn [set_keys] in Hok; rewrite E in Hok;
      discriminate.
  - intros Hfail.
    destruct (set_keys_failure keys value (objects m) root
                (split_char_nonempty "." key_path) Hfail) as [Hs Hex].
    split; [|exact Hex]. rewrite Hs. now destruct m.
Qed.

End ConfigFacts.

(** The defaults after [set('display.auto_scale', False)]: the path reads
    [False], and [ui.window_width], which shares no lookup with it, reads
    1200 as before. *)
Lemma X17_config_get_returns_what_set_stored_witness :
  let m := Config.init None in
  let r := Config.set m "display.auto_scale" (Config.CBool false) in
  snd r = true
  /\ Config.get (fst r) "display.auto_scale" Config.CNone = Config.CBool false
  /\ Config.get (fst r) "ui.window_width" Config.CNone = Config.CInt 1200.
Proof.
  intros m r. subst r.
  destruct (X17_config_get_returns_what_set_stored
              m "display.auto_scale" (Config.CBool false))
    as (Hget & Hframe & _).
  assert (Hok : snd (Config.set m "display.auto_scale" (Config.CBool false))
                = true) by reflexivity.
  split; [exact Hok | split].
  - apply (Hget Hok). vm_compute. repeat constructor.
    + intros [H|[]]. discriminate H.
    + intros [].
  - rewrite (Hframe Hok eq_refl "ui.window_width" Config.CNone).
    + reflexivity.
    + vm_compute. intros e [<-|[<-|[]]] [H|[H|[]]]; discriminate H.
Defined.

(** A [dict] held under two keys is one object: after
    [set('copy', get('display'))], an assignment under [display] shows
    under [copy] as well. *)
Lemma shared_dict_changes_under_both_keys :
  let m0 := Config.init None in
  let m1 := fst (Config.set m0 "copy" (Config.get m0 "display" Config.CNone)) in
  let m2 := fst (Config.set m1 "display.auto_scale" (Config.CBool false)) in
  Config.get m1 "copy.auto_scale" Config.CNone = Config.CBool true
  /\ Config.get m2 "display.auto_scale" Config.CNone = Config.CBool false
  /\ Config.get m2 "copy.auto_scale" Config.CNone = Config.CBool false.
Proof. vm_compute. repeat split; reflexivity. Qed.

(* ================================================================== *)
(** * Properties of the dataset manager *)
(* ================================================================== *)

Section ManagerFacts.
Import PyStr Env PyVal Manager ManagerNotions.

Lemma contains_In {V} (key : string) (d : list (string * V)) :
  contains key d = true <-> In key (map fst d).
Proof.
  unfold contains. induction d as [|[k v] r IH]; simpl.
  - split; [discriminate | tauto].
  - destruct (String.eqb k key) eqn:E.
    + apply String.eqb_eq in E. split; auto.
    + apply String.eqb_neq in E. rewrite IH. split; [auto|].
      intros [H|H]; [contradiction | exact H].
Qed.

Lemma contains_same_keys {V W} (key : string) (d : list (string * V))
  (d' : list (string * W)) :
  map fst d = map fst d' -> contains key d = contains key d'.
Proof.
  intros H. destruct (contains key d) eqn:E.
  - symmetry. apply contains_In. rewrite <- H. now apply contains_In.
  - destruct (contains key d') eqn:E'; [|reflexivity].
    apply contains_In in E'. rewrite <- H in E'. apply contains_In in E'.
    congruence.
Qed.

Lemma In_lookup {V} (key : string) (d : list (string * V)) :
  In key (map fst d) -> exists v, lookup key d = Some v.
Proof.
  intros H. apply contains_In in H. unfold contains in H.
  destruct (lookup key d) as [v|]; [now exists v | discriminate].
Qed.

Lemma keys_assoc_set {V} (key : string) (v : V) (d : list (string * V)) :
  map fst (assoc_set key v d)
  = if contains key d then map fst d else map fst d ++ [key].
Proof.
  unfold contains. induction d as [|[k w] r IH]; simpl; [reflexivity|].
  destruct (String.eqb k key) eqn:E; simpl.
  - reflexivity.
  - rewrite IH. now destruct (lookup key r).
Qed.

Lemma keys_assoc_del {V} (key : string) (d : list (string * V)) :
  map fst (assoc_del key d)
  = filter (fun k => negb (String.eqb k key)) (map fst d).
Proof.
  unfold assoc_del. induction d as [|[k w] r IH]; simpl; [reflexivity|].
  destruct (String.eqb k key); simpl; now rewrite IH.
Qed.

Lemma lookup_assoc_del_same {V} (key : string) (d : list (string * V)) :
  lookup key (assoc_del key d) = None.
Proof.
  unfold assoc_del. induction d as [|[k w] r IH]; simpl; [reflexivity|].
  destruct (String.eqb k key) eqn:E; simpl; [exact IH|].
  now rewrite E.
Qed.

Lemma lookup_assoc_del_other {V} (key key' : string)
  (d : list (string * V)) :
  key <> key' -> lookup key' (assoc_del key d) = lookup key' d.
Proof.
  intros Hne. unfold assoc_del.
  induction d as [|[k w] r IH]; simpl; [reflexivity|].
  destruct (String.eqb k key) eqn:E; simpl.
  - apply String.eqb_eq in E. subst k. apply String.eqb_neq in Hne.
    now rewrite Hne.
  - now rewrite IH.
Qed.

Lemma NoDup_keys_assoc_set {V} (key : string) (v : V)
  (d : list (string * V)) :
  NoDup (map fst d) -> NoDup (map fst (assoc_set key v d)).
Proof.
  intros H. rewrite keys_assoc_set. destruct (contains key d) eqn:E.
  - exact H.
  - apply NoDup_app.
    + exact H.
    + repeat constructor. intros [].
    + intros a Ha [<-|[]]. apply contains_In in Ha. congruence.
Qed.

Lemma In_keys_assoc_set {V} (key a : string) (v : V)
  (d : list (string * V)) :
  In a (map fst d) -> In a (map fst (assoc_set key v d)).
Proof.
  intros H. rewrite keys_assoc_set.
  destruct (contains key d); [exact H|]. apply in_or_app. now left.
Qed.

Lemma In_keys_assoc_set_new {V} (key : string) (v : V)
  (d : list (string * V)) :
  In key (map fst (assoc_set key v d)).
Proof.
  apply contains_In. unfold contains. now rewrite lookup_assoc_set_same.
Qed.

Lemma append_length (a b : string) :
  String.length (a ++ b)%string = (String.length a + String.length b)%nat.
Proof. induction a as [|c a IH]; simpl; [reflexivity | now rewrite IH]. Qed.

Lemma renamed_differs (name hms : string) :
  (name ++ "_" ++ hms)%string <> name.
Proof.
  intros H. apply (f_equal String.length) in H.
  rewrite !append_length in H. simpl in H. lia.
Qed.

Lemma add_dataset_consistent (hms iso : string) (m : DataManager)
  (name : string) (h : Handler.DataHandler)
  (si : option (list (string * pyval))) :
  consistent m -> consistent (fst (add_dataset hms iso m name h si)).
Proof.
  intros (Hnd & Hkeys & Hact). unfold add_dataset, consistent, names in *.
  cbn [fst datasets metadata active_dataset].
  set (name' := if contains name (datasets m) then _ else name).
  split; [|split].
  - now apply NoDup_keys_assoc_set.
  - rewrite !keys_assoc_set.
    rewrite (contains_same_keys name' (metadata m) (datasets m) Hkeys).
    now rewrite Hkeys.
  - destruct (active_dataset m) as [a|].
    + now apply In_keys_assoc_set.
    + apply In_keys_assoc_set_new.
Qed.

Lemma set_active_consistent (m : DataManager) (name : string) :
  consistent m -> consistent (fst (set_active_dataset m name)).
Proof.
  intros (Hnd & Hkeys & Hact). unfold set_active_dataset.
  destruct (contains name (datasets m)) eqn:E; cbn [fst].
  - unfold consistent, names in *. cbn [datasets metadata active_dataset].
    repeat split; auto. now apply contains_In.
  - now repeat split.
Qed.

Lemma remove_consistent (m : DataManager) (name : string) :
  consistent m ->
  exists m' ok, remove_dataset m name = Some (m', ok) /\ consistent m'.
Proof.
  intros (Hnd & Hkeys & Hact). unfold remove_dataset.
  rewrite (contains_same_keys name (metadata m) (datasets m) Hkeys).
  destruct (contains name (datasets m)) eqn:E.
  - eexists _, true. split; [reflexivity|].
    unfold consistent, names in *. cbn [datasets metadata active_dataset].
    split; [|split].
    + rewrite keys_assoc_del. now apply NoDup_filter.
    + rewrite !keys_assoc_del. now rewrite Hkeys.
    + destruct (active_dataset m) as [a|].
      * destruct (String.eqb a name) eqn:Ea.
        -- destruct (assoc_del name (datasets m)) as [|[first x] r];
             [reflexivity | now left].
        -- rewrite keys_assoc_del. apply filter_In. split; [exact Hact|].
           now rewrite Ea.
      * now rewrite Hact.
  - eexists m, false. split; [reflexivity|]. now repeat split.
Qed.

Lemma init_consistent : consistent init.
Proof. repeat split; constructor. Qed.

Lemma run_consistent (cs : list call) :
  forall m, consistent m ->
            exists m', run m cs = Some m' /\ consistent m'.
Proof.
  induction cs as [|c rest IH]; intros m Hm.
  - now exists m.
  - cbn [run]. destruct c as [hms iso name h si | name | name |]; cbn [step].
    + apply IH. now apply add_dataset_consistent.
    + apply IH. now apply set_active_consistent.
    + destruct (remove_consistent m name Hm) as (m' & ok & -> & Hm').
      now apply IH.
    + apply IH. apply init_consistent.
Qed.

Lemma list_entries_total (md : list (string * meta))
  (active : option string) :
  forall (items : list (string * Handler.DataHandler)),
    (forall k, In k (map fst items) -> In k (map fst md)) ->
    exists l,
      list_entries md active items = Some l
      /\ map l_name l = map fst items
      /\ map l_is_active l
         = map (fun k => match active with
                         | Some a => String.eqb k a
                         | None => false
                         end) (map fst items).
Proof.
  induction items as [|[name h] rest IH]; intros Hin.
  - now exists [].
  - cbn [list_entries].
    destruct (In_lookup name md (Hin name (or_introl eq_refl))) as [e ->].
    destruct IH as (l & -> & Hn & Ha).
    { intros k Hk. apply Hin. now right. }
    eexists. split; [reflexivity|]. cbn [map l_name l_is_active fst].
    now rewrite Hn, Ha.
Qed.

Lemma filter_map_length {A B} (f : A -> B) (p : B -> bool) (l : list A) :
  List.length (filter p (map f l))
  = List.length (filter (fun x => p (f x)) l).
Proof.
  induction l as [|x r IH]; simpl; [reflexivity|].
  destruct (p (f x)); simpl; now rewrite IH.
Qed.

Lemma count_absent (a : string) (l : list string) :
  ~ In a l ->
  List.length (filter (fun k => String.eqb k a) l) = 0%nat.
Proof.
  induction l as [|k r IH]; simpl; [reflexivity|]. intros H.
  destruct (String.eqb k a) eqn:E.
  - apply String.eqb_eq in E. subst k. exfalso. apply H. now left.
  - apply IH. intros Hr. apply H. now right.
Qed.

Lemma count_once (a : string) (l : list string) :
  NoDup l -> In a l ->
  List.length (filter (fun k => String.eqb k a) l) = 1%nat.
Proof.
  induction 1 as [|k r Hnotin Hnd IH]; simpl; [tauto|].
  intros [->|Hin].
  - rewrite String.eqb_refl. simpl. now rewrite count_absent.
  - destruct (String.eqb k a) eqn:E.
    + apply String.eqb_eq in E. subst k. contradiction.
    + now apply IH.
Qed.

(** X20.  No sequence of [add_dataset], [set_active_dataset],
    [remove_dataset] and [clear_all] calls on a fresh manager raises.
    Afterwards [metadata] holds the names of [datasets], in the same
    order; there is an active name exactly when there is a dataset, and
    [get_dataset] finds a dataset under the active name. *)
Theorem X20_manager_keeps_names_and_active_consistent :
  forall (cs : list call),
  exists m,
    run init cs = Some m
    /\ map fst (metadata m) = map fst (datasets m)
    /\ (active_dataset m = None <-> datasets m = [])
    /\ (forall a, active_dataset m = Some a ->
                  exists h, get_dataset m a = Some h).
Proof.
  intros cs.
  destruct (run_consistent cs init init_consistent)
    as (m & Hrun & Hnd & Hkeys & Hact).
  exists m. unfold names in *. repeat split; auto.
  - intros E. now rewrite E in Hact.
  - intros E. rewrite E in Hact.
    destruct (active_dataset m); [contradiction | reflexivity].
  - intros a E. rewrite E in Hact. now apply In_lookup.
Qed.

(** X21.  In every state the four calls reach from a fresh manager,
    [list_datasets] does not raise and lists the datasets by name, oldest
    first; with at least one dataset exactly one entry is marked active,
    with none no entry is.  [get_active_dataset] returns [None] only when
    there is no dataset or the active dataset has the empty name. *)
Theorem X21_list_datasets_marks_one_active :
  forall (cs : list call),
  exists m l,
    run init cs = Some m
    /\ list_datasets m = Some l
    /\ map l_name l = map fst (datasets m)
    /\ List.length (filter l_is_active l)
       = match datasets m with [] => 0%nat | _ :: _ => 1%nat end
    /\ (get_active_dataset m = None
        <-> datasets m = [] \/ active_dataset m = Some "").
Proof.
  intros cs.
  destruct (run_consistent cs init init_consistent)
    as (m & Hrun & Hnd & Hkeys & Hact).
  unfold names in *.
  destruct (list_entries_total (metadata m) (active_dataset m) (datasets m))
    as (l & Hl & Hn & Ha).
  { intros k Hk. now rewrite Hkeys. }
  exists m, l. split; [exact Hrun|]. split; [exact Hl|].
  split; [exact Hn|]. split.
  - assert (Hf : List.length (filter l_is_active l)
                 = List.length (filter (fun b : bool => b)
                                       (map l_is_active l)))
      by (symmetry; exact (filter_map_length l_is_active (fun b => b) l)).
    rewrite Hf, Ha, filter_map_length.
    destruct (active_dataset m) as [a|]; cbv beta iota.
    + rewrite (count_once a _ Hnd Hact).
      destruct (datasets m); [contradiction | reflexivity].
    + rewrite Hact. reflexivity.
  - unfold get_active_dataset.
    destruct (active_dataset m) as [a|].
    + destruct (String.eqb a "") eqn:Ea.
      * apply String.eqb_eq in Ea. subst a. split; auto.
      * apply String.eqb_neq in Ea.
        destruct (In_lookup a _ Hact) as [h ->]. split; [discriminate|].
        intros [E|E]; [now rewrite E in Hact | congruence].
    + split; auto.
Qed.

(** X22.  [add_dataset] always returns [True] and never replaces the
    dataset held under the given name: a free name gets the new dataset,
    a taken one keeps its dataset and the new one goes under the name
    with the time appended.  Every other name keeps what it had. *)
Theorem X22_add_dataset_keeps_the_named_dataset :
  forall (hms iso : string) (m : DataManager) (name : string)
         (h : Handler.DataHandler) (si : option (list (string * pyval))),
    let r := add_dataset hms iso m name h si in
    let stored := if contains name (datasets m)
                  then (name ++ "_" ++ hms)%string else name in
    snd r = true
    /\ get_dataset (fst r) stored = Some h
    /\ get_dataset (fst r) name
       = (if contains name (datasets m) then get_dataset m name else Some h)
    /\ (forall other, other <> stored ->
                      get_dataset (fst r) other = get_dataset m other).
Proof.
  intros hms iso m name h si. cbv zeta. unfold add_dataset, get_dataset.
  cbn [fst snd datasets].
  destruct (contains name (datasets m)) eqn:E.
  - split; [reflexivity|]. split; [apply lookup_assoc_set_same|]. split.
    + apply lookup_assoc_set_other. apply renamed_differs.
    + intros other Hne. apply lookup_assoc_set_other. congruence.
  - split; [reflexivity|]. split; [apply lookup_assoc_set_same|]. split.
    + apply lookup_assoc_set_same.
    + intros other Hne. apply lookup_assoc_set_other. congruence.
Qed.

(** X23.  [remove_dataset] of a name that is not registered changes
    nothing and returns [False].  When it returns [True] the name is
    gone, every other name keeps its dataset, and if the removed dataset
    was the active one the oldest remaining dataset becomes active, or
    none when nothing remains. *)
Theorem X23_remove_dataset_forgets_only_that_name :
  forall (m : DataManager) (name : string),
    (contains name (datasets m) = false ->
     remove_dataset m name = Some (m, false))
    /\ (forall m',
           remove_dataset m name = Some (m', true) ->
           get_dataset m' name = None
           /\ (forall other, other <> name ->
                             get_dataset m' other = get_dataset m other)
           /\ (active_dataset m = Some name ->
               active_dataset m' = hd_error (map fst (datasets m')))
           /\ (active_dataset m <> Some name ->
               active_dataset m' = active_dataset m)).
Proof.
  intros m name. unfold remove_dataset. split.
  - now intros ->.
  - intros m'. destruct (contains name (datasets m)); [|discriminate].
    destruct (contains name (metadata m)); [|discriminate].
    intros [= <-]. unfold get_dataset. cbn [datasets active_dataset].
    split; [apply lookup_assoc_del_same|]. split.
    + intros other Hne. apply lookup_assoc_del_other. congruence.
    + split.
      * intros ->. rewrite String.eqb_refl.
        now destruct (assoc_del name (datasets m)) as [|[first x] r].
      * intros Hne. destruct (active_dataset m) as [a|]; [|reflexivity].
        destruct (String.eqb a name) eqn:Ea; [|reflexivity].
        apply String.eqb_eq in Ea. subst a. now elim Hne.
Qed.

End ManagerFacts.
